(** * AEPyBaMM parameter pipeline ([src/aepybamm/params.py])

    A shallow embedding of the parameter derivation pipeline of AEPyBaMM and
    the properties its specification states about it.

    Conventions of the embedding.
    - Python [str] is [string]; the string methods the pipeline uses
      ([in], [replace], [partition], [lower], [join]) are in [Module Py].
    - Python scalars are IEEE binary64 numbers ([float] of [Floats]), with the
      comparisons of [PrimFloat]; an [int] literal of the source ([0], [1])
      is the float of the same value.
    - A parameter mapping ([pybamm.ParameterValues], used by the pipeline as a
      mutable mapping) is an insertion-ordered association list with unique
      keys, the way a Python [dict] iterates ([Module Dict]).  Lookup of a
      missing key raises [KeyError]; [update(..., check_already_exists=False)]
      is the update of a [dict].
    - A raised exception is [Err e]; in-place mutation of the parameter
      mapping is explicit state passing (the monad [M]), so that the mapping
      a failed call leaves behind can be spoken of.
    - Functions and constants of the repository's other modules ([func],
      [pybamm_tools], [sci_tools]), of PyBaMM and of the Python library are
      the fields of the class [Collaborators]: the pipeline and its
      properties are stated for any implementation of them.  [Module Demo]
      has one to run the pipeline on. *)

From Stdlib Require Import String Ascii List Bool Arith Lia Floats DecimalString.
Import ListNotations.

Set Warnings "-register-all,-inexact-float".

Local Open Scope string_scope.
Local Open Scope list_scope.

(* ================================================================= *)
(** ** Python strings *)

Module Py.

(** [needle in hay] for two strings. *)
Fixpoint str_in (needle hay : string) : bool :=
  match hay with
  | EmptyString => String.prefix needle EmptyString
  | String _ hay' => String.prefix needle hay || str_in needle hay'
  end.

Fixpoint drop (n : nat) (s : string) : string :=
  match n, s with
  | O, _ => s
  | S _, EmptyString => EmptyString
  | S k, String _ s' => drop k s'
  end.

(** [s.replace(old, new)] for a non-empty [old]: every occurrence, leftmost
    first, occurrences never overlapping.  [skip] counts the characters of
    an occurrence still to be passed over. *)
Fixpoint replace_from (old new : string) (skip : nat) (s : string) : string :=
  match s with
  | EmptyString => EmptyString
  | String c s' =>
      match skip with
      | S k => replace_from old new k s'
      | O =>
          if String.prefix old s
          then new ++ replace_from old new (String.length old - 1) s'
          else String c (replace_from old new 0 s')
      end
  end.

(** With an empty [old] Python puts [new] before every character and at
    the end. *)
Fixpoint intersperse (new s : string) : string :=
  match s with
  | EmptyString => new
  | String c s' => new ++ String c (intersperse new s')
  end.

Definition replace (old new s : string) : string :=
  match old with
  | EmptyString => intersperse new s
  | _ => replace_from old new 0 s
  end.

(** The split of [s] at the first occurrence of [sep], if any. *)
Fixpoint split_first (sep s : string) : option (string * string) :=
  if String.prefix sep s then Some (EmptyString, drop (String.length sep) s)
  else
    match s with
    | EmptyString => None
    | String c s' =>
        match split_first sep s' with
        | Some (before, after) => Some (String c before, after)
        | None => None
        end
    end.

(** [s.partition(sep)]. *)
Definition partition (sep s : string) : string * string * string :=
  match split_first sep s with
  | Some (before, after) => (before, sep, after)
  | None => (s, EmptyString, EmptyString)
  end.

Definition lower_ascii (c : ascii) : ascii :=
  let n := nat_of_ascii c in
  if Nat.leb 65 n && Nat.leb n 90 then ascii_of_nat (n + 32) else c.

(** [s.lower()] on ASCII text. *)
Fixpoint lower (s : string) : string :=
  match s with
  | EmptyString => EmptyString
  | String c s' => String (lower_ascii c) (lower s')
  end.

(** [sep.join(l)]. *)
Definition join (sep : string) (l : list string) : string := String.concat sep l.

(** [x in l] for a list of strings. *)
Definition mem (x : string) (l : list string) : bool :=
  existsb (String.eqb x) l.

(** [any(...)] and [all(...)] over booleans. *)
Definition any (l : list bool) : bool := existsb (fun b => b) l.
Definition all (l : list bool) : bool := forallb (fun b => b) l.

(** [zip]. *)
Definition zip {A B} (l : list A) (l' : list B) : list (A * B) := List.combine l l'.

End Py.

(* ================================================================= *)
(** ** Exceptions *)

Inductive exn : Type :=
| ValueError (msg : string)
| KeyError (key : string)
| TypeError (msg : string)
| NotImplementedError (msg : string)
| ZeroDivisionError
| AttributeError (msg : string)
| IndexError
| External (what : string).

Inductive result (A : Type) : Type :=
| Ok (a : A)
| Err (e : exn).
Arguments Ok {A} a.
Arguments Err {A} e.

Definition rbind {A B} (r : result A) (k : A -> result B) : result B :=
  match r with
  | Ok a => k a
  | Err e => Err e
  end.

Declare Scope result_scope.
Delimit Scope result_scope with result.
Notation "'let?' x ':=' r 'in' k" := (rbind r (fun x => k))
  (at level 10, x pattern, r at level 100, k at level 200) : result_scope.
Local Open Scope result_scope.

(** [raise e] when [b] holds. *)
Definition raise_if (b : bool) (e : exn) : result unit :=
  if b then Err e else Ok tt.

(** A loop whose body may raise. *)
Fixpoint rfor {A} (l : list A) (body : A -> result unit) : result unit :=
  match l with
  | [] => Ok tt
  | x :: l' => let? _ := body x in rfor l' body
  end.

Definition is_ok {A} (r : result A) : bool :=
  match r with Ok _ => true | Err _ => false end.

(* ================================================================= *)
(** ** Python dictionaries *)

Module Dict.

Section Ops.
Context {V : Type}.

Definition t := list (string * V).

Definition empty : t := [].

(** [d.get(k)]: [None] when the key is absent. *)
Fixpoint get (d : t) (k : string) : option V :=
  match d with
  | [] => None
  | (k', v) :: d' => if String.eqb k k' then Some v else get d' k
  end.

(** [k in d]. *)
Definition mem (d : t) (k : string) : bool :=
  match get d k with Some _ => true | None => false end.

(** [d[k]]. *)
Definition lookup (d : t) (k : string) : result V :=
  match get d k with Some v => Ok v | None => Err (KeyError k) end.

(** [d[k] = v]: an existing key keeps its place, a new one goes last. *)
Fixpoint set (d : t) (k : string) (v : V) : t :=
  match d with
  | [] => [(k, v)]
  | (k', v') :: d' =>
      if String.eqb k k' then (k', v) :: d' else (k', v') :: set d' k v
  end.

(** The mapping without the key [k]. *)
Definition remove (d : t) (k : string) : t :=
  filter (fun kv => negb (String.eqb k (fst kv))) d.

(** The keys are unique, as in every Python [dict]. *)
Fixpoint unique (d : t) : bool :=
  match d with
  | [] => true
  | (k, _) :: d' => negb (mem d' k) && unique d'
  end.

(** [del d[k]]. *)
Definition del (d : t) (k : string) : result t :=
  if mem d k then Ok (remove d k) else Err (KeyError k).

(** [list(d)]: the keys in insertion order. *)
Definition keys (d : t) : list string := map fst d.

(** [d.update(other)]. *)
Definition update (d other : t) : t :=
  fold_left (fun acc kv => set acc (fst kv) (snd kv)) other d.

End Ops.
Arguments t V : clear implicits.

End Dict.


(* ================================================================= *)
(** ** The state of a call: the parameter mapping, mutated in place *)

(** A computation that reads and writes a mutable object of type [S] and
    may raise; on an exception the object stays as the computation left
    it. *)
Definition M (S A : Type) : Type := S -> result A * S.

Definition mret {S A} (a : A) : M S A := fun s => (Ok a, s).

Definition mbind {S A B} (c : M S A) (k : A -> M S B) : M S B :=
  fun s =>
    match c s with
    | (Ok a, s') => k a s'
    | (Err e, s') => (Err e, s')
    end.

Definition mraise {S A} (e : exn) : M S A := fun s => (Err e, s).

(** A step that only reads the object. *)
Definition mread {S A} (f : S -> result A) : M S A := fun s => (f s, s).

(** A step that replaces the object when it succeeds. *)
Definition mwrite {S} (f : S -> result S) : M S unit :=
  fun s => match f s with Ok s' => (Ok tt, s') | Err e => (Err e, s) end.

Declare Scope m_scope.
Delimit Scope m_scope with m.
Notation "x <- c ;; k" := (mbind c (fun x => k))
  (at level 61, c at next level, right associativity) : m_scope.
Notation "c ;; k" := (mbind c (fun _ => k))
  (at level 61, right associativity) : m_scope.

(** [for x in l: body]. *)
Fixpoint mfor {S A} (l : list A) (body : A -> M S unit) : M S unit :=
  match l with
  | [] => mret tt
  | x :: l' => mbind (body x) (fun _ => mfor l' body)
  end.

(** [for x in l: body], with a local variable of the enclosing function
    that the body may rebind. *)
Fixpoint mfold {S A B} (l : list A) (body : B -> A -> M S B) (b : B) : M S B :=
  match l with
  | [] => mret b
  | x :: l' => mbind (body b x) (fun b' => mfold l' body b')
  end.

(* ================================================================= *)
(** ** Data model *)

(** A parameter value: a scalar, or anything else PyBaMM stores (a callable
    of concentration and temperature, an interpolant, an array), of which
    the pipeline only knows what its collaborators make of it; or such a
    value wrapped with a multiplicative factor, the callable that returns
    [factor] times what the wrapped value gives. *)
Inductive value (obj : Type) : Type :=
| VNum (x : float)
| VObj (o : obj)
| VScaled (factor : float) (f : value obj).
Arguments VNum {obj} x.
Arguments VObj {obj} o.
Arguments VScaled {obj} factor f.

(** A model option: a string, or a tuple of options. *)
Inductive opt : Type :=
| OStr (s : string)
| OTuple (l : list opt).

(** The hysteresis model of one electrode: a string for a single phase, a
    tuple of strings otherwise. *)
Inductive hyst_sel : Type :=
| HStr (s : string)
| HTuple (l : list string).

(** What [json.load] may return. *)
Inductive json : Type :=
| JObject (fields : list (string * json))
| JArray (items : list json)
| JString (s : string)
| JAtom.

(** The objects that may come as [degradation_state]. *)
Inductive ds_arg : Type :=
| DsDict (d : Dict.t float)
| DsNotDict.

(** The objects that may come as [SOC_definition]: a dict, of which the keys
    ["data"] and ["method"] matter, or something else. *)
Inductive soc_arg (soc_data : Type) : Type :=
| SocDict (data : option soc_data) (method : option string)
| SocNotDict.
Arguments SocDict {soc_data} data method.
Arguments SocNotDict {soc_data}.

(** A termination event of a model, and the model: its event list and the
    rest of it. *)
Record event (expr : Type) : Type := Event {
  name : string;
  expression : expr
}.
Arguments Event {expr} name expression.
Arguments name {expr} e.
Arguments expression {expr} e.

Record model (expr body : Type) : Type := Model {
  events : list (event expr);
  rest : body
}.
Arguments Model {expr body} events rest.
Arguments events {expr body} m.
Arguments rest {expr body} m.

(** The functions and constants this file imports from the repository's
    other modules, from PyBaMM and from the Python library. *)
Class Collaborators : Type := {
  (** types of foreign objects *)
  obj : Type;
  coeffs : Type;
  ocv_curve : Type;
  soc_data : Type;
  init_branches : Type;
  event_expr : Type;
  model_body : Type;
  model_class : Type;
  (** [open(fp)] with [json.load], [os.path.dirname], [os.path.join] *)
  read_json : string -> result json;
  path_dirname : string -> string;
  path_join : string -> string -> string;
  (** [pybamm.ParameterValues]: whether the item assignment
      [parameter_values[k] = v] refuses a key the mapping does not have yet
      (as [ParameterValues.update] does unless it is called with
      [check_already_exists=False]) or adds it as a [dict] does *)
  assignment_needs_key : bool;
  (** [pybamm.constants.F * v] *)
  F_times : value obj -> value obj;
  (** [np.interp(x, ocv_soc[:, 1], ocv_soc[:, 0])] *)
  interp_soc_of_ocv : float -> ocv_curve -> result float;
  (** [.func] *)
  _make_generic_func_ce_T : string -> coeffs -> result (value obj);
  _make_j0_func : Dict.t (value obj) -> value obj -> value obj;
  _unflatten : Dict.t (value obj) -> coeffs;
  (** [.pybamm_tools] *)
  _add_hysteresis_heat_source :
    model event_expr model_body -> result (model event_expr model_body);
  _make_hysteresis_compatible : value obj -> value obj;
  get_default_parameter_values : string -> result (Dict.t (value obj));
  get_model_class : string -> result model_class;
  validate_PyBaMM_version : result unit;
  (** [model_class(options=model_opts)] *)
  new_model : model_class -> Dict.t opt -> result (model event_expr model_body);
  (** [.sci_tools] *)
  HYSTERESIS_BRANCH_MAP : Dict.t (Dict.t string);
  HYSTERESIS_BRANCHES_ELECTRODE : list string;
  _get_hysteresis_init_branch_electrode :
    list hyst_sel -> string -> result init_branches;
  add_initial_concentrations :
    list (list string) -> option init_branches -> float -> bool ->
    M (Dict.t (value obj)) unit;
  calc_lithium_inventory : Dict.t (value obj) -> result float;
  convert_soc : float -> soc_data -> ocv_curve -> string -> result float;
  get_ocv_thermodynamic : Dict.t (value obj) -> result ocv_curve
}.

(** Modelled from the spec: [ELECTRODES] of [sci_tools], which is not among
    the source files.  The spec has exactly two electrode roles, negative
    then positive, named in parameter keys as ["{electrode} electrode ..."];
    [params.py] lowers the names where a key needs them in lower case. *)
Definition ELECTRODES : list string := ["Negative"; "Positive"].

(** Modelled from the spec: [PYBAMM_MATERIAL_NAMES] of [pybamm_tools], which
    is not among the source files.  The spec's blended-material prefixes are
    ["Primary:"] and ["Secondary:"]; [params.py] appends [": "] to each
    name. *)
Definition PYBAMM_MATERIAL_NAMES : list string := ["Primary"; "Secondary"].

Definition VALID_MODEL_TYPES : list string := ["DFN"; "SPMe"; "SPM"].
Definition VALID_HYSTERESIS_MODELS : list string := ["none"; "zero-state"; "one-state"].
Definition VALID_HYSTERESIS_BRANCHES : list string := ["average"; "charge"; "discharge"].
Definition VALID_DEGRADATION_KEYS : list string :=
  [ "LAM_NE"; "LAM_PE"; "LLI"; "RI_far_NE"; "RI_far_PE"; "RI_electrolyte";
    "R0_addn [Ohm]" ].

Definition PARAMS_HYSTERESIS_DIFF : list string :=
  [ "lithiation OCP [V]"; "delithiation OCP [V]"; "OCP [V]";
    "OCP entropic change [V.K-1]" ].

(** The arguments of [get_params]. *)
Record args {C : Collaborators} : Type := Args {
  fp : string;
  parameter_set : option string;
  SOC_init : float;
  SOC_definition : option (soc_arg soc_data);
  OCV_init : option float;
  degradation_state : option ds_arg;
  htc_ext : option float;
  model_type : string;
  hysteresis_model : string;
  hysteresis_branch : string;
  hysteresis_preceding_state : string;
  blended_electrode : option (bool * bool);
  add_hysteresis_heat_source : bool;
  extra_model_opts : option (Dict.t opt);
  trim_model_events : bool
}.
Arguments Args {C}.

(* ================================================================= *)
(** ** The pipeline of [params.py] *)

Section Pipeline.
Context {C : Collaborators}.

Local Open Scope float_scope.

(** The parameter mapping. *)
Definition pv : Type := Dict.t (value obj).

(** *** Scalars *)

(** [v != 0] and [v > 0] on a parameter value.  A scalar compares as a
    float; an object that is no scalar is unequal to [0] and has no order
    with it. *)
Definition value_ne0 (v : value obj) : bool :=
  match v with
  | VNum x => negb (x =? 0)
  | VObj _ | VScaled _ _ => true
  end.

Definition value_gt0 (v : value obj) : result bool :=
  match v with
  | VNum x => Ok (0 <? x)
  | VObj _ | VScaled _ _ => Err (TypeError "'>' not supported")
  end.

(** [v * m] and [v + x] for a parameter value [v] and a float; an object
    that is no scalar is taken not to support them, as a callable does
    not. *)
Definition value_mul (v : value obj) (m : float) : result (value obj) :=
  match v with
  | VNum x => Ok (VNum (x * m))
  | VObj _ | VScaled _ _ => Err (TypeError "unsupported operand type(s) for *")
  end.

Definition value_add (v : value obj) (x : float) : result (value obj) :=
  match v with
  | VNum y => Ok (VNum (y + x))
  | VObj _ | VScaled _ _ => Err (TypeError "unsupported operand type(s) for +")
  end.

(** [a / b] on floats raises on a zero divisor. *)
Definition float_div (a b : float) : result float :=
  if b =? 0 then Err ZeroDivisionError else Ok (a / b).

(** Modelled from the spec: [_scale_param] of [pybamm_tools], which is not
    among the source files.  The spec has a parameter, which may be a scalar
    or a synthesized function, rescaled by a factor, and rescaling a
    function means wrapping it with a multiplicative factor, not re-fitting
    it: a scalar is multiplied by the factor, and anything else is kept as
    it is inside the wrapper that multiplies what it returns by the
    factor. *)
Definition _scale_param (param : value obj) (factor : float) : value obj :=
  match param with
  | VNum x => VNum (factor * x)
  | VObj _ | VScaled _ _ => VScaled factor param
  end.

(** *** [apply_degradation_state] *)

Definition key_lithium_inventory : string :=
  "AE: Total cyclable lithium inventory [mol.m-2]".

Definition key_volume_fraction (el : string) : string :=
  el ++ " electrode active material volume fraction".

Definition key_kinetic (el : string) : string :=
  el ++ " electrode exchange-current density [A.m-2]".

Definition volume_fraction_params : list string := map key_volume_fraction ELECTRODES.

Definition kinetic_params : list string := map key_kinetic ELECTRODES.

(** The dict comprehension [{k: parameter_values[k] for k in ks}], built
    onto [acc]. *)
Fixpoint select_keys (parameter_values : pv) (ks : list string) (acc : pv) : result pv :=
  match ks with
  | [] => Ok acc
  | k :: ks' =>
      let? v := Dict.lookup parameter_values k in
      select_keys parameter_values ks' (Dict.set acc k v)
  end.

(** The loop over [zip(["LAM_NE", "LAM_PE"], volume_fraction_params)]. *)
Fixpoint apply_LAM (degradation_state : Dict.t float)
    (zipped : list (string * string)) (updated_volume_fractions : pv) : result pv :=
  match zipped with
  | [] => Ok updated_volume_fractions
  | (loss_factor, param) :: zipped' =>
      match Dict.get degradation_state loss_factor with
      | Some lam =>
          let mul_lam := 1 - lam in
          let? old := Dict.lookup updated_volume_fractions param in
          let? new := value_mul old mul_lam in
          apply_LAM degradation_state zipped' (Dict.set updated_volume_fractions param new)
      | None => apply_LAM degradation_state zipped' updated_volume_fractions
      end
  end.

(** The loop over [zip(["RI_far_NE", "RI_far_PE"], kinetic_params)]. *)
Fixpoint apply_RI_far (parameter_values : pv) (degradation_state : Dict.t float)
    (zipped : list (string * string)) (degradation_scaled_vals : pv) : result pv :=
  match zipped with
  | [] => Ok degradation_scaled_vals
  | (loss_factor, param) :: zipped' =>
      match Dict.get degradation_state loss_factor with
      | Some ri =>
          let? mul_far := float_div 1 (1 + ri) in
          let? old := Dict.lookup parameter_values param in
          apply_RI_far parameter_values degradation_state zipped'
            (Dict.set degradation_scaled_vals param (_scale_param old mul_far))
      | None =>
          apply_RI_far parameter_values degradation_state zipped' degradation_scaled_vals
      end
  end.

(** The loop over the two electrolyte transport parameters. *)
Fixpoint apply_RI_electrolyte (parameter_values : pv) (mul_electrolyte : float)
    (params : list string) (degradation_scaled_vals : pv) : result pv :=
  match params with
  | [] => Ok degradation_scaled_vals
  | param :: params' =>
      let? old := Dict.lookup parameter_values param in
      apply_RI_electrolyte parameter_values mul_electrolyte params'
        (Dict.set degradation_scaled_vals param (_scale_param old mul_electrolyte))
  end.

(** The values [apply_degradation_state] computes from the mapping as it
    finds it, before its one write. *)
Definition degradation_scaled_vals (parameter_values : pv)
    (degradation_state : Dict.t float) : result pv :=
  let vals : pv := Dict.empty in
  let? ncyc := calc_lithium_inventory parameter_values in
  let ncyc :=
    match Dict.get degradation_state "LLI" with
    | Some lli => ncyc * (1 - lli)
    | None => ncyc
    end in
  let vals := Dict.update vals [(key_lithium_inventory, VNum ncyc)] in
  let? updated_volume_fractions :=
    select_keys parameter_values volume_fraction_params Dict.empty in
  let? updated_volume_fractions :=
    apply_LAM degradation_state (Py.zip ["LAM_NE"; "LAM_PE"]%string volume_fraction_params)
      updated_volume_fractions in
  let vals := Dict.update vals updated_volume_fractions in
  let? vals :=
    apply_RI_far parameter_values degradation_state
      (Py.zip ["RI_far_NE"; "RI_far_PE"]%string kinetic_params) vals in
  let? vals :=
    match Dict.get degradation_state "RI_electrolyte" with
    | Some ri =>
        let? mul_electrolyte := float_div 1 (1 + ri) in
        apply_RI_electrolyte parameter_values mul_electrolyte
          ["Electrolyte conductivity [S.m-1]"; "Electrolyte diffusivity [m2.s-1]"]%string
          vals
    | None => Ok vals
    end in
  match Dict.get degradation_state "R0_addn [Ohm]" with
  | Some r0 =>
      let? R0_new :=
        match Dict.get parameter_values "Contact resistance [Ohm]" with
        | Some R0_existing => value_add R0_existing r0
        | None => Ok (VNum (0 + r0))
        end in
      Ok (Dict.update vals [("Contact resistance [Ohm]"%string, R0_new)])
  | None => Ok vals
  end.

Definition apply_degradation_state (degradation_state : Dict.t float) : M pv unit :=
  mwrite (fun parameter_values =>
    let? vals := degradation_scaled_vals parameter_values degradation_state in
    Ok (Dict.update parameter_values vals)).

(** *** [apply_htc_ext] *)

Definition apply_htc_ext (htc_ext : float) : M pv unit :=
  mwrite (fun parameter_values =>
    Ok (Dict.update parameter_values
          [("Total heat transfer coefficient [W.m-2.K-1]"%string, VNum htc_ext)])).

(** *** Electrode phases *)

Definition _get_phases_by_electrode (blended_electrode : bool * bool) : list (list string) :=
  map (fun blended : bool =>
         if blended then map (fun s => s ++ ": ")%string PYBAMM_MATERIAL_NAMES
         else [""%string])
      [fst blended_electrode; snd blended_electrode].

(** [any(phases)]: some phase is a non-empty string. *)
Definition any_phase (phases : list string) : bool :=
  Py.any (map (fun s => negb (String.eqb s "")) phases).

(** [any(tag in k for k in parameter_values)]. *)
Definition any_key_with (tag : string) (parameter_values : pv) : bool :=
  Py.any (map (Py.str_in tag) (Dict.keys parameter_values)).

Definition _validate_phases_by_electrode (parameter_values : pv)
    (phases_by_electrode : list (list string)) : result unit :=
  let? phases_pos :=
    match nth_error phases_by_electrode 1 with
    | Some phases => Ok phases
    | None => Err IndexError
    end in
  let? _ := raise_if (Nat.ltb 1 (List.length phases_pos))
              (ValueError "Positive electrode blends are not yet supported.") in
  rfor (Py.zip ELECTRODES phases_by_electrode) (fun '(electrode, phases) =>
    if any_phase phases then
      raise_if
        (negb (any_key_with "Primary:" parameter_values
               && any_key_with "Secondary:" parameter_values))
        (ValueError
           ("No parameter data found to treat " ++ Py.lower electrode
            ++ " electrode as blended material. "
            ++ "Try disabling the 'blended_electrode' keyword argument to get_params()."))
    else
      raise_if
        (negb (Dict.mem parameter_values
                 ("Maximum concentration in " ++ Py.lower electrode
                  ++ " electrode [mol.m-3]")))
        (ValueError
           ("No parameter data to treat " ++ Py.lower electrode
            ++ " electrode as single-material. "
            ++ "Try setting the 'blended_electrode' keyword argument to get_params()."))).

(** *** Function synthesis *)

Definition tag_j0 : string := "exchange-current density pre-multiplier".

Definition key_rate_constant (param : string) : string :=
  Py.replace tag_j0 "reaction rate constant [mol.m-2.s-1]" param.

Definition key_activation_energy (param : string) : string :=
  Py.replace tag_j0 "reaction rate constant activation energy [J.mol-1]" param.

Definition key_j0 (param : string) : string :=
  Py.replace "pre-multiplier" "[A.m-2]" param.

(** [parameter_values[k]], [parameter_values[k] = v] and
    [del parameter_values[k]] as steps on the mapping.  The assignment is
    the one to a key that PyBaMM stores under the name given and no other;
    a key containing "electrode diffusivity", which PyBaMM also stores under
    its "particle diffusivity" name, is outside what [setitem] describes. *)
Definition getitem (k : string) : M pv (value obj) :=
  mread (fun parameter_values => Dict.lookup parameter_values k).

Definition setitem (k : string) (v : value obj) : M pv unit :=
  mwrite (fun parameter_values =>
    if assignment_needs_key && negb (Dict.mem parameter_values k)
    then Err (KeyError k)
    else Ok (Dict.set parameter_values k v)).

Definition delitem (k : string) : M pv unit :=
  mwrite (fun parameter_values => Dict.del parameter_values k).

(** One turn of the loop of [build_exchange_current_density]. *)
Definition build_j0_step (param : string) : M pv unit :=
  (k <- getitem (key_rate_constant param) ;;
   Ea <- getitem (key_activation_energy param) ;;
   Tref <- getitem "Reference temperature [K]" ;;
   let coeffs_const : pv :=
     [("j0_ref", F_times k); ("Ea", Ea); ("Tref", Tref)]%string in
   func_premul <- getitem param ;;
   setitem (key_j0 param) (_make_j0_func coeffs_const func_premul) ;;
   delitem param ;;
   delitem (key_rate_constant param))%m.

Definition param_subst (parameter_values : pv) : list string :=
  filter (Py.str_in tag_j0) (Dict.keys parameter_values).

Definition build_exchange_current_density : M pv unit :=
  fun parameter_values =>
    mfor (param_subst parameter_values) build_j0_step parameter_values.

(** The coefficient entries of [param]: [k.replace(param + " ", "")] to [v]
    for the items whose key holds [param], is not [param] and holds no
    ["func_type"]. *)
Definition coefficient_entries (param : string) (parameter_values : pv) : pv :=
  fold_left
    (fun acc '(k, v) =>
       if Py.str_in param k && negb (String.eqb param k)
          && negb (Py.str_in "func_type" k)
       then Dict.set acc (Py.replace (param ++ " ") "" k) v
       else acc)
    parameter_values Dict.empty.

(** One turn of the loop of [build_BPX_incompatible]. *)
Definition build_generic_step (header : string * string * string) : M pv unit :=
  let '(param, _, func_type) := header in
  (coeffs <- mread (fun parameter_values =>
                      Ok (_unflatten (coefficient_entries param parameter_values))) ;;
   func <- mread (fun _ => _make_generic_func_ce_T func_type coeffs) ;;
   setitem param func ;;
   copy <- mread (fun parameter_values => Ok (Dict.keys parameter_values)) ;;
   mfor copy (fun k =>
     if Py.str_in param k && negb (String.eqb param k)
     then delitem k
     else mret tt))%m.

Definition func_headers (parameter_values : pv) : list (string * string * string) :=
  map (Py.partition " func_type ")
      (filter (Py.str_in " func_type ") (Dict.keys parameter_values)).

Definition build_BPX_incompatible : M pv unit :=
  fun parameter_values =>
    mfor (func_headers parameter_values) build_generic_step parameter_values.

(** *** Hysteresis *)

Definition key_branch_OCP (phase electrode branch : string) : string :=
  (phase ++ electrode) ++ " electrode " ++ branch ++ " OCP [V]".

Definition key_OCP (phase electrode : string) : string :=
  (phase ++ electrode) ++ " electrode OCP [V]".

Definition _has_hysteresis_data (parameter_values : pv) (electrode phase : string) : bool :=
  Py.all (map (fun branch => Dict.mem parameter_values (key_branch_OCP phase electrode branch))
              HYSTERESIS_BRANCHES_ELECTRODE).

(** [HYSTERESIS_BRANCH_MAP[hysteresis_branch][electrode]]. *)
Definition branch_of (hysteresis_branch electrode : string) : result string :=
  let? by_electrode := Dict.lookup HYSTERESIS_BRANCH_MAP hysteresis_branch in
  Dict.lookup by_electrode electrode.

(** The body of the loop over [phases] in [apply_hysteresis_branch].  The
    variable [branch] of the function is read for the source key and then
    rebound by the inner [for branch in HYSTERESIS_BRANCHES_ELECTRODE]; it
    keeps the last value of that loop when the next phase is handled. *)
Definition apply_hysteresis_branch_phase (electrode : string) (branch phase : string)
  : M pv string :=
  (has_data <- mread (fun parameter_values =>
                        Ok (_has_hysteresis_data parameter_values electrode phase)) ;;
   if has_data : bool then
     let ocp_dst := key_OCP phase electrode in
     let ocp_src := key_branch_OCP phase electrode branch in
     v <- getitem ocp_src ;;
     setitem ocp_dst v ;;
     mfold HYSTERESIS_BRANCHES_ELECTRODE
       (fun _ branch' =>
          delitem (key_branch_OCP phase electrode branch') ;;
          mret branch')
       branch
   else mret branch)%m.

Definition apply_hysteresis_branch (hysteresis_branch : string)
    (phases_by_electrode : list (list string)) : M pv unit :=
  mfor (Py.zip ELECTRODES phases_by_electrode) (fun '(electrode, phases) =>
    (branch <- mread (fun _ => branch_of hysteresis_branch electrode) ;;
     _ <- mfold phases (apply_hysteresis_branch_phase electrode) branch ;;
     mret tt)%m).

Definition get_hysteresis_model_by_electrode (hysteresis_model : string)
    (parameter_values : pv) (electrode : string) (phases : list string)
  : result hyst_sel :=
  let? hysteresis_model_PyBaMM :=
    if String.eqb hysteresis_model "zero-state" then Ok "current sigmoid"%string
    else if String.eqb hysteresis_model "one-state" then Ok "Wycisk"%string
    else Err (ValueError ("Invalid hysteresis model: " ++ hysteresis_model)) in
  let has_hysteresis_data_by_phase :=
    map (_has_hysteresis_data parameter_values electrode) phases in
  let hysteresis_model_by_electrode :=
    map (fun has_hysteresis_data : bool =>
           if has_hysteresis_data then hysteresis_model_PyBaMM else "single"%string)
        has_hysteresis_data_by_phase in
  if Nat.eqb (List.length phases) 1 then
    match nth_error hysteresis_model_by_electrode 0 with
    | Some first => Ok (HStr first)
    | None => Err IndexError
    end
  else Ok (HTuple hysteresis_model_by_electrode).

(** A scalar [str] placed in a 1-tuple, a tuple as it is. *)
Definition as_tuple (use_hysteresis_electrode : hyst_sel) : list string :=
  match use_hysteresis_electrode with
  | HStr s => [s]
  | HTuple l => l
  end.

(** [zip] of three lists. *)
Definition zip3 {A B D} (l1 : list A) (l2 : list B) (l3 : list D) : list (A * B * D) :=
  Py.zip (Py.zip l1 l2) l3.

Definition apply_one_state_hysteresis (use_hysteresis : list hyst_sel)
    (phases_by_electrode : list (list string)) : M pv unit :=
  mfor (zip3 ELECTRODES phases_by_electrode use_hysteresis)
    (fun '(electrode, phases, use_hysteresis_electrode) =>
       let use_hysteresis_electrode := as_tuple use_hysteresis_electrode in
       mfor (Py.zip phases use_hysteresis_electrode) (fun '(phase, use_hysteresis_phase) =>
         if String.eqb use_hysteresis_phase "Wycisk" then
           let key_switch :=
             ((phase ++ electrode) ++ " particle hysteresis switching factor")%string in
           (nonzero <- mread (fun parameter_values =>
                         Ok (match Dict.get parameter_values key_switch with
                             | Some v => value_ne0 v
                             | None => false
                             end)) ;;
            (if nonzero : bool
             then mraise (ValueError (key_switch ++ " only supported with zero value."))
             else mret tt) ;;
            let key_init :=
              (phase ++ "Initial hysteresis state in " ++ Py.lower electrode
               ++ " electrode")%string in
            mwrite (fun parameter_values =>
                      Ok (Dict.update parameter_values
                            [(key_switch, VNum 0); (key_init, VNum 0)])) ;;
            mfor PARAMS_HYSTERESIS_DIFF (fun param =>
              let key := (phase ++ electrode ++ " electrode " ++ param)%string in
              v <- getitem key ;;
              setitem key (_make_hysteresis_compatible v)))%m
         else mret tt)).

(** *** [apply_trim_model_events] *)

Definition SOC_tol_default : float := 0.05.

Definition apply_trim_model_events (m : model event_expr model_body)
    (SOC_init SOC_tol : float) : model event_expr model_body :=
  if (1 - SOC_tol) <? SOC_init then
    Model (filter (fun event => negb (Py.str_in "Maximum voltage" (name event))) (events m))
          (rest m)
  else if SOC_init <? SOC_tol then
    Model (filter (fun event => negb (Py.str_in "Minimum voltage" (name event))) (events m))
          (rest m)
  else m.

(** *** [convert_soc_init] *)

Definition convert_soc_init (SOC_init : float) (OCV_init : option float)
    (SOC_definition : option (soc_arg soc_data)) (parameter_values : pv) : result float :=
  match OCV_init with
  | Some ocv =>
      let? ocv_soc := get_ocv_thermodynamic parameter_values in
      interp_soc_of_ocv ocv ocv_soc
  | None =>
      match SOC_definition with
      | Some (SocDict data method) =>
          let method :=
            match method with Some m => m | None => "voltage"%string end in
          let? data :=
            match data with Some d => Ok d | None => Err (KeyError "data") end in
          let? ocv_soc := get_ocv_thermodynamic parameter_values in
          convert_soc SOC_init data ocv_soc method
      | Some SocNotDict => Err (TypeError "argument of type is not iterable")
      | None => Ok SOC_init
      end
  end.

(** *** [_validate_args_get_params] *)

(** [any(blended_electrode)]. *)
Definition any_blended (blended_electrode : bool * bool) : bool :=
  Py.any [fst blended_electrode; snd blended_electrode].

Definition _validate_args_get_params
    (SOC_definition : option (soc_arg soc_data)) (OCV_init : option float)
    (degradation_state : option ds_arg) (htc_ext : option float)
    (model_type hysteresis_model hysteresis_branch hysteresis_preceding_state : string)
    (blended_electrode : bool * bool) (add_hysteresis_heat_source : bool)
    (extra_model_opts : Dict.t opt) : result unit :=
  let? _ := raise_if (negb (Py.mem model_type VALID_MODEL_TYPES))
    (ValueError ("Unsupported model type '" ++ model_type ++ "'. "
                 ++ "Supported model types are: " ++ Py.join ", " VALID_MODEL_TYPES)) in
  let? _ := raise_if (negb (Py.mem hysteresis_model VALID_HYSTERESIS_MODELS))
    (ValueError ("Unsupported hysteresis model type '" ++ hysteresis_model ++ "'. "
                 ++ "Supported hysteresis model types are: "
                 ++ Py.join ", " VALID_HYSTERESIS_MODELS)) in
  let? _ := raise_if (negb (Py.mem hysteresis_branch VALID_HYSTERESIS_BRANCHES))
    (ValueError ("Unsupported hysteresis branch '" ++ hysteresis_branch ++ "'. "
                 ++ "Supported model types are: "
                 ++ Py.join ", " VALID_HYSTERESIS_BRANCHES)) in
  let? _ := raise_if (negb (Py.mem hysteresis_preceding_state VALID_HYSTERESIS_BRANCHES))
    (ValueError ("Unsupported hysteresis preceding state '"
                 ++ hysteresis_preceding_state ++ "'. "
                 ++ "Supported model types are: "
                 ++ Py.join ", " VALID_HYSTERESIS_BRANCHES)) in
  let? _ := raise_if
    (add_hysteresis_heat_source && negb (String.eqb hysteresis_model "one-state"))
    (NotImplementedError
       "Hysteresis heat source can only be added to 'one-state' hysteresis model.") in
  let? _ :=
    match degradation_state with
    | Some ds =>
        let? _ := raise_if
          (any_blended blended_electrode || negb (String.eqb hysteresis_model "none"))
          (NotImplementedError
             "Degradation state is only supported for single-phase electrodes with no hysteresis.") in
        match ds with
        | DsNotDict => Err (TypeError "'degradation_state' must be a 'dict'.")
        | DsDict d =>
            rfor (Dict.keys d) (fun k =>
              raise_if (negb (Py.mem k VALID_DEGRADATION_KEYS))
                (ValueError ("Unsupported field in 'degradation_state': " ++ k
                             ++ ". Supported fields are: "
                             ++ Py.join ", " VALID_DEGRADATION_KEYS)))
        end
    | None => Ok tt
    end in
  let? _ := raise_if
    (match Dict.get extra_model_opts "thermal" with
     | Some o =>
         negb (match o with OStr s => String.eqb s "isothermal" | OTuple _ => false end)
         && match htc_ext with None => true | Some _ => false end
     | None => false
     end)
    (ValueError
       "When using a thermal model, specify the heat transfer coefficient in 'get_params' with keyword argument 'htc_ext'.") in
  let? _ :=
    match OCV_init with
    | Some _ =>
        raise_if
          (any_blended blended_electrode || negb (String.eqb hysteresis_model "none"))
          (NotImplementedError
             "Voltage-based initialisation is only supported for single-phase electrodes with no hysteresis.")
    | None => Ok tt
    end in
  match SOC_definition with
  | Some sd =>
      let? _ := raise_if
        (match sd with
         | SocDict (Some _) _ => false
         | SocDict None _ => true
         | SocNotDict => true
         end)
        (TypeError "SOC_definition must be a dict containing a key 'data'") in
      raise_if
        (any_blended blended_electrode || negb (String.eqb hysteresis_model "none"))
        (NotImplementedError
           "OCV-SOC conversion is only supported for single-phase electrodes with no hysteresis.")
  | None => Ok tt
  end.

(** *** [_get_bpx_src] *)

(** [k in j] and [j[k]] for a value read from JSON and a string [k]. *)
Definition json_contains (j : json) (k : string) : result bool :=
  match j with
  | JObject fields => Ok (Dict.mem fields k)
  | JArray items =>
      Ok (existsb (fun i => match i with JString s => String.eqb s k | _ => false end) items)
  | JString s => Ok (Py.str_in k s)
  | JAtom => Err (TypeError "argument is not iterable")
  end.

Definition json_item (j : json) (k : string) : result json :=
  match j with
  | JObject fields => Dict.lookup fields k
  | _ => Err (TypeError "indices must be integers")
  end.

(** The truth value of [parameter_set]: [None] and the empty string are false. *)
Definition truthy (parameter_set : option string) : bool :=
  match parameter_set with
  | Some s => negb (String.eqb s "")
  | None => false
  end.

Definition _get_bpx_src (fp : string) (parameter_set : option string) : result string :=
  let? params_info := read_json fp in
  let? has_header := json_contains params_info "Header" in
  let? _ := raise_if (negb has_header)
              (ValueError ("No valid JSON header at " ++ fp ++ ".")) in
  let? header := json_item params_info "Header" in
  let? is_bpx := json_contains header "BPX" in
  if is_bpx then
    let? _ := raise_if (truthy parameter_set)
      (ValueError "'parameter_set' selection requires a valid 'BPX Parent' JSON file.") in
    Ok fp
  else
    let? is_parent := json_contains header "BPX Parent" in
    if is_parent then
      let? parameter_set :=
        if negb (truthy parameter_set) then json_item header "default"
        else
          let ps := match parameter_set with Some s => s | None => ""%string end in
          let? sets := json_item params_info "Parameter Sets" in
          let? known := json_contains sets ps in
          let? _ := raise_if (negb known)
            (ValueError ("Parameter set '" ++ ps ++ "' not defined in " ++ fp ++ ".")) in
          Ok (JString ps) in
      let? sets := json_item params_info "Parameter Sets" in
      let? file :=
        match parameter_set with
        | JString ps => json_item sets ps
        | _ => Err (TypeError "unhashable or missing key")
        end in
      match file with
      | JString f => Ok (path_join (path_dirname fp) (f ++ ".json"))
      | _ => Err (TypeError "unsupported operand type(s) for +")
      end
    else Err (ValueError ("No valid JSON header at " ++ fp ++ ".")).

(** *** [_combine_model_opts] *)

(** [repr] and [str] of an option value, as an f-string prints it. *)
Fixpoint repr_opt (o : opt) : string :=
  match o with
  | OStr s => "'" ++ s ++ "'"
  | OTuple [x] => "(" ++ repr_opt x ++ ",)"
  | OTuple l => "(" ++ Py.join ", " (map repr_opt l) ++ ")"
  end.

Definition str_opt (o : opt) : string :=
  match o with
  | OStr s => s
  | OTuple _ => repr_opt o
  end.

Definition _combine_model_opts (required_model_opts extra_model_opts : Dict.t opt)
  : result (Dict.t opt) :=
  let? _ :=
    rfor extra_model_opts (fun '(k, extra) =>
      match Dict.get required_model_opts k with
      | Some required =>
          Err (ValueError
                 ("Required setting '" ++ k ++ "': '" ++ str_opt required
                  ++ "', derived from other arguments to get_params(), "
                  ++ "cannot be replaced with setting '" ++ k ++ "': '" ++ str_opt extra
                  ++ "' from 'extra_model_opts'."))
      | None => Ok tt
      end) in
  let model_opts := required_model_opts in
  Ok (Dict.update model_opts extra_model_opts).

(** *** [get_params] *)

(** A list comprehension whose element expression may raise. *)
Fixpoint rmap {A B} (f : A -> result B) (l : list A) : result (list B) :=
  match l with
  | [] => Ok []
  | x :: l' =>
      let? y := f x in
      let? ys := rmap f l' in
      Ok (y :: ys)
  end.

(** A step that touches no mapping. *)
Definition lift {A} (r : result A) : M pv A := mread (fun _ => r).

(** [str(n)] for a length. *)
Definition str_nat (n : nat) : string := NilZero.string_of_uint (Nat.to_uint n).

Definition opt_of_sel (s : hyst_sel) : opt :=
  match s with
  | HStr x => OStr x
  | HTuple l => OTuple (map OStr l)
  end.

(** [{k: v for k, v in degradation_state.items() if v != 0}]. *)
Definition nonzero_entries (degradation_state : Dict.t float) : Dict.t float :=
  filter (fun '(_, v) => negb (v =? 0)) degradation_state.

(** The degradation state [get_params] goes on with after validation:
    zero entries dropped, and [None] in place of an empty state. *)
Definition effective_degradation_state (degradation_state : option ds_arg)
  : result (option (Dict.t float)) :=
  match degradation_state with
  | Some (DsDict d) =>
      match nonzero_entries d with
      | [] => Ok None
      | d' => Ok (Some d')
      end
  | Some DsNotDict => Err (AttributeError "object has no attribute 'items'")
  | None => Ok None
  end.

(** The hysteresis stage: the initial branches for the concentration solver
    and the model options so far. *)
Definition hysteresis_stage (a : args) (phases_by_electrode : list (list string))
    (required_model_opts : Dict.t opt)
  : M pv (option init_branches * Dict.t opt) :=
  if String.eqb (hysteresis_model a) "none" then
    ((if negb (String.eqb (hysteresis_branch a) "average")
      then apply_hysteresis_branch (hysteresis_branch a) phases_by_electrode
      else mret tt) ;;
     mret (None, required_model_opts))%m
  else
    (use_hysteresis <- mread (fun parameter_values =>
        rmap (fun '(electrode, phases) =>
                get_hysteresis_model_by_electrode (hysteresis_model a)
                  parameter_values electrode phases)
             (Py.zip ELECTRODES phases_by_electrode)) ;;
     (if String.eqb (hysteresis_model a) "one-state"
      then apply_one_state_hysteresis use_hysteresis phases_by_electrode
      else mret tt) ;;
     hysteresis_init_branches <-
       lift (_get_hysteresis_init_branch_electrode use_hysteresis
               (hysteresis_preceding_state a)) ;;
     let hysteresis_model_opts : Dict.t opt :=
       [("open-circuit potential"%string, OTuple (map opt_of_sel use_hysteresis))] in
     let hysteresis_model_opts :=
       if add_hysteresis_heat_source a
       then Dict.update hysteresis_model_opts
              [("calculate heat source for isothermal models"%string, OStr "true")]
       else hysteresis_model_opts in
     mret (Some hysteresis_init_branches,
           Dict.update required_model_opts hysteresis_model_opts))%m.

(** [get_params] from the line after the base mapping is loaded up to the
    series-resistance check: function synthesis and the corrections asked
    for.  It yields the degradation state in force and the model options so
    far. *)
Definition corrections (a : args) : M pv (option (Dict.t float) * Dict.t opt) :=
  let required_model_opts : Dict.t opt := Dict.empty in
  (build_exchange_current_density ;;
   build_BPX_incompatible ;;
   match htc_ext a with
   | Some h => apply_htc_ext h
   | None => mret tt
   end ;;
   degradation_state <- lift (effective_degradation_state (degradation_state a)) ;;
   match degradation_state with
   | Some d => apply_degradation_state d
   | None => mret tt
   end ;;
   contact <- mread (fun parameter_values =>
                match Dict.get parameter_values "Contact resistance [Ohm]" with
                | Some v => value_gt0 v
                | None => Ok false
                end) ;;
   let required_model_opts :=
     if contact : bool
     then Dict.update required_model_opts [("contact resistance"%string, OStr "true")]
     else required_model_opts in
   mret (degradation_state, required_model_opts))%m.

(** The phase check of [get_params]; it only reads the mapping. *)
Definition phase_resolution (phases_by_electrode : list (list string)) : M pv unit :=
  mread (fun parameter_values =>
           _validate_phases_by_electrode parameter_values phases_by_electrode).

(** [get_params] after the phase check. *)
Definition configure (a : args) (extra_model_opts : Dict.t opt)
    (phases_by_electrode : list (list string))
    (degradation_state : option (Dict.t float)) (required_model_opts : Dict.t opt)
  : M pv (model event_expr model_body) :=
  (let required_model_opts :=
     Dict.update required_model_opts
       [("particle phases"%string,
         OTuple (map (fun phases => OStr (str_nat (List.length phases)))
                     phases_by_electrode))] in
   hyst <- hysteresis_stage a phases_by_electrode required_model_opts ;;
   let '(hysteresis_init_branches, required_model_opts) := hyst in
   soc <- mread (convert_soc_init (SOC_init a) (OCV_init a) (SOC_definition a)) ;;
   add_initial_concentrations phases_by_electrode hysteresis_init_branches soc
     (match degradation_state with Some _ => true | None => false end) ;;
   model_opts <- lift (_combine_model_opts required_model_opts extra_model_opts) ;;
   cls <- lift (get_model_class (model_type a)) ;;
   m <- lift (new_model cls model_opts) ;;
   m <- (if add_hysteresis_heat_source a
         then lift (_add_hysteresis_heat_source m)
         else mret m) ;;
   let m :=
     if trim_model_events a
     then apply_trim_model_events m (SOC_init a) SOC_tol_default
     else m in
   mret m)%m.

(** [get_params] from the line after the base mapping is loaded. *)
Definition get_params_loaded (a : args) (blended_electrode : bool * bool)
    (extra_model_opts : Dict.t opt)
  : M pv (model event_expr model_body) :=
  (corrected <- corrections a ;;
   let '(degradation_state, required_model_opts) := corrected in
   let phases_by_electrode := _get_phases_by_electrode blended_electrode in
   phase_resolution phases_by_electrode ;;
   configure a extra_model_opts phases_by_electrode degradation_state
     required_model_opts)%m.

(** How a call of [get_params] ends: what it returns or raises, and the
    parameter mapping as the call leaves it ([None] when the call ends
    before the base mapping is loaded). *)
Record outcome : Type := Outcome {
  returned : result (pv * model event_expr model_body);
  mapping : option pv
}.

(** [extra_model_opts or {}] and [blended_electrode or (False, False)]. *)
Definition extra_model_opts_or_empty (a : args) : Dict.t opt :=
  match extra_model_opts a with Some d => d | None => Dict.empty end.

Definition blended_electrode_or_default (a : args) : bool * bool :=
  match blended_electrode a with Some b => b | None => (false, false) end.

(** [_validate_args_get_params] on the local variables of [get_params]. *)
Definition validate_args (a : args) : result unit :=
  _validate_args_get_params (SOC_definition a) (OCV_init a) (degradation_state a)
    (htc_ext a) (model_type a) (hysteresis_model a) (hysteresis_branch a)
    (hysteresis_preceding_state a) (blended_electrode_or_default a)
    (add_hysteresis_heat_source a) (extra_model_opts_or_empty a).

(** [get_params] up to the line that loads the base mapping. *)
Definition load (a : args) : result pv :=
  let? _ := validate_PyBaMM_version in
  let? _ := validate_args a in
  let? fp_bpx := _get_bpx_src (fp a) (parameter_set a) in
  get_default_parameter_values fp_bpx.

Definition get_params (a : args) : outcome :=
  let extra_model_opts := extra_model_opts_or_empty a in
  let blended_electrode := blended_electrode_or_default a in
  match load a with
  | Err e => Outcome (Err e) None
  | Ok parameter_values =>
      match get_params_loaded a blended_electrode extra_model_opts parameter_values with
      | (Ok m, parameter_values') => Outcome (Ok (parameter_values', m)) (Some parameter_values')
      | (Err e, parameter_values') => Outcome (Err e) (Some parameter_values')
      end
  end.

End Pipeline.

(** Setting one argument of a call. *)
Definition with_degradation_state {C : Collaborators} (a : args)
    (d : option ds_arg) : args :=
  Args (fp a) (parameter_set a) (SOC_init a) (SOC_definition a) (OCV_init a) d
       (htc_ext a) (model_type a) (hysteresis_model a) (hysteresis_branch a)
       (hysteresis_preceding_state a) (blended_electrode a)
       (add_hysteresis_heat_source a) (extra_model_opts a) (trim_model_events a).

(* ================================================================= *)
(** ** Vocabulary of the properties *)

(** The error of the degradation-state check. *)
Definition degradation_state_unsupported : exn :=
  NotImplementedError
    "Degradation state is only supported for single-phase electrodes with no hysteresis.".

(** The keys one turn of the loop writes or deletes, and the keys it reads. *)
Definition j0_touched (param : string) : list string :=
  [param; key_rate_constant param; key_j0 param].

Definition j0_inputs (param : string) : list string :=
  [param; key_rate_constant param; key_activation_energy param;
   "Reference temperature [K]"%string].

(** The three keys a turn touches are three different keys. *)
Definition j0_keys_distinct (param : string) : bool :=
  negb (String.eqb param (key_rate_constant param))
  && negb (String.eqb (key_j0 param) param)
  && negb (String.eqb (key_j0 param) (key_rate_constant param)).

(** The activation-energy key of [param] is none of the keys its turn
    touches. *)
Definition j0_activation_energy_apart (param : string) : bool :=
  negb (Py.mem (key_activation_energy param) (j0_touched param)).

(** The turn for [p] touches nothing the turn for [q] reads or touches. *)
Definition j0_independent (p q : string) : bool :=
  forallb (fun x => negb (Py.mem x (j0_inputs q ++ j0_touched q))) (j0_touched p).

(** The pre-multiplier keys of the electrodes, with and without a phase
    prefix. *)
Definition premultiplier_keys : list string :=
  flat_map (fun phase => map (fun el => phase ++ el ++ " electrode " ++ tag_j0)%string
                             ELECTRODES)
           (""%string :: map (fun s => s ++ ": ")%string PYBAMM_MATERIAL_NAMES).

(** The keys [apply_degradation_state] may write. *)
Definition degradation_keys : list string :=
  [ key_lithium_inventory;
    key_volume_fraction "Negative"; key_volume_fraction "Positive";
    key_kinetic "Negative"; key_kinetic "Positive";
    "Electrolyte conductivity [S.m-1]"; "Electrolyte diffusivity [m2.s-1]";
    "Contact resistance [Ohm]" ]%string.

(** The entries the one-state rewrite of a negative-electrode phase sets to
    zero, and the ones it passes through [_make_hysteresis_compatible]. *)
Definition one_state_zeroed (phase : string) : list string :=
  [ ((phase ++ "Negative") ++ " particle hysteresis switching factor")%string;
    (phase ++ "Initial hysteresis state in " ++ Py.lower "Negative" ++ " electrode")%string ].

Definition one_state_rebuilt (phase : string) : list string :=
  map (fun param => (phase ++ "Negative" ++ " electrode " ++ param)%string)
      PARAMS_HYSTERESIS_DIFF.

(** The open-circuit-potential keys of one phase of an electrode: the
    canonical key and the branch keys. *)
Definition phase_key (electrode phase k : string) : Prop :=
  k = key_OCP phase electrode \/ exists branch, k = key_branch_OCP phase electrode branch.

Section Vocabulary.
Context {C : Collaborators}.
Local Open Scope float_scope.

(** What a parameter value gives for the arguments [args], whatever the
    functions PyBaMM stores give for them ([call]): a scalar is itself, and
    a wrapped value gives the factor times what the value inside gives. *)
Fixpoint value_at {A : Type} (call : obj -> A -> float) (v : value obj) (args : A)
  : float :=
  match v with
  | VNum x => x
  | VObj f => call f args
  | VScaled factor f => factor * value_at call f args
  end.

(** How one volume fraction is written back: scaled by [1 - LAM] when the
    state has the loss factor, with its original value otherwise. *)
Definition written_back (degradation_state : Dict.t float) (loss_factor : string)
    (original written : value obj) : Prop :=
  match Dict.get degradation_state loss_factor with
  | Some lam => value_mul original (1 - lam) = Ok written
  | None => written = original
  end.

(** The function installed for the pre-multiplier key [p], from the values
    found in [d]. *)
Definition j0_function (d : pv) (p : string) : option (value obj) :=
  match Dict.get d (key_rate_constant p), Dict.get d (key_activation_energy p),
        Dict.get d "Reference temperature [K]", Dict.get d p with
  | Some k, Some Ea, Some Tref, Some premul =>
      Some (_make_j0_func [("j0_ref", F_times k); ("Ea", Ea); ("Tref", Tref)]%string premul)
  | _, _, _, _ => None
  end.

(** The item assignment to [k] goes through on [d]. *)
Definition assignable (d : pv) (k : string) : Prop :=
  assignment_needs_key = true -> Dict.mem d k = true.

(** The charge branch has replaced the branch entries of [d] in [d']: for
    every electrode and phase that has both branch entries in [d], the
    canonical open-circuit-potential key of [d'] holds the data [d] has for
    the charge branch of the electrode, and [d'] has no branch key of that
    phase. *)
Definition charge_branch_selected (phases_by_electrode : list (list string))
    (d d' : pv) : Prop :=
  forall electrode phases phase branch,
    In (electrode, phases) (Py.zip ELECTRODES phases_by_electrode) ->
    In phase phases ->
    branch_of "charge" electrode = Ok branch ->
    _has_hysteresis_data d electrode phase = true ->
    exists v,
      Dict.get d (key_branch_OCP phase electrode branch) = Some v
      /\ Dict.get d' (key_OCP phase electrode) = Some v
      /\ forall b, In b HYSTERESIS_BRANCHES_ELECTRODE ->
           Dict.get d' (key_branch_OCP phase electrode b) = None.

End Vocabulary.

(* ================================================================= *)
(** ** A test double of the collaborators, and inputs to run the pipeline on *)

Module Demo.

Local Open Scope float_scope.

(** Objects that are no scalars are named by a description. *)
Definition scale (v : value string) (m : float) : value string :=
  match v with
  | VNum x => VNum (m * x)
  | VObj s => VObj ("scaled " ++ s)%string
  | VScaled _ _ => VScaled m v
  end.

(** A single-phase cell: exchange-current densities given by pre-multiplier
    for the negative electrode and as a scalar for both, branch
    open-circuit potentials on the negative electrode. *)
Definition cell : Dict.t (value string) :=
  [ ("Reference temperature [K]", VNum 298);
    ("Negative electrode exchange-current density pre-multiplier", VObj "premul");
    ("Negative electrode reaction rate constant [mol.m-2.s-1]", VNum 0.5);
    ("Negative electrode reaction rate constant activation energy [J.mol-1]", VNum 3500);
    ("Negative electrode exchange-current density [A.m-2]", VNum 2);
    ("Positive electrode exchange-current density [A.m-2]", VNum 4);
    ("Negative electrode active material volume fraction", VNum 0.75);
    ("Positive electrode active material volume fraction", VNum 0.5);
    ("Maximum concentration in negative electrode [mol.m-3]", VNum 30000);
    ("Maximum concentration in positive electrode [mol.m-3]", VNum 50000);
    ("Negative electrode OCP [V]", VObj "ocp average");
    ("Negative electrode lithiation OCP [V]", VObj "ocp lithiation");
    ("Negative electrode delithiation OCP [V]", VObj "ocp delithiation");
    ("Positive electrode OCP [V]", VObj "ocp positive") ]%string.

(** A cell with a blended negative electrode, both phases with branch
    open-circuit potentials. *)
Definition blend : Dict.t (value string) :=
  [ ("Primary: Maximum concentration in negative electrode [mol.m-3]", VNum 30000);
    ("Secondary: Maximum concentration in negative electrode [mol.m-3]", VNum 9000);
    ("Maximum concentration in positive electrode [mol.m-3]", VNum 50000);
    ("Primary: Negative electrode OCP [V]", VObj "primary average");
    ("Primary: Negative electrode lithiation OCP [V]", VObj "primary lithiation");
    ("Primary: Negative electrode delithiation OCP [V]", VObj "primary delithiation");
    ("Secondary: Negative electrode OCP [V]", VObj "secondary average");
    ("Secondary: Negative electrode lithiation OCP [V]", VObj "secondary lithiation");
    ("Secondary: Negative electrode delithiation OCP [V]", VObj "secondary delithiation");
    ("Positive electrode OCP [V]", VObj "ocp positive") ]%string.

Definition bpx_header : json := JObject [("Header", JObject [("BPX", JAtom)])]%string.

Definition collaborators : Collaborators := {|
  obj := string;
  coeffs := Dict.t (value string);
  ocv_curve := unit;
  soc_data := unit;
  init_branches := unit;
  event_expr := unit;
  model_body := Dict.t opt;
  model_class := string;
  read_json := fun fp =>
    if String.eqb fp "cell.json" || String.eqb fp "blend.json" then Ok bpx_header
    else Err (External "FileNotFoundError");
  path_dirname := fun _ => ""%string;
  assignment_needs_key := true;
  path_join := fun a b => (a ++ "/" ++ b)%string;
  F_times := fun v => scale v 96485;
  interp_soc_of_ocv := fun x _ => Ok x;
  _make_generic_func_ce_T := fun func_type _ =>
    Err (NotImplementedError ("Function type " ++ func_type ++ " is not implemented."));
  _make_j0_func := fun _ _ => VObj "j0";
  _unflatten := fun d => d;
  _add_hysteresis_heat_source := fun m => Ok m;
  _make_hysteresis_compatible := fun v => v;
  get_default_parameter_values := fun fp =>
    if String.eqb fp "cell.json" then Ok cell
    else if String.eqb fp "blend.json" then Ok blend
    else Err (External "FileNotFoundError");
  get_model_class := fun model_type => Ok model_type;
  validate_PyBaMM_version := Ok tt;
  new_model := fun _ options =>
    Ok (Model [ Event "Minimum voltage [V]" tt; Event "Maximum voltage [V]" tt;
                Event "Zero negative electrode porosity cut-off" tt ]%string
              options);
  HYSTERESIS_BRANCH_MAP :=
    [ ("charge", [("Negative", "lithiation"); ("Positive", "delithiation")]);
      ("discharge", [("Negative", "delithiation"); ("Positive", "lithiation")]) ]%string;
  HYSTERESIS_BRANCHES_ELECTRODE := ["delithiation"; "lithiation"]%string;
  _get_hysteresis_init_branch_electrode := fun _ _ => Ok tt;
  add_initial_concentrations := fun _ _ _ _ => mret tt;
  calc_lithium_inventory := fun _ => Ok 10;
  convert_soc := fun soc _ _ _ => Ok soc;
  get_ocv_thermodynamic := fun _ => Ok tt
|}.

(** [get_params("cell.json")] with every other argument at its default. *)
Definition defaults : @args collaborators :=
  Args "cell.json" None 1 None None None None "DFN" "none" "average" "average"
       None false None true.

(** The same call with a zero-state hysteresis model. *)
Definition zero_state : @args collaborators :=
  Args "cell.json" None 1 None None None None "DFN" "zero-state" "average" "average"
       None false None true.

(** Blending asked for the positive electrode. *)
Definition blended_positive : @args collaborators :=
  Args "cell.json" None 1 None None None None "DFN" "none" "average" "average"
       (Some (false, true)) false None true.

(** [degradation_state={"LLI": 0.1}] with [blended_electrode=(True, False)]. *)
Definition lli_blended : @args collaborators :=
  Args "cell.json" None 1 None None (Some (DsDict [("LLI"%string, 0.1)])) None
       "DFN" "none" "average" "average" (Some (true, false)) false None true.

(** A heat-transfer coefficient, and blending asked for the negative
    electrode of the single-phase cell. *)
Definition htc_blended : @args collaborators :=
  Args "cell.json" None 1 None None None (Some 5) "DFN" "none" "average" "average"
       (Some (true, false)) false None true.

(** The charge branch, without hysteresis model, on the cell with the
    blended negative electrode. *)
Definition blend_charge : @args collaborators :=
  Args "blend.json" None 0.5 None None None None "DFN" "none" "charge" "average"
       (Some (true, false)) false None true.

(** The discharge branch on the same cell. *)
Definition blend_discharge : @args collaborators :=
  Args "blend.json" None 0.5 None None None None "DFN" "none" "discharge" "average"
       (Some (true, false)) false None true.

(** A degradation state with a faradaic resistance increase of the negative
    electrode only. *)
Definition RI_far_NE_only : Dict.t float := [("RI_far_NE"%string, 1)].

(** Zero entries only. *)
Definition all_zero : Dict.t float := [("LLI"%string, 0); ("LAM_NE"%string, -0)].

Definition premultiplier_NE : string :=
  "Negative electrode exchange-current density pre-multiplier".

(** The error of the phase check on a single-phase cell asked to be blended. *)
Definition no_blend_data : exn :=
  ValueError
    ("No parameter data found to treat negative electrode as blended material. "
     ++ "Try disabling the 'blended_electrode' keyword argument to get_params().").

(** The single-phase cell after the corrections of the call [htc_blended],
    and after the degradation state [RI_far_NE_only]. *)
Definition corrected_cell : Dict.t (value string) :=
  snd (@corrections collaborators htc_blended cell).

Definition degraded_cell : Dict.t (value string) :=
  snd (@apply_degradation_state collaborators RI_far_NE_only cell).

(** The single-phase cell with electrolyte transport properties and a
    contact resistance. *)
Definition cell_with_electrolyte : Dict.t (value string) :=
  cell ++ [ ("Electrolyte conductivity [S.m-1]", VNum 1);
            ("Electrolyte diffusivity [m2.s-1]", VObj "diffusivity");
            ("Contact resistance [Ohm]", VNum 0.25) ]%string.

(** Degradation states with one key each, and one with a zero entry beside
    a non-zero one. *)
Definition LLI_only : Dict.t float := [("LLI"%string, 0.1)].
Definition RI_electrolyte_only : Dict.t float := [("RI_electrolyte"%string, 1)].
Definition R0_addn_only : Dict.t float := [("R0_addn [Ohm]"%string, 0.5)].
Definition RI_far_NE_minus_one : Dict.t float := [("RI_far_NE"%string, -1)].
Definition zero_beside_nonzero : Dict.t float :=
  [("LLI"%string, 0); ("RI_far_NE"%string, 1)].

Definition electrolyte_degraded_cell : Dict.t (value string) :=
  snd (@apply_degradation_state collaborators RI_electrolyte_only cell_with_electrolyte).

Definition resistance_degraded_cell : Dict.t (value string) :=
  snd (@apply_degradation_state collaborators R0_addn_only cell_with_electrolyte).

(** A mapping with an electrolyte conductivity given by function type and
    coefficient. *)
Definition generic_cell : Dict.t (value string) :=
  [ ("Reference temperature [K]", VNum 298);
    ("Electrolyte conductivity [S.m-1]", VNum 1);
    ("Electrolyte conductivity [S.m-1] func_type polynomial", VObj "header");
    ("Electrolyte conductivity [S.m-1] a0", VNum 0.5) ]%string.

(** The single-phase cell with an entropic change of the negative
    electrode, and that cell after the one-state rewrite of the negative
    electrode. *)
Definition one_state_cell : Dict.t (value string) :=
  cell ++ [ ("Negative electrode OCP entropic change [V.K-1]", VNum 0) ]%string.

Definition one_state_rewritten_cell : Dict.t (value string) :=
  snd (@apply_one_state_hysteresis collaborators
         [HStr "Wycisk"; HStr "single"]%string [[""]; [""]]%string one_state_cell).

(** The single-phase cell after the charge branch is selected. *)
Definition charge_branch_cell : Dict.t (value string) :=
  snd (@apply_hysteresis_branch collaborators "charge"
         (_get_phases_by_electrode (false, false)) cell).

(** Model options without a common key. *)
Definition required_opts : Dict.t opt := [("contact resistance"%string, OStr "true")].
Definition extra_opts : Dict.t opt := [("thermal"%string, OStr "lumped")].

(** A call whose extra model options name the particle phases, and a call
    with a model type that is not known. *)
Definition reserved_option : @args collaborators :=
  Args "cell.json" None 1 None None None None "DFN" "none" "average" "average"
       None false (Some [("particle phases"%string, OStr "1")]) true.

(** A heat-transfer coefficient together with a loss of lithium inventory,
    and the single-phase cell after the corrections of that call. *)
Definition htc_with_LLI : @args collaborators :=
  Args "cell.json" None 1 None None (Some (DsDict LLI_only)) (Some 5)
       "DFN" "none" "average" "average" None false None true.

Definition htc_with_LLI_cell : Dict.t (value string) :=
  snd (@corrections collaborators htc_with_LLI cell).

Definition unknown_model : @args collaborators :=
  Args "cell.json" None 1 None None None None "P2D" "none" "average" "average"
       None false None true.

End Demo.

(* ================================================================= *)
(** * Properties *)

(** ** Dictionaries *)

Module DictFacts.

Section Facts.
Context {V : Type}.
Implicit Types (d o : Dict.t V) (k : string) (v : V).

Lemma get_set_eq d k v : Dict.get (Dict.set d k v) k = Some v.
Proof.
  induction d as [|[k' v'] d IH]; simpl.
  - now rewrite String.eqb_refl.
  - destruct (String.eqb k k') eqn:E; simpl; rewrite E; auto.
Qed.

Lemma get_set_neq d k k' v :
  k <> k' -> Dict.get (Dict.set d k v) k' = Dict.get d k'.
Proof.
  intros N. induction d as [|[k0 v0] d IH]; simpl.
  - destruct (String.eqb_spec k' k); congruence.
  - destruct (String.eqb_spec k k0) as [->|]; simpl.
    + destruct (String.eqb_spec k' k0); congruence.
    + now rewrite IH.
Qed.

Lemma get_remove_eq d k : Dict.get (Dict.remove d k) k = None.
Proof.
  induction d as [|[k' v'] d IH]; simpl; auto.
  destruct (String.eqb k k') eqn:E; simpl; auto. now rewrite E.
Qed.

Lemma get_remove_neq d k k' :
  k <> k' -> Dict.get (Dict.remove d k) k' = Dict.get d k'.
Proof.
  intros N. induction d as [|[k0 v0] d IH]; simpl; auto.
  destruct (String.eqb_spec k k0) as [->|]; simpl.
  - destruct (String.eqb_spec k' k0); congruence.
  - now rewrite IH.
Qed.

Lemma mem_true d k : Dict.mem d k = true <-> exists v, Dict.get d k = Some v.
Proof.
  unfold Dict.mem. destruct (Dict.get d k); split; eauto; try discriminate.
  now intros [? ?].
Qed.

Lemma mem_false d k : Dict.mem d k = false <-> Dict.get d k = None.
Proof. unfold Dict.mem. destruct (Dict.get d k); split; congruence. Qed.

Lemma mem_keys d k : Dict.mem d k = true <-> In k (Dict.keys d).
Proof.
  unfold Dict.mem. induction d as [|[k' v'] d IH]; simpl.
  - split; [discriminate | tauto].
  - destruct (String.eqb_spec k k') as [->|N].
    + split; auto.
    + rewrite IH. split; auto. intros [E|H]; congruence.
Qed.

Lemma lookup_get d k v : Dict.get d k = Some v -> Dict.lookup d k = Ok v.
Proof. unfold Dict.lookup. now intros ->. Qed.

Lemma lookup_ok d k v : Dict.lookup d k = Ok v -> Dict.get d k = Some v.
Proof. unfold Dict.lookup. destruct (Dict.get d k); congruence. Qed.

Lemma del_ok d k v : Dict.get d k = Some v -> Dict.del d k = Ok (Dict.remove d k).
Proof. unfold Dict.del, Dict.mem. now intros ->. Qed.

Lemma mem_set_neq d k k' v :
  k <> k' -> Dict.mem (Dict.set d k v) k' = Dict.mem d k'.
Proof. intros N. unfold Dict.mem. now rewrite get_set_neq. Qed.

Lemma mem_remove_neq d k k' :
  k <> k' -> Dict.mem (Dict.remove d k) k' = Dict.mem d k'.
Proof. intros N. unfold Dict.mem. now rewrite get_remove_neq. Qed.

Lemma unique_set d k v : Dict.unique d = true -> Dict.unique (Dict.set d k v) = true.
Proof.
  induction d as [|[k' v'] d IH]; simpl; auto.
  intros U. apply andb_true_iff in U as [U1 U2].
  destruct (String.eqb_spec k k') as [->|N]; simpl.
  - now rewrite U1, U2.
  - rewrite IH by assumption. rewrite mem_set_neq by assumption. now rewrite U1.
Qed.

Lemma unique_remove d k : Dict.unique d = true -> Dict.unique (Dict.remove d k) = true.
Proof.
  induction d as [|[k' v'] d IH]; simpl; auto.
  intros U. apply andb_true_iff in U as [U1 U2].
  destruct (String.eqb_spec k k') as [->|N]; simpl; auto.
  rewrite IH by assumption. rewrite mem_remove_neq by assumption. now rewrite U1.
Qed.

Lemma unique_update d o : Dict.unique d = true -> Dict.unique (Dict.update d o) = true.
Proof.
  unfold Dict.update. revert d.
  induction o as [|[k v] o IH]; simpl; auto.
  intros d U. apply IH. now apply unique_set.
Qed.

(** After [d.update(o)] a key of [o] has its value of [o], any other key
    its value of [d]. *)
Lemma get_update d o k :
  Dict.unique o = true ->
  Dict.get (Dict.update d o) k =
  match Dict.get o k with Some v => Some v | None => Dict.get d k end.
Proof.
  unfold Dict.update. revert d.
  induction o as [|[k' v'] o IH]; simpl; auto.
  intros d U. apply andb_true_iff in U as [U1 U2].
  rewrite IH by assumption.
  destruct (String.eqb_spec k k') as [->|N].
  - apply negb_true_iff, mem_false in U1. rewrite U1. apply get_set_eq.
  - destruct (Dict.get o k); auto. apply get_set_neq. congruence.
Qed.

Lemma keys_unique d : Dict.unique d = true -> NoDup (Dict.keys d).
Proof.
  induction d as [|[k v] d IH]; simpl; [constructor|].
  intros U. apply andb_true_iff in U as [U1 U2]. constructor; auto.
  intros H. apply mem_keys in H. rewrite H in U1. discriminate.
Qed.

End Facts.

End DictFacts.

(** ** Python strings and keys, on examples *)

Example str_in_example :
  Py.str_in "Maximum voltage" "Maximum voltage [V]" = true
  /\ Py.str_in "Primary:" "Primary: Negative electrode OCP [V]" = true
  /\ Py.str_in "Secondary:" "Primary: Negative electrode OCP [V]" = false.
Proof. repeat split. Qed.

Example replace_example :
  Py.replace "ab" "X" "cababdab" = "cXXdX"
  /\ Py.replace "aa" "X" "aaa" = "Xa"
  /\ Py.replace "k " "" "k c.0 k" = "c.0 k".
Proof. repeat split. Qed.

Example partition_example :
  Py.partition " func_type " "D_e func_type polynomial" = ("D_e", " func_type ", "polynomial")
  /\ Py.partition " func_type " "D_e" = ("D_e", "", "").
Proof. repeat split. Qed.

Example lower_example : Py.lower "Negative" = "negative".
Proof. reflexivity. Qed.

Example j0_keys_example :
  let param := "Negative electrode exchange-current density pre-multiplier" in
  key_j0 param = "Negative electrode exchange-current density [A.m-2]"
  /\ key_rate_constant param = "Negative electrode reaction rate constant [mol.m-2.s-1]"
  /\ key_activation_energy param
     = "Negative electrode reaction rate constant activation energy [J.mol-1]".
Proof. repeat split. Qed.

Example hysteresis_keys_example :
  key_branch_OCP "Primary: " "Negative" "lithiation"
    = "Primary: Negative electrode lithiation OCP [V]"
  /\ key_OCP "" "Positive" = "Positive electrode OCP [V]".
Proof. repeat split. Qed.

(** ** The state monad *)

Lemma mbind_ok {S A B} (c : M S A) (k : A -> M S B) s a s' :
  c s = (Ok a, s') -> mbind c k s = k a s'.
Proof. unfold mbind. now intros ->. Qed.

Lemma mbind_err {S A B} (c : M S A) (k : A -> M S B) s e s' :
  c s = (Err e, s') -> mbind c k s = (Err e, s').
Proof. unfold mbind. now intros ->. Qed.

(** ** Trimming of the model events *)

Section Trim.
Context {C : Collaborators}.
Local Open Scope float_scope.

Lemma near_full : (1 - SOC_tol_default <? 0.99) = true.
Proof. reflexivity. Qed.

Lemma mid_range :
  (1 - SOC_tol_default <? 0.5) = false /\ (0.5 <? SOC_tol_default) = false.
Proof. split; reflexivity. Qed.

(** C8. With [SOC_init = 0.99] (and the default tolerance)
    [apply_trim_model_events] keeps, in their order, exactly the events whose
    name does not contain "Maximum voltage": every event with such a name is
    removed, and every other event, a "Minimum voltage" event among them,
    stays; the rest of the model is untouched.  With [SOC_init = 0.5] the
    model is returned as it is. *)
Theorem trim_model_events_near_full_and_mid_range
    (m : model event_expr model_body) :
  let trimmed := apply_trim_model_events m 0.99 SOC_tol_default in
  events trimmed
    = filter (fun e => negb (Py.str_in "Maximum voltage" (name e))) (events m)
  /\ (forall e, In e (events trimmed) <->
                In e (events m) /\ Py.str_in "Maximum voltage" (name e) = false)
  /\ (forall e, In e (events m) ->
                Py.str_in "Minimum voltage" (name e) = true ->
                Py.str_in "Maximum voltage" (name e) = false ->
                In e (events trimmed))
  /\ rest trimmed = rest m
  /\ apply_trim_model_events m 0.5 SOC_tol_default = m.
Proof.
  cbv zeta. unfold apply_trim_model_events.
  rewrite near_full. destruct mid_range as [-> ->]. cbn [events rest].
  assert (Hin : forall e,
    In e (filter (fun e => negb (Py.str_in "Maximum voltage" (name e))) (events m)) <->
    In e (events m) /\ Py.str_in "Maximum voltage" (name e) = false).
  { intros e. rewrite filter_In, negb_true_iff. tauto. }
  repeat split; try apply Hin; auto.
  intros e He _ Hmax. apply Hin. auto.
Qed.

End Trim.

(** ** Hysteresis model per electrode *)

Section HysteresisModel.
Context {C : Collaborators}.

(** Both branch entries of a phase exist exactly when the mapping has a
    value under the branch key of every listed branch. *)
Lemma has_hysteresis_data_spec (parameter_values : pv) electrode phase :
  _has_hysteresis_data parameter_values electrode phase = true <->
  forall branch, In branch HYSTERESIS_BRANCHES_ELECTRODE ->
    exists v, Dict.get parameter_values (key_branch_OCP phase electrode branch) = Some v.
Proof.
  unfold _has_hysteresis_data, Py.all.
  rewrite forallb_forall. split.
  - intros H branch Hb. apply DictFacts.mem_true. apply H.
    apply in_map_iff. eauto.
  - intros H b Hb. apply in_map_iff in Hb as [branch [<- Hb]].
    apply DictFacts.mem_true. auto.
Qed.

(** What [get_hysteresis_model_by_electrode] returns for a request that has
    the PyBaMM name [pybamm_name]. *)
Lemma hysteresis_model_by_phase (hysteresis_model pybamm_name : string)
    (parameter_values : pv) electrode phases :
  (if String.eqb hysteresis_model "zero-state" then Ok "current sigmoid"%string
   else if String.eqb hysteresis_model "one-state" then Ok "Wycisk"%string
   else Err (ValueError ("Invalid hysteresis model: " ++ hysteresis_model)))
  = Ok pybamm_name ->
  exists sel,
    get_hysteresis_model_by_electrode hysteresis_model parameter_values electrode phases
      = Ok sel
    /\ as_tuple sel
       = map (fun phase =>
                if _has_hysteresis_data parameter_values electrode phase
                then pybamm_name else "single"%string) phases.
Proof.
  intros Hname. unfold get_hysteresis_model_by_electrode. rewrite Hname.
  cbn [rbind]. rewrite map_map.
  destruct phases as [|p [|p' ps]]; cbn; eauto.
Qed.

(** C7. For a requested "zero-state" or "one-state" model,
    [get_hysteresis_model_by_electrode] returns one model name per phase (a
    bare string for a single phase): "single" for every phase for which not
    both branch open-circuit-potential entries are in the mapping, and the
    name of the requested model, as PyBaMM calls it ("current sigmoid" for
    "zero-state", "Wycisk" for "one-state"), for every phase for which they
    are. *)
Theorem hysteresis_model_falls_back_to_single
    (parameter_values : pv) (electrode : string) (phases : list string) :
  let resolves (hysteresis_model pybamm_name : string) :=
    exists sel,
      get_hysteresis_model_by_electrode hysteresis_model parameter_values
        electrode phases = Ok sel
      /\ List.length (as_tuple sel) = List.length phases
      /\ forall i phase, nth_error phases i = Some phase ->
           ((forall branch, In branch HYSTERESIS_BRANCHES_ELECTRODE ->
               exists v, Dict.get parameter_values
                           (key_branch_OCP phase electrode branch) = Some v) ->
            nth_error (as_tuple sel) i = Some pybamm_name)
           /\ (~ (forall branch, In branch HYSTERESIS_BRANCHES_ELECTRODE ->
                    exists v, Dict.get parameter_values
                                (key_branch_OCP phase electrode branch) = Some v) ->
               nth_error (as_tuple sel) i = Some "single"%string) in
  resolves "zero-state"%string "current sigmoid"%string
  /\ resolves "one-state"%string "Wycisk"%string.
Proof.
  cbv zeta.
  assert (G : forall hm nm,
    (exists sel,
       get_hysteresis_model_by_electrode hm parameter_values electrode phases = Ok sel
       /\ as_tuple sel
          = map (fun phase =>
                   if _has_hysteresis_data parameter_values electrode phase
                   then nm else "single"%string) phases) ->
    exists sel,
      get_hysteresis_model_by_electrode hm parameter_values electrode phases = Ok sel
      /\ List.length (as_tuple sel) = List.length phases
      /\ forall i phase, nth_error phases i = Some phase ->
           ((forall branch, In branch HYSTERESIS_BRANCHES_ELECTRODE ->
               exists v, Dict.get parameter_values
                           (key_branch_OCP phase electrode branch) = Some v) ->
            nth_error (as_tuple sel) i = Some nm)
           /\ (~ (forall branch, In branch HYSTERESIS_BRANCHES_ELECTRODE ->
                    exists v, Dict.get parameter_values
                                (key_branch_OCP phase electrode branch) = Some v) ->
               nth_error (as_tuple sel) i = Some "single"%string)).
  { intros hm nm [sel [Hsel Htuple]]. exists sel. split; [assumption|].
    rewrite Htuple. split; [apply length_map|].
    intros i phase Hi. rewrite nth_error_map, Hi. cbn [option_map].
    rewrite <- has_hysteresis_data_spec.
    destruct (_has_hysteresis_data parameter_values electrode phase); split; intros H;
      congruence. }
  split; apply G; apply hysteresis_model_by_phase; reflexivity.
Qed.

End HysteresisModel.

(** ** The orchestrator: validation and the order of the stages *)

Section Orchestrator.
Context {C : Collaborators}.
Local Open Scope float_scope.

(** A call that fails before the base mapping is loaded leaves no mapping. *)
Lemma get_params_load_failed (a : args) e :
  load a = Err e -> get_params a = Outcome (Err e) None.
Proof. unfold get_params. now intros ->. Qed.

(** The positive electrode's phase list has two entries when blending is
    asked for it, and the phase check refuses that whatever the mapping. *)
Lemma positive_blend_rejected (parameter_values : pv) (negative : bool) :
  _validate_phases_by_electrode parameter_values
    (_get_phases_by_electrode (negative, true))
  = Err (ValueError "Positive electrode blends are not yet supported.").
Proof. reflexivity. Qed.

(** C5. A call of [get_params] whose [blended_electrode] has [True] for the
    positive electrode never returns a mapping and a model, whatever the
    other arguments (and whatever the collaborators do): it ends in an
    exception.  The phase check itself raises the error "Positive electrode
    blends are not yet supported." on every mapping. *)
Theorem positive_blend_never_returns (a : args) (negative : bool) :
  blended_electrode a = Some (negative, true) ->
  (exists e, returned (get_params a) = Err e)
  /\ forall parameter_values,
       _validate_phases_by_electrode parameter_values
         (_get_phases_by_electrode (blended_electrode_or_default a))
       = Err (ValueError "Positive electrode blends are not yet supported.").
Proof.
  intros Hb.
  assert (Hd : blended_electrode_or_default a = (negative, true)).
  { unfold blended_electrode_or_default. now rewrite Hb. }
  split.
  - unfold get_params. destruct (load a) as [pv0|e]; [|cbn; eauto].
    rewrite Hd. unfold get_params_loaded.
    destruct (corrections a pv0) as [[[ds req]|e] pv1] eqn:Hc.
    + rewrite (mbind_ok _ _ _ _ _ Hc).
      rewrite (mbind_err _ _ pv1
                 (ValueError "Positive electrode blends are not yet supported.") pv1).
      * cbn. eauto.
      * unfold phase_resolution, mread. now rewrite positive_blend_rejected.
    + rewrite (mbind_err _ _ _ _ _ Hc). cbn. eauto.
  - intros parameter_values. rewrite Hd. apply positive_blend_rejected.
Qed.

(** C6. A call of [get_params] with [degradation_state = {"LLI": 0.1}] and
    [blended_electrode = (True, False)] ends in an exception before the base
    mapping is loaded: the call leaves no parameter mapping.  Once the
    PyBaMM version check passes, the exception is the one
    [_validate_args_get_params] raises; with valid model type, hysteresis
    model, branch and preceding state, and no heat source asked for without
    the one-state model, it is the [NotImplementedError] of the
    degradation-state check. *)
Theorem degradation_with_blend_fails_before_load (a : args) :
  degradation_state a = Some (DsDict [("LLI"%string, 0.1)]) ->
  blended_electrode a = Some (true, false) ->
  exists e,
    get_params a = Outcome (Err e) None
    /\ (validate_PyBaMM_version = Ok tt -> validate_args a = Err e)
    /\ (validate_PyBaMM_version = Ok tt ->
        Py.mem (model_type a) VALID_MODEL_TYPES = true ->
        Py.mem (hysteresis_model a) VALID_HYSTERESIS_MODELS = true ->
        Py.mem (hysteresis_branch a) VALID_HYSTERESIS_BRANCHES = true ->
        Py.mem (hysteresis_preceding_state a) VALID_HYSTERESIS_BRANCHES = true ->
        add_hysteresis_heat_source a && negb (String.eqb (hysteresis_model a) "one-state")
          = false ->
        e = degradation_state_unsupported).
Proof.
  intros Hds Hb.
  assert (Hv : exists e, validate_args a = Err e
    /\ (Py.mem (model_type a) VALID_MODEL_TYPES = true ->
        Py.mem (hysteresis_model a) VALID_HYSTERESIS_MODELS = true ->
        Py.mem (hysteresis_branch a) VALID_HYSTERESIS_BRANCHES = true ->
        Py.mem (hysteresis_preceding_state a) VALID_HYSTERESIS_BRANCHES = true ->
        add_hysteresis_heat_source a && negb (String.eqb (hysteresis_model a) "one-state")
          = false ->
        e = degradation_state_unsupported)).
  { unfold validate_args, _validate_args_get_params, blended_electrode_or_default.
    rewrite Hds, Hb.
    destruct (Py.mem (model_type a) VALID_MODEL_TYPES);
      [|cbn; eexists; split; [reflexivity | discriminate]].
    destruct (Py.mem (hysteresis_model a) VALID_HYSTERESIS_MODELS);
      [|cbn; eexists; split; [reflexivity | discriminate]].
    destruct (Py.mem (hysteresis_branch a) VALID_HYSTERESIS_BRANCHES);
      [|cbn; eexists; split; [reflexivity | discriminate]].
    destruct (Py.mem (hysteresis_preceding_state a) VALID_HYSTERESIS_BRANCHES);
      [|cbn; eexists; split; [reflexivity | discriminate]].
    destruct (add_hysteresis_heat_source a
              && negb (String.eqb (hysteresis_model a) "one-state"));
      [cbn; eexists; split; [reflexivity | discriminate]|].
    cbn. eexists; split; reflexivity. }
  destruct Hv as [e [He Hprecise]].
  destruct validate_PyBaMM_version as [[]|e0] eqn:Hversion.
  - exists e. split; [|split; auto].
    apply get_params_load_failed. unfold load. now rewrite Hversion, He.
  - exists e0. split; [|split; discriminate].
    apply get_params_load_failed. unfold load. now rewrite Hversion.
Qed.

(** Zero entries only: nothing is left of the state after filtering. *)
Lemma nonzero_entries_all_zero (d : Dict.t float) :
  (forall k v, In (k, v) d -> (v =? 0) = true) -> nonzero_entries d = [].
Proof.
  unfold nonzero_entries. induction d as [|[k v] d IH]; intros H; cbn; auto.
  rewrite (H k v) by (left; reflexivity). cbn. apply IH.
  intros k' v' Hin. apply (H k' v'). now right.
Qed.

(** The key check of the degradation state passes when every key is a
    supported one. *)
Lemma degradation_keys_accepted (d : Dict.t float) :
  (forall k, In k (Dict.keys d) -> Py.mem k VALID_DEGRADATION_KEYS = true) ->
  rfor (Dict.keys d) (fun k =>
    raise_if (negb (Py.mem k VALID_DEGRADATION_KEYS))
      (ValueError ("Unsupported field in 'degradation_state': " ++ k
                   ++ ". Supported fields are: "
                   ++ Py.join ", " VALID_DEGRADATION_KEYS))) = Ok tt.
Proof.
  induction (Dict.keys d) as [|k ks IH]; intros H; [reflexivity|].
  cbn [rfor]. rewrite (H k) by (left; reflexivity). cbn. apply IH.
  intros k' Hk'. apply H. now right.
Qed.

(** With a blended electrode or a hysteresis model, validation refuses any
    degradation state that is not [None], an empty one included. *)
Lemma degradation_state_refused (a : args) (ds : ds_arg) :
  degradation_state a = Some ds ->
  any_blended (blended_electrode_or_default a)
    || negb (String.eqb (hysteresis_model a) "none") = true ->
  forall u, validate_args a <> Ok u.
Proof.
  intros Hds Hbad u. unfold validate_args, _validate_args_get_params.
  rewrite Hds, Hbad.
  repeat match goal with
         | |- context [raise_if ?b ?e] => destruct b; cbn; try discriminate
         end.
Qed.

(** Validation accepts an all-valid-keys degradation state exactly as it
    accepts no state, when no electrode is blended and there is no
    hysteresis model. *)
Lemma validate_args_degradation_state (a : args) (d : Dict.t float) :
  (forall k, In k (Dict.keys d) -> Py.mem k VALID_DEGRADATION_KEYS = true) ->
  any_blended (blended_electrode_or_default a) = false ->
  hysteresis_model a = "none"%string ->
  validate_args (with_degradation_state a (Some (DsDict d)))
  = validate_args (with_degradation_state a None).
Proof.
  intros Hkeys Hb Hm.
  unfold validate_args, _validate_args_get_params.
  change (blended_electrode_or_default (with_degradation_state a (Some (DsDict d))))
    with (blended_electrode_or_default a).
  change (blended_electrode_or_default (with_degradation_state a None))
    with (blended_electrode_or_default a).
  cbn [with_degradation_state SOC_definition OCV_init degradation_state htc_ext
       model_type hysteresis_model hysteresis_branch hysteresis_preceding_state
       add_hysteresis_heat_source].
  rewrite Hb, Hm, (degradation_keys_accepted d Hkeys). reflexivity.
Qed.

(** C1 (amended). A degradation state whose every value equals zero, the
    empty state included, gives the very outcome of the same call with
    [degradation_state = None] (the same mapping and model, or the same
    exception), provided validation lets a degradation state through at
    all: no electrode is blended, [hysteresis_model] is "none", and every
    key is a supported one. *)
Theorem zero_degradation_state_is_no_state (a : args) (d : Dict.t float) :
  (forall k v, In (k, v) d -> (v =? 0) = true) ->
  (forall k, In k (Dict.keys d) -> Py.mem k VALID_DEGRADATION_KEYS = true) ->
  any_blended (blended_electrode_or_default a) = false ->
  hysteresis_model a = "none"%string ->
  get_params (with_degradation_state a (Some (DsDict d)))
  = get_params (with_degradation_state a None).
Proof.
  intros Hzero Hkeys Hb Hm.
  assert (Hload : load (with_degradation_state a (Some (DsDict d)))
                  = load (with_degradation_state a None)).
  { unfold load. now rewrite validate_args_degradation_state. }
  assert (Hrun : forall b x parameter_values,
    get_params_loaded (with_degradation_state a (Some (DsDict d))) b x parameter_values
    = get_params_loaded (with_degradation_state a None) b x parameter_values).
  { intros b x parameter_values.
    unfold get_params_loaded, corrections.
    cbn [with_degradation_state degradation_state htc_ext effective_degradation_state].
    rewrite (nonzero_entries_all_zero d Hzero). reflexivity. }
  unfold get_params. rewrite Hload.
  destruct (load (with_degradation_state a None)); [|reflexivity].
  change (blended_electrode_or_default (with_degradation_state a (Some (DsDict d))))
    with (blended_electrode_or_default a).
  change (blended_electrode_or_default (with_degradation_state a None))
    with (blended_electrode_or_default a).
  change (extra_model_opts_or_empty (with_degradation_state a (Some (DsDict d))))
    with (extra_model_opts_or_empty a).
  change (extra_model_opts_or_empty (with_degradation_state a None))
    with (extra_model_opts_or_empty a).
  now rewrite Hrun.
Qed.

(** C9 (amended). When phase resolution fails, [get_params] ends with that
    error and with the mapping exactly as function synthesis and the
    corrections asked for (heat-transfer coefficient, degradation state)
    left it: the phase check changes nothing and no later stage has run.
    The mapping is the loaded base set only as far as those stages left it
    unchanged. *)
Theorem phase_error_follows_corrections (a : args)
    (base corrected : pv) ds required_model_opts e :
  load a = Ok base ->
  corrections a base = (Ok (ds, required_model_opts), corrected) ->
  _validate_phases_by_electrode corrected
    (_get_phases_by_electrode (blended_electrode_or_default a)) = Err e ->
  get_params a = Outcome (Err e) (Some corrected).
Proof.
  intros Hload Hc Hphase.
  unfold get_params. rewrite Hload. unfold get_params_loaded.
  rewrite (mbind_ok _ _ _ _ _ Hc).
  rewrite (mbind_err _ _ corrected e corrected); [reflexivity|].
  unfold phase_resolution, mread. now rewrite Hphase.
Qed.

End Orchestrator.

(** ** The degradation scaler *)

(** Two different keys written out in full are told apart by computing. *)
Ltac differ := apply String.eqb_neq; vm_compute; reflexivity.

Create HintDb dict discriminated.
#[export] Hint Resolve DictFacts.unique_set DictFacts.unique_update
  DictFacts.unique_remove : dict.

Section Degradation.
Context {C : Collaborators}.
Local Open Scope float_scope.

Implicit Types (parameter_values vals : pv) (degradation_state : Dict.t float).

Lemma select_keys_unique parameter_values ks acc d :
  select_keys parameter_values ks acc = Ok d ->
  Dict.unique acc = true -> Dict.unique d = true.
Proof.
  revert acc. induction ks as [|k ks IH]; cbn; intros acc H U.
  - congruence.
  - destruct (Dict.lookup parameter_values k); cbn in H; [|discriminate].
    eapply IH; eauto with dict.
Qed.

Lemma apply_LAM_unique degradation_state zipped u u' :
  apply_LAM degradation_state zipped u = Ok u' ->
  Dict.unique u = true -> Dict.unique u' = true.
Proof.
  revert u. induction zipped as [|[lf p] z IH]; cbn; intros u H U.
  - congruence.
  - destruct (Dict.get degradation_state lf); [|eauto].
    destruct (Dict.lookup u p); cbn in H; [|discriminate].
    destruct (value_mul _ _); cbn in H; [|discriminate].
    eapply IH; eauto with dict.
Qed.

Lemma apply_RI_far_unique parameter_values degradation_state zipped vals vals' :
  apply_RI_far parameter_values degradation_state zipped vals = Ok vals' ->
  Dict.unique vals = true -> Dict.unique vals' = true.
Proof.
  revert vals. induction zipped as [|[lf p] z IH]; cbn; intros vals H U.
  - congruence.
  - destruct (Dict.get degradation_state lf); [|eauto].
    destruct (float_div _ _); cbn in H; [|discriminate].
    destruct (Dict.lookup parameter_values p); cbn in H; [|discriminate].
    eapply IH; eauto with dict.
Qed.

(** The faradaic loop writes only the kinetic parameters it is given. *)
Lemma apply_RI_far_frame parameter_values degradation_state zipped vals vals' k :
  apply_RI_far parameter_values degradation_state zipped vals = Ok vals' ->
  ~ In k (map snd zipped) ->
  Dict.get vals' k = Dict.get vals k.
Proof.
  revert vals. induction zipped as [|[lf p] z IH]; cbn; intros vals H N.
  - congruence.
  - destruct (Dict.get degradation_state lf); [|eauto].
    destruct (float_div _ _); cbn in H; [|discriminate].
    destruct (Dict.lookup parameter_values p); cbn in H; [|discriminate].
    rewrite (IH _ H) by tauto. apply DictFacts.get_set_neq. tauto.
Qed.

Lemma apply_RI_electrolyte_unique parameter_values m params vals vals' :
  apply_RI_electrolyte parameter_values m params vals = Ok vals' ->
  Dict.unique vals = true -> Dict.unique vals' = true.
Proof.
  revert vals. induction params as [|p ps IH]; cbn; intros vals H U.
  - congruence.
  - destruct (Dict.lookup parameter_values p); cbn in H; [|discriminate].
    eapply IH; eauto with dict.
Qed.

(** The electrolyte loop writes only the parameters it is given. *)
Lemma apply_RI_electrolyte_frame parameter_values m params vals vals' k :
  apply_RI_electrolyte parameter_values m params vals = Ok vals' ->
  ~ In k params ->
  Dict.get vals' k = Dict.get vals k.
Proof.
  revert vals. induction params as [|p ps IH]; cbn; intros vals H N.
  - congruence.
  - destruct (Dict.lookup parameter_values p); cbn in H; [|discriminate].
    rewrite (IH _ H) by tauto. apply DictFacts.get_set_neq. tauto.
Qed.

(** The values the scaler computes, stage by stage: the inventory and the
    volume fractions, then the faradaic, electrolyte and series-resistance
    entries. *)
Lemma degradation_scaled_vals_stages parameter_values degradation_state vals :
  degradation_scaled_vals parameter_values degradation_state = Ok vals ->
  exists ncyc fractions scaled kinetic electrolyte,
    calc_lithium_inventory parameter_values = Ok ncyc
    /\ select_keys parameter_values volume_fraction_params Dict.empty = Ok fractions
    /\ apply_LAM degradation_state
         (Py.zip ["LAM_NE"; "LAM_PE"]%string volume_fraction_params) fractions
       = Ok scaled
    /\ apply_RI_far parameter_values degradation_state
         (Py.zip ["RI_far_NE"; "RI_far_PE"]%string kinetic_params)
         (Dict.update
            [(key_lithium_inventory,
              VNum match Dict.get degradation_state "LLI" with
                   | Some lli => ncyc * (1 - lli)
                   | None => ncyc
                   end)]
            scaled)
       = Ok kinetic
    /\ (forall k,
          k <> "Electrolyte conductivity [S.m-1]"%string ->
          k <> "Electrolyte diffusivity [m2.s-1]"%string ->
          Dict.get electrolyte k = Dict.get kinetic k)
    /\ (forall k,
          k <> "Contact resistance [Ohm]"%string ->
          Dict.get vals k = Dict.get electrolyte k)
    /\ Dict.unique vals = true.
Proof.
  unfold degradation_scaled_vals. intros H.
  destruct (calc_lithium_inventory parameter_values) as [ncyc|]; cbn [rbind] in H;
    [|discriminate].
  destruct (select_keys parameter_values volume_fraction_params Dict.empty)
    as [fractions|] eqn:Hsel; cbn [rbind] in H; [|discriminate].
  destruct (apply_LAM _ _ fractions) as [scaled|] eqn:Hlam; cbn [rbind] in H;
    [|discriminate].
  change (Dict.update Dict.empty [(key_lithium_inventory, ?v)])
    with [(key_lithium_inventory, v)] in H.
  destruct (apply_RI_far _ _ _ _) as [kinetic|] eqn:Hfar; cbn [rbind] in H;
    [|discriminate].
  assert (Uk : Dict.unique kinetic = true).
  { eapply apply_RI_far_unique; [eassumption|].
    apply DictFacts.unique_update. reflexivity. }
  match type of H with
  | (let? vals := ?stage in _) = _ =>
      destruct stage as [electrolyte|] eqn:Hel; cbn [rbind] in H; [|discriminate]
  end.
  assert (Ue : Dict.unique electrolyte = true
               /\ forall k,
                    k <> "Electrolyte conductivity [S.m-1]"%string ->
                    k <> "Electrolyte diffusivity [m2.s-1]"%string ->
                    Dict.get electrolyte k = Dict.get kinetic k).
  { destruct (Dict.get degradation_state "RI_electrolyte").
    - destruct (float_div _ _); cbn [rbind] in Hel; [|discriminate].
      split.
      + eapply apply_RI_electrolyte_unique; eassumption.
      + intros k N1 N2. eapply apply_RI_electrolyte_frame; [eassumption|].
        cbn. intuition congruence.
    - injection Hel as <-. auto. }
  destruct Ue as [Ue Hframe].
  exists ncyc, fractions, scaled, kinetic, electrolyte.
  repeat (split; [first [reflexivity | assumption]|]).
  destruct (Dict.get degradation_state "R0_addn [Ohm]").
  - match type of H with
    | (let? R0_new := ?r in _) = _ =>
        destruct r as [R0_new|]; cbn [rbind] in H; [|discriminate]
    end.
    injection H as <-. split.
    + intros k N. apply DictFacts.get_set_neq. congruence.
    + auto with dict.
  - injection H as <-. auto.
Qed.

(** The volume-fraction stage: both fractions are read, and both are in
    the result. *)
Lemma volume_fractions_stage parameter_values degradation_state fractions scaled :
  select_keys parameter_values volume_fraction_params Dict.empty = Ok fractions ->
  apply_LAM degradation_state
    (Py.zip ["LAM_NE"; "LAM_PE"]%string volume_fraction_params) fractions = Ok scaled ->
  exists a b a' b',
    Dict.get parameter_values (key_volume_fraction "Negative") = Some a
    /\ Dict.get parameter_values (key_volume_fraction "Positive") = Some b
    /\ scaled = [(key_volume_fraction "Negative", a'); (key_volume_fraction "Positive", b')]
    /\ written_back degradation_state "LAM_NE" a a'
    /\ written_back degradation_state "LAM_PE" b b'.
Proof.
  unfold written_back.
  change volume_fraction_params
    with [key_volume_fraction "Negative"; key_volume_fraction "Positive"].
  cbn [select_keys Py.zip combine apply_LAM]. unfold Dict.lookup.
  destruct (Dict.get parameter_values (key_volume_fraction "Negative")) as [a|];
    cbn [rbind]; [|discriminate].
  destruct (Dict.get parameter_values (key_volume_fraction "Positive")) as [b|];
    cbn [rbind]; [|discriminate].
  intros Hsel. injection Hsel as <-.
  change (Dict.set (Dict.set Dict.empty (key_volume_fraction "Negative") a)
            (key_volume_fraction "Positive") b)
    with [(key_volume_fraction "Negative", a); (key_volume_fraction "Positive", b)].
  destruct (Dict.get degradation_state "LAM_NE") as [lamN|];
    destruct (Dict.get degradation_state "LAM_PE") as [lamP|];
    cbn; intros H;
    repeat match type of H with
           | context [value_mul ?x ?m] =>
               destruct (value_mul x m) eqn:?; cbn in H; [|discriminate]
           end;
    injection H as <-; do 4 eexists; repeat split; eauto.
Qed.

(** C10. Whenever [apply_degradation_state] completes, whatever modes the
    state holds, the mapping has the total cyclable lithium inventory under
    its key, equal to the inventory computed from the mapping as found
    (times [1 - LLI] only when "LLI" is a key), and has both electrodes'
    active-material volume fractions written back: with their original
    value when "LAM_NE" or "LAM_PE" is not a key, scaled by [1 - LAM] when
    it is. *)
Theorem degradation_always_writes_inventory_and_fractions
    parameter_values degradation_state parameter_values' :
  apply_degradation_state degradation_state parameter_values = (Ok tt, parameter_values') ->
  exists ncyc a b a' b',
    calc_lithium_inventory parameter_values = Ok ncyc
    /\ Dict.get parameter_values (key_volume_fraction "Negative") = Some a
    /\ Dict.get parameter_values (key_volume_fraction "Positive") = Some b
    /\ Dict.get parameter_values' key_lithium_inventory
       = Some (VNum match Dict.get degradation_state "LLI" with
                    | Some lli => ncyc * (1 - lli)
                    | None => ncyc
                    end)
    /\ Dict.get parameter_values' (key_volume_fraction "Negative") = Some a'
    /\ Dict.get parameter_values' (key_volume_fraction "Positive") = Some b'
    /\ written_back degradation_state "LAM_NE" a a'
    /\ written_back degradation_state "LAM_PE" b b'.
Proof.
  unfold apply_degradation_state, mwrite. intros H.
  destruct (degradation_scaled_vals parameter_values degradation_state)
    as [vals|] eqn:Hvals; cbn [rbind] in H; [|discriminate].
  injection H as <-.
  destruct (degradation_scaled_vals_stages _ _ _ Hvals)
    as (ncyc & fractions & scaled & kinetic & electrolyte
        & Hcalc & Hsel & Hlam & Hfar & Hel & Hr0 & U).
  destruct (volume_fractions_stage _ _ _ _ Hsel Hlam)
    as (a & b & a' & b' & Ha & Hb & -> & Wa & Wb).
  exists ncyc, a, b, a', b'.
  repeat (split; [assumption|]).
  assert (Hget : forall k v,
    k <> "Contact resistance [Ohm]"%string ->
    k <> "Electrolyte conductivity [S.m-1]"%string ->
    k <> "Electrolyte diffusivity [m2.s-1]"%string ->
    ~ In k (map snd (Py.zip ["RI_far_NE"; "RI_far_PE"]%string kinetic_params)) ->
    Dict.get
      (Dict.update
         [(key_lithium_inventory,
           VNum match Dict.get degradation_state "LLI" with
                | Some lli => ncyc * (1 - lli)
                | None => ncyc
                end)]
         [(key_volume_fraction "Negative", a'); (key_volume_fraction "Positive", b')]) k
    = Some v ->
    Dict.get (Dict.update parameter_values vals) k = Some v).
  { intros k v N1 N2 N3 N4 Hk.
    rewrite DictFacts.get_update by assumption.
    rewrite Hr0, Hel by assumption.
    rewrite (apply_RI_far_frame _ _ _ _ _ _ Hfar N4). now rewrite Hk. }
  repeat split; try assumption;
    (apply Hget; [differ | differ | differ | | reflexivity]);
    cbn; intros [E|[E|[]]]; revert E; differ.
Qed.

(** What a rescaled parameter gives is the factor times what the parameter
    gave, for a scalar and for a function alike. *)
Lemma scale_param_at {A : Type} (call : obj -> A -> float) (param : value obj)
    (factor : float) (args : A) :
  value_at call (_scale_param param factor) args = factor * value_at call param args.
Proof. destruct param; reflexivity. Qed.

(** C3. For a degradation state with "RI_far_NE" equal to [y] and no other
    resistance key, on a mapping with scalar volume fractions, a lithium
    inventory and a negative-electrode exchange-current density [j0],
    and [1 + y] not zero, [apply_degradation_state] completes and sets the
    negative electrode's exchange-current density to the original scaled
    by exactly [1 / (1 + y)]: a scalar [x] becomes the scalar
    [1 / (1 + y) * x]; anything else, a function, is kept as it is inside a
    wrapper with the factor [1 / (1 + y)]; and either way the new value
    gives, for any arguments, [1 / (1 + y)] times what the original gives.
    The positive electrode's exchange-current density is what it was. *)
Theorem RI_far_NE_scales_negative_electrode_only
    parameter_values degradation_state (y ncyc a b : float) (j0 : value obj) :
  Dict.get degradation_state "RI_far_NE" = Some y ->
  Dict.get degradation_state "RI_far_PE" = None ->
  Dict.get degradation_state "RI_electrolyte" = None ->
  Dict.get degradation_state "R0_addn [Ohm]" = None ->
  calc_lithium_inventory parameter_values = Ok ncyc ->
  Dict.get parameter_values (key_volume_fraction "Negative") = Some (VNum a) ->
  Dict.get parameter_values (key_volume_fraction "Positive") = Some (VNum b) ->
  Dict.get parameter_values (key_kinetic "Negative") = Some j0 ->
  (1 + y =? 0) = false ->
  exists parameter_values' j0',
    apply_degradation_state degradation_state parameter_values
      = (Ok tt, parameter_values')
    /\ Dict.get parameter_values' (key_kinetic "Negative") = Some j0'
    /\ j0' = _scale_param j0 (1 / (1 + y))
    /\ (forall x, j0 = VNum x -> j0' = VNum (1 / (1 + y) * x))
    /\ ((forall x, j0 <> VNum x) -> j0' = VScaled (1 / (1 + y)) j0)
    /\ (forall (A : Type) (call : obj -> A -> float) (args : A),
          value_at call j0' args = 1 / (1 + y) * value_at call j0 args)
    /\ Dict.get parameter_values' (key_kinetic "Positive")
       = Dict.get parameter_values (key_kinetic "Positive").
Proof.
  intros HNE HPE Hel HR0 Hcalc Ha Hb Hj0 Hy.
  assert (Hvals : exists vals,
    degradation_scaled_vals parameter_values degradation_state = Ok vals
    /\ Dict.unique vals = true
    /\ Dict.get vals (key_kinetic "Negative") = Some (_scale_param j0 (1 / (1 + y)))
    /\ Dict.get vals (key_kinetic "Positive") = None).
  { unfold degradation_scaled_vals. rewrite Hcalc, Hel, HR0. cbn [rbind].
    change volume_fraction_params
      with [key_volume_fraction "Negative"; key_volume_fraction "Positive"].
    change kinetic_params with [key_kinetic "Negative"; key_kinetic "Positive"].
    cbn [select_keys Py.zip combine apply_LAM apply_RI_far]. unfold Dict.lookup.
    rewrite Ha, Hb, HNE, HPE, Hj0. cbn [rbind].
    unfold float_div. rewrite Hy. cbn [rbind].
    destruct (Dict.get degradation_state "LAM_NE");
      destruct (Dict.get degradation_state "LAM_PE");
      cbn; eexists; repeat split. }
  destruct Hvals as (vals & Hvals & U & HvN & HvP).
  exists (Dict.update parameter_values vals), (_scale_param j0 (1 / (1 + y))).
  unfold apply_degradation_state, mwrite. rewrite Hvals. cbn [rbind].
  split; [reflexivity|].
  split; [rewrite DictFacts.get_update by assumption; now rewrite HvN|].
  split; [reflexivity|].
  split; [intros x ->; reflexivity|].
  split.
  { intros Hfun. destruct j0 as [x| |]; [destruct (Hfun x eq_refl)| |]; reflexivity. }
  split; [intros A call args; apply scale_param_at|].
  rewrite DictFacts.get_update by assumption. now rewrite HvP.
Qed.

End Degradation.

(** ** Synthesis of the exchange-current density *)

Section Synthesis.
Context {C : Collaborators}.

Implicit Types (d : pv) (p q x : string).

Lemma py_mem_in x l : Py.mem x l = true <-> In x l.
Proof.
  unfold Py.mem. rewrite existsb_exists. split.
  - intros [y [Hy E]]. apply String.eqb_eq in E. now subst.
  - intros H. exists x. split; auto. apply String.eqb_refl.
Qed.

Lemma j0_independent_spec p q x :
  j0_independent p q = true -> In x (j0_touched p) ->
  ~ In x (j0_inputs q) /\ ~ In x (j0_touched q).
Proof.
  unfold j0_independent. rewrite forallb_forall. intros H Hx.
  specialize (H x Hx). apply negb_true_iff in H.
  split; intros Hin;
    assert (Py.mem x (j0_inputs q ++ j0_touched q) = true)
      by (apply py_mem_in, in_or_app; auto);
    congruence.
Qed.

Lemma setitem_assignable d k v :
  assignable d k -> setitem k v d = (Ok tt, Dict.set d k v).
Proof.
  unfold assignable, setitem, mwrite. intros H.
  destruct assignment_needs_key; [|reflexivity].
  now rewrite H.
Qed.

(** One turn: with its inputs in the mapping it completes, installs the
    function, deletes the pre-multiplier and the rate constant, and leaves
    every other key as it was. *)
Lemma build_j0_step_effect d p f :
  j0_function d p = Some f ->
  j0_keys_distinct p = true ->
  assignable d (key_j0 p) ->
  exists d',
    build_j0_step p d = (Ok tt, d')
    /\ Dict.get d' (key_j0 p) = Some f
    /\ Dict.get d' p = None
    /\ Dict.get d' (key_rate_constant p) = None
    /\ forall x, ~ In x (j0_touched p) -> Dict.get d' x = Dict.get d x.
Proof.
  unfold j0_function, j0_keys_distinct. intros Hf Hd Hassign.
  destruct (Dict.get d (key_rate_constant p)) as [k|] eqn:Hk; [|discriminate].
  destruct (Dict.get d (key_activation_energy p)) as [Ea|] eqn:HEa; [|discriminate].
  destruct (Dict.get d "Reference temperature [K]") as [Tref|] eqn:HT; [|discriminate].
  destruct (Dict.get d p) as [premul|] eqn:Hp; [|discriminate].
  injection Hf as Hf.
  apply andb_true_iff in Hd as [Hd N3]. apply andb_true_iff in Hd as [N1 N2].
  apply negb_true_iff, String.eqb_neq in N1, N2, N3.
  exists (Dict.remove (Dict.remove (Dict.set d (key_j0 p) f) p) (key_rate_constant p)).
  split.
  - unfold build_j0_step, getitem, mbind at 1 2 3 4 5, mread, Dict.lookup.
    rewrite Hk, HEa, HT, Hp, Hf, (setitem_assignable _ _ _ Hassign).
    unfold delitem, mbind, mwrite.
    assert (M1 : Dict.mem (Dict.set d (key_j0 p) f) p = true).
    { rewrite DictFacts.mem_set_neq by assumption.
      apply DictFacts.mem_true. eauto. }
    unfold Dict.del. rewrite M1.
    assert (M2 : Dict.mem (Dict.remove (Dict.set d (key_j0 p) f) p) (key_rate_constant p)
                 = true).
    { rewrite DictFacts.mem_remove_neq by assumption.
      rewrite DictFacts.mem_set_neq by assumption.
      apply DictFacts.mem_true. eauto. }
    now rewrite M2.
  - repeat split.
    + rewrite DictFacts.get_remove_neq by congruence.
      rewrite DictFacts.get_remove_neq by congruence.
      apply DictFacts.get_set_eq.
    + rewrite DictFacts.get_remove_neq by congruence.
      apply DictFacts.get_remove_eq.
    + apply DictFacts.get_remove_eq.
    + intros x Hx. cbn in Hx.
      rewrite DictFacts.get_remove_neq by (intros E; apply Hx; auto).
      rewrite DictFacts.get_remove_neq by (intros E; apply Hx; auto).
      apply DictFacts.get_set_neq. intros E; apply Hx; auto.
Qed.

(** The function of [q] does not change when keys that are no inputs of [q]
    change. *)
Lemma j0_function_frame d d' q :
  (forall x, In x (j0_inputs q) -> Dict.get d' x = Dict.get d x) ->
  j0_function d' q = j0_function d q.
Proof.
  intros H. unfold j0_function.
  rewrite !H by (cbn; auto). reflexivity.
Qed.

(** The loop over pre-multiplier keys that do not interfere. *)
Lemma build_j0_loop ps : forall d,
  NoDup ps ->
  (forall p, In p ps -> j0_keys_distinct p = true) ->
  (forall p q, In p ps -> In q ps -> p <> q -> j0_independent p q = true) ->
  (forall p, In p ps -> exists f, j0_function d p = Some f) ->
  (forall p, In p ps -> assignable d (key_j0 p)) ->
  exists d',
    mfor ps build_j0_step d = (Ok tt, d')
    /\ (forall x, (forall p, In p ps -> ~ In x (j0_touched p)) ->
                  Dict.get d' x = Dict.get d x)
    /\ forall p, In p ps ->
         Dict.get d' (key_j0 p) = j0_function d p
         /\ Dict.get d' p = None
         /\ Dict.get d' (key_rate_constant p) = None.
Proof.
  induction ps as [|p ps IH]; intros d ND Hdist Hind Hin Hassign.
  - exists d. split; [reflexivity|]. split; [auto|]. intros p [].
  - apply NoDup_cons_iff in ND as [Hp ND].
    destruct (Hin p (or_introl eq_refl)) as [f Hf].
    destruct (build_j0_step_effect d p f Hf (Hdist p (or_introl eq_refl))
                (Hassign p (or_introl eq_refl)))
      as (d1 & Hstep & Hj0 & Hgone & Hrate & Hframe).
    assert (Hne : forall q, In q ps -> p <> q) by (intros q Hq E; subst; auto).
    assert (Hsame : forall q, In q ps -> j0_function d1 q = j0_function d q).
    { intros q Hq. apply j0_function_frame. intros x Hx. apply Hframe.
      intros Ht.
      destruct (j0_independent_spec p q x) as [N _]; auto.
      apply Hind; cbn; auto. }
    destruct (IH d1 ND) as (d' & Hloop & Hframe' & Hres).
    + intros q Hq. apply Hdist. now right.
    + intros q q' Hq Hq'. apply Hind; now right.
    + intros q Hq. rewrite Hsame by assumption. apply Hin. now right.
    + intros q Hq Hflag. unfold Dict.mem. rewrite Hframe.
      * apply (Hassign q (or_intror Hq) Hflag).
      * intros Ht. destruct (j0_independent_spec p q (key_j0 q)) as [_ N]; auto.
        -- apply Hind; cbn; auto.
        -- apply N. cbn. auto.
    + exists d'. split; [|split].
      * cbn [mfor]. now rewrite (mbind_ok _ _ _ _ _ Hstep).
      * intros x Hx. rewrite Hframe'.
        -- apply Hframe. apply Hx. now left.
        -- intros q Hq. apply Hx. now right.
      * assert (Hkeep : forall x, In x (j0_touched p) -> Dict.get d' x = Dict.get d1 x).
        { intros x Hx. apply Hframe'. intros q Hq.
          destruct (j0_independent_spec p q x) as [_ N]; auto.
          apply Hind; cbn; auto. }
        intros q [<-|Hq].
        -- rewrite !Hkeep by (cbn; auto). rewrite Hf. auto.
        -- rewrite <- Hsame by assumption. now apply Hres.
Qed.

Lemma premultiplier_keys_distinct p :
  In p premultiplier_keys -> j0_keys_distinct p = true.
Proof.
  assert (H : forallb j0_keys_distinct premultiplier_keys = true)
    by (vm_compute; reflexivity).
  rewrite forallb_forall in H. apply H.
Qed.

Lemma premultiplier_keys_independent p q :
  In p premultiplier_keys -> In q premultiplier_keys -> p <> q ->
  j0_independent p q = true.
Proof.
  assert (H : forallb (fun p =>
                forallb (fun q => String.eqb p q || j0_independent p q)
                        premultiplier_keys)
              premultiplier_keys = true)
    by (vm_compute; reflexivity).
  rewrite forallb_forall in H. intros Hp Hq N.
  specialize (H p Hp). rewrite forallb_forall in H. specialize (H q Hq).
  apply orb_true_iff in H as [E|H]; auto.
  apply String.eqb_eq in E. contradiction.
Qed.

Lemma premultiplier_keys_activation_energy_apart p :
  In p premultiplier_keys -> j0_activation_energy_apart p = true.
Proof.
  assert (H : forallb j0_activation_energy_apart premultiplier_keys = true)
    by (vm_compute; reflexivity).
  rewrite forallb_forall in H. apply H.
Qed.

Lemma param_subst_NoDup d : Dict.unique d = true -> NoDup (param_subst d).
Proof.
  intros U. unfold param_subst. apply NoDup_filter. now apply DictFacts.keys_unique.
Qed.

Lemma param_subst_key d p : In p (param_subst d) -> exists v, Dict.get d p = Some v.
Proof.
  unfold param_subst. rewrite filter_In. intros [H _].
  apply DictFacts.mem_true. now apply DictFacts.mem_keys.
Qed.

(** C2 (amended). On a mapping whose exchange-current-density
    pre-multiplier entries are those of the electrodes (with or without a
    phase prefix), each with its rate constant and activation energy, with
    a reference temperature (and with the canonical entries already there
    where item assignment does not add keys),
    [build_exchange_current_density] completes, and for every pre-multiplier entry it installs under the
    canonical exchange-current-density key the function [_make_j0_func]
    builds from Faraday's constant times the rate constant, the activation
    energy, the reference temperature and the pre-multiplier, and deletes
    the pre-multiplier entry and the rate-constant entry; the
    activation-energy entry stays in the mapping. *)
Theorem build_exchange_current_density_installs_and_deletes d param :
  Dict.unique d = true ->
  (forall q, In q (param_subst d) -> In q premultiplier_keys) ->
  (forall q, In q (param_subst d) ->
     Dict.mem d (key_rate_constant q) = true
     /\ Dict.mem d (key_activation_energy q) = true) ->
  Dict.mem d "Reference temperature [K]" = true ->
  (assignment_needs_key = true ->
   forall q, In q (param_subst d) -> Dict.mem d (key_j0 q) = true) ->
  In param (param_subst d) ->
  exists d' k Ea Tref premul,
    build_exchange_current_density d = (Ok tt, d')
    /\ Dict.get d (key_rate_constant param) = Some k
    /\ Dict.get d (key_activation_energy param) = Some Ea
    /\ Dict.get d "Reference temperature [K]" = Some Tref
    /\ Dict.get d param = Some premul
    /\ Dict.get d' (key_j0 param)
       = Some (_make_j0_func
                 [("j0_ref", F_times k); ("Ea", Ea); ("Tref", Tref)]%string premul)
    /\ Dict.get d' param = None
    /\ Dict.get d' (key_rate_constant param) = None
    /\ Dict.get d' (key_activation_energy param) = Some Ea.
Proof.
  intros U Hkeys Hinputs HT Hassign Hparam.
  assert (Hf : forall q, In q (param_subst d) ->
    exists k Ea Tref premul,
      Dict.get d (key_rate_constant q) = Some k
      /\ Dict.get d (key_activation_energy q) = Some Ea
      /\ Dict.get d "Reference temperature [K]" = Some Tref
      /\ Dict.get d q = Some premul
      /\ j0_function d q
         = Some (_make_j0_func
                   [("j0_ref", F_times k); ("Ea", Ea); ("Tref", Tref)]%string premul)).
  { intros q Hq. destruct (Hinputs q Hq) as [Hk HEa].
    apply DictFacts.mem_true in Hk as [k Hk], HEa as [Ea HEa], HT as [Tref HT'].
    destruct (param_subst_key d q Hq) as [premul Hp].
    exists k, Ea, Tref, premul. unfold j0_function.
    rewrite Hk, HEa, HT', Hp. auto. }
  destruct (build_j0_loop (param_subst d) d) as (d' & Hloop & Hframe & Hres).
  - now apply param_subst_NoDup.
  - intros p Hp. apply premultiplier_keys_distinct. auto.
  - intros p q Hp Hq. apply premultiplier_keys_independent; auto.
  - intros p Hp. destruct (Hf p Hp) as (k & Ea & Tref & premul & _ & _ & _ & _ & E).
    eauto.
  - intros p Hp Hflag. auto.
  - destruct (Hf param Hparam) as (k & Ea & Tref & premul & Hk & HEa & HT' & Hp & E).
    destruct (Hres param Hparam) as (Hj0 & Hgone & Hrate).
    exists d', k, Ea, Tref, premul.
    unfold build_exchange_current_density.
    rewrite Hj0, E. repeat (split; [first [assumption | reflexivity]|]).
    rewrite Hframe; [assumption|].
    intros q Hq Ht.
    destruct (String.eqb_spec q param) as [->|N].
    + pose proof (premultiplier_keys_activation_energy_apart param (Hkeys _ Hparam)) as A.
      apply negb_true_iff in A.
      apply py_mem_in in Ht. congruence.
    + destruct (j0_independent_spec q param (key_activation_energy param)) as [NI _];
        auto.
      * apply premultiplier_keys_independent; auto.
      * apply NI. cbn. auto.
Qed.

End Synthesis.

(** ** Selection of a hysteresis branch *)

Section BranchSelection.
Context {C : Collaborators}.

Lemma last_cons {A} (x : A) l y : last (x :: l) y = last l x.
Proof.
  revert x y. induction l as [|z l IH]; intros x y; [reflexivity|].
  change (last (x :: z :: l) y) with (last (z :: l) y).
  now rewrite !IH.
Qed.

(** The deletion loop leaves the function's variable [branch] at the last
    listed branch. *)
Lemma delete_branches_rebinds_branch electrode phase branches : forall branch d b d',
  mfold branches
    (fun _ branch' =>
       mbind (delitem (key_branch_OCP phase electrode branch'))
             (fun _ => mret branch'))
    branch d = (Ok b, d') ->
  b = last branches branch.
Proof.
  induction branches as [|b0 bs IH]; intros branch d b d'; cbn [mfold].
  - unfold mret. now intros [= <- _].
  - unfold mbind at 1 2.
    destruct (delitem (key_branch_OCP phase electrode b0) d) as [[[]|e] d1];
      [|discriminate].
    unfold mret at 1. intros H. apply IH in H. rewrite H.
    symmetry. apply last_cons.
Qed.

(** After a phase that has both branch entries, the source key of the next
    phase is built from the last listed branch, whatever branch was
    selected for the electrode. *)
Lemma next_phase_reads_last_branch electrode branch phase (d d' : pv) b :
  _has_hysteresis_data d electrode phase = true ->
  apply_hysteresis_branch_phase electrode branch phase d = (Ok b, d') ->
  b = last HYSTERESIS_BRANCHES_ELECTRODE branch.
Proof.
  intros Hdata. unfold apply_hysteresis_branch_phase.
  unfold mbind at 1, mread at 1. rewrite Hdata.
  unfold mbind at 1.
  destruct (getitem _ d) as [[v|e] d1]; [|discriminate].
  unfold mbind at 1.
  destruct (setitem _ v d1) as [[[]|e] d2]; [|discriminate].
  apply delete_branches_rebinds_branch.
Qed.

(** *** What the selection does for the first phase of an electrode *)

Lemma str_length_app a b :
  String.length (a ++ b) = String.length a + String.length b.
Proof. induction a as [|c a IH]; cbn; auto. Qed.

Lemma str_app_inj_l s a b : (s ++ a = s ++ b)%string -> a = b.
Proof. induction s as [|c s IH]; cbn; auto. intros [= E]. auto. Qed.

Lemma str_app_inj_r s : forall a b, (a ++ s = b ++ s)%string -> a = b.
Proof.
  induction a as [|c a IH]; intros [|c' b] E; cbn in E.
  - reflexivity.
  - apply (f_equal String.length) in E. cbn in E. rewrite str_length_app in E. lia.
  - apply (f_equal String.length) in E. cbn in E. rewrite str_length_app in E. lia.
  - injection E as -> E. f_equal. auto.
Qed.

(** Different branches have different keys, and no branch key is the
    canonical key. *)
Lemma key_branch_OCP_inj phase electrode b b' :
  key_branch_OCP phase electrode b = key_branch_OCP phase electrode b' -> b = b'.
Proof.
  unfold key_branch_OCP. intros E.
  apply str_app_inj_l, str_app_inj_l, str_app_inj_r in E. assumption.
Qed.

Lemma key_OCP_not_branch phase electrode b :
  key_OCP phase electrode <> key_branch_OCP phase electrode b.
Proof.
  unfold key_OCP, key_branch_OCP. intros E.
  apply str_app_inj_l in E.
  change " electrode OCP [V]"%string with (" electrode " ++ "OCP [V]")%string in E.
  apply str_app_inj_l in E.
  apply (f_equal String.length) in E. rewrite str_length_app in E. cbn in E. lia.
Qed.

(** The deletion loop on a mapping that has every listed branch entry. *)
Lemma delete_branches electrode phase bs : forall (d : pv) branch,
  NoDup bs ->
  (forall b, In b bs -> Dict.mem d (key_branch_OCP phase electrode b) = true) ->
  exists d',
    mfold bs
      (fun _ branch' =>
         mbind (delitem (key_branch_OCP phase electrode branch'))
               (fun _ => mret branch'))
      branch d = (Ok (last bs branch), d')
    /\ (forall b, In b bs -> Dict.get d' (key_branch_OCP phase electrode b) = None)
    /\ (forall k, (forall b, In b bs -> k <> key_branch_OCP phase electrode b) ->
                  Dict.get d' k = Dict.get d k).
Proof.
  induction bs as [|b0 bs IH]; intros d branch ND Hmem.
  - exists d. split; [reflexivity|]. split; [intros b []|auto].
  - apply NoDup_cons_iff in ND as [Hb0 ND].
    assert (Hne : forall b, In b bs ->
              key_branch_OCP phase electrode b0 <> key_branch_OCP phase electrode b).
    { intros b Hb E. apply key_branch_OCP_inj in E. subst. auto. }
    destruct (IH (Dict.remove d (key_branch_OCP phase electrode b0)) b0 ND)
      as (d' & Hloop & Hgone & Hframe).
    + intros b Hb. rewrite DictFacts.mem_remove_neq by auto. apply Hmem. now right.
    + exists d'. split; [|split].
      * cbn [mfold]. unfold mbind at 1 2, delitem at 1, mwrite, Dict.del.
        rewrite (Hmem b0) by now left. unfold mret at 1.
        rewrite Hloop. now rewrite last_cons.
      * intros b [<-|Hb]; [|auto].
        rewrite Hframe by (intros b Hb; auto). apply DictFacts.get_remove_eq.
      * intros k Hk. rewrite Hframe by (intros b Hb; apply Hk; now right).
        apply DictFacts.get_remove_neq. intros E. apply (Hk b0); auto. now left.
Qed.

(** A phase with both branch entries, handled while [branch] is still the
    selected branch (the first such phase of an electrode, so every phase of
    a single-phase electrode): the canonical key gets the data of the
    selected branch, every branch key is deleted, nothing else changes. *)
Lemma apply_hysteresis_branch_phase_selects electrode branch phase (d : pv) v :
  NoDup HYSTERESIS_BRANCHES_ELECTRODE ->
  _has_hysteresis_data d electrode phase = true ->
  Dict.get d (key_branch_OCP phase electrode branch) = Some v ->
  assignable d (key_OCP phase electrode) ->
  exists d',
    apply_hysteresis_branch_phase electrode branch phase d
      = (Ok (last HYSTERESIS_BRANCHES_ELECTRODE branch), d')
    /\ Dict.get d' (key_OCP phase electrode) = Some v
    /\ (forall b, In b HYSTERESIS_BRANCHES_ELECTRODE ->
          Dict.get d' (key_branch_OCP phase electrode b) = None)
    /\ (forall k, k <> key_OCP phase electrode ->
          (forall b, In b HYSTERESIS_BRANCHES_ELECTRODE ->
             k <> key_branch_OCP phase electrode b) ->
          Dict.get d' k = Dict.get d k).
Proof.
  intros ND Hdata Hv Hassign.
  destruct (delete_branches electrode phase HYSTERESIS_BRANCHES_ELECTRODE
              (Dict.set d (key_OCP phase electrode) v) branch ND)
    as (d' & Hloop & Hgone & Hframe).
  - intros b Hb.
    rewrite DictFacts.mem_set_neq by apply key_OCP_not_branch.
    unfold _has_hysteresis_data, Py.all in Hdata. rewrite forallb_forall in Hdata.
    apply Hdata. apply in_map_iff. eauto.
  - exists d'. split; [|split; [|split]]; auto.
    + unfold apply_hysteresis_branch_phase.
      unfold mbind at 1, mread at 1. rewrite Hdata.
      unfold mbind at 1, getitem, mread, Dict.lookup. rewrite Hv.
      unfold mbind at 1. rewrite (setitem_assignable _ _ _ Hassign).
      exact Hloop.
    + rewrite Hframe by (intros b _; apply key_OCP_not_branch).
      apply DictFacts.get_set_eq.
    + intros k N1 N2. rewrite Hframe by assumption.
      apply DictFacts.get_set_neq. congruence.
Qed.

End BranchSelection.

(** ** Runs of the pipeline on the test double *)

Module Runs.

Import Demo.
Local Open Scope float_scope.

#[local] Existing Instance collaborators.

(** The rebinding of [branch] in [apply_hysteresis_branch] at work: with the
    branches listed as delithiation, lithiation and discharge mapped to
    delithiation on the negative electrode, [get_params] with
    [hysteresis_branch="discharge"] on the cell with a blended negative
    electrode gives the primary phase its delithiation data and the
    secondary phase its lithiation data, the last listed branch. *)
Lemma discharge_branch_on_blended_electrode_takes_last_branch :
  exists parameter_values m,
    get_params blend_discharge = Outcome (Ok (parameter_values, m)) (Some parameter_values)
    /\ @branch_of collaborators "discharge" "Negative" = Ok "delithiation"%string
    /\ Dict.get parameter_values (key_OCP "Primary: " "Negative")
       = Some (VObj "primary delithiation"%string)
    /\ Dict.get parameter_values (key_OCP "Secondary: " "Negative")
       = Some (VObj "secondary lithiation"%string).
Proof.
  do 2 eexists. split; [vm_compute; reflexivity|].
  repeat split; reflexivity.
Qed.

(** Counterexample to C1 as first stated: with a zero-state hysteresis
    model the call with an empty degradation state is refused by
    validation, and the same call with no degradation state returns. *)
Lemma empty_degradation_state_refused_with_hysteresis :
  get_params (with_degradation_state zero_state (Some (DsDict [])))
    = Outcome (Err degradation_state_unsupported) None
  /\ is_ok (returned (get_params (with_degradation_state zero_state None))) = true.
Proof. split; vm_compute; reflexivity. Qed.

(** The amended C1 on the default call with an all-zero state. *)
Lemma zero_degradation_state_is_no_state_witness :
  get_params (with_degradation_state defaults (Some (DsDict all_zero)))
  = get_params (with_degradation_state defaults None).
Proof.
  apply (@zero_degradation_state_is_no_state collaborators defaults all_zero).
  - intros k v [E|[E|[]]]; injection E as <- <-; reflexivity.
  - intros k [<-|[<-|[]]]; reflexivity.
  - reflexivity.
  - reflexivity.
Defined.

(** Counterexample to C2 as first stated: after the synthesis the
    activation-energy entry of the negative electrode is still in the
    mapping. *)
Lemma activation_energy_entry_stays :
  exists parameter_values,
    @build_exchange_current_density collaborators cell = (Ok tt, parameter_values)
    /\ In premultiplier_NE (@param_subst collaborators cell)
    /\ Dict.get cell (key_activation_energy premultiplier_NE) = Some (VNum 3500)
    /\ Dict.get parameter_values (key_activation_energy premultiplier_NE)
       = Some (VNum 3500).
Proof.
  eexists. split; [vm_compute; reflexivity|].
  split; [left; reflexivity|]. split; reflexivity.
Qed.

(** The amended C2 on the single-phase cell. *)
Lemma build_exchange_current_density_witness :
  exists d' k Ea Tref premul,
    @build_exchange_current_density collaborators cell = (Ok tt, d')
    /\ Dict.get cell (key_rate_constant premultiplier_NE) = Some k
    /\ Dict.get cell (key_activation_energy premultiplier_NE) = Some Ea
    /\ Dict.get cell "Reference temperature [K]" = Some Tref
    /\ Dict.get cell premultiplier_NE = Some premul
    /\ Dict.get d' (key_j0 premultiplier_NE)
       = Some (@_make_j0_func collaborators
                 [("j0_ref", @F_times collaborators k); ("Ea", Ea); ("Tref", Tref)]%string
                 premul)
    /\ Dict.get d' premultiplier_NE = None
    /\ Dict.get d' (key_rate_constant premultiplier_NE) = None
    /\ Dict.get d' (key_activation_energy premultiplier_NE) = Some Ea.
Proof.
  apply (@build_exchange_current_density_installs_and_deletes collaborators
           cell premultiplier_NE).
  - reflexivity.
  - intros q [<-|[]]. left. reflexivity.
  - intros q [<-|[]]. split; reflexivity.
  - reflexivity.
  - intros _ q [<-|[]]. reflexivity.
  - left. reflexivity.
Defined.

(** C3 on the single-phase cell, with [RI_far_NE = 1]: the factor is
    [1 / (1 + 1)], and the scalar 2 of the negative electrode becomes 1. *)
Lemma RI_far_NE_witness :
  exists parameter_values',
    @apply_degradation_state collaborators RI_far_NE_only cell = (Ok tt, parameter_values')
    /\ Dict.get cell (key_kinetic "Negative") = Some (VNum 2)
    /\ Dict.get parameter_values' (key_kinetic "Negative") = Some (VNum 1)
    /\ Dict.get parameter_values' (key_kinetic "Positive") = Some (VNum 4).
Proof.
  destruct (@RI_far_NE_scales_negative_electrode_only collaborators
              cell RI_far_NE_only 1 10 0.75 0.5 (VNum 2))
    as (parameter_values' & j0' & Hrun & Hnew & _ & Hscalar & _ & _ & Hpos);
    try reflexivity.
  exists parameter_values'. split; [exact Hrun|]. split; [reflexivity|].
  split; [|exact Hpos].
  rewrite Hnew, (Hscalar 2 eq_refl). reflexivity.
Defined.

(** C5 on a call that blends the positive electrode. *)
Lemma positive_blend_witness :
  (exists e, returned (get_params blended_positive) = Err e)
  /\ forall parameter_values,
       @_validate_phases_by_electrode collaborators parameter_values
         (_get_phases_by_electrode (blended_electrode_or_default blended_positive))
       = Err (ValueError "Positive electrode blends are not yet supported.").
Proof.
  apply (@positive_blend_never_returns collaborators blended_positive false).
  reflexivity.
Defined.

(** C6 on the call it names, the other arguments at their defaults. *)
Lemma degradation_with_blend_witness :
  exists e,
    get_params lli_blended = Outcome (Err e) None
    /\ (validate_PyBaMM_version = Ok tt -> validate_args lli_blended = Err e)
    /\ (validate_PyBaMM_version = Ok tt ->
        Py.mem (model_type lli_blended) VALID_MODEL_TYPES = true ->
        Py.mem (hysteresis_model lli_blended) VALID_HYSTERESIS_MODELS = true ->
        Py.mem (hysteresis_branch lli_blended) VALID_HYSTERESIS_BRANCHES = true ->
        Py.mem (hysteresis_preceding_state lli_blended) VALID_HYSTERESIS_BRANCHES = true ->
        add_hysteresis_heat_source lli_blended
          && negb (String.eqb (hysteresis_model lli_blended) "one-state") = false ->
        e = degradation_state_unsupported).
Proof.
  apply (@degradation_with_blend_fails_before_load collaborators lli_blended);
    reflexivity.
Defined.

(** Counterexample to C9 as first stated: the call ends in the
    data-availability error of the phase check with a mapping that is not
    the loaded base set; it has the heat-transfer coefficient the base set
    has not, and the synthesized exchange-current density in place of the
    scalar. *)
Lemma phase_error_after_mutation :
  exists parameter_values,
    get_params htc_blended = Outcome (Err no_blend_data) (Some parameter_values)
    /\ load htc_blended = Ok cell
    /\ Dict.get cell "Total heat transfer coefficient [W.m-2.K-1]" = None
    /\ Dict.get parameter_values "Total heat transfer coefficient [W.m-2.K-1]"
       = Some (VNum 5)
    /\ Dict.get cell (key_kinetic "Negative") = Some (VNum 2)
    /\ Dict.get parameter_values (key_kinetic "Negative") = Some (VObj "j0"%string)
    /\ parameter_values <> cell.
Proof.
  eexists. split; [vm_compute; reflexivity|].
  repeat (split; [reflexivity|]). discriminate.
Qed.

(** The amended C9 on the same call. *)
Lemma phase_error_follows_corrections_witness :
  get_params htc_blended
  = Outcome (Err no_blend_data) (Some corrected_cell).
Proof.
  apply (@phase_error_follows_corrections collaborators htc_blended cell
           corrected_cell None Dict.empty no_blend_data);
    reflexivity.
Defined.

(** C10 on the single-phase cell, with a state that has no "LLI" and no
    "LAM" key. *)
Lemma degradation_writes_witness :
  exists ncyc a b a' b',
    @calc_lithium_inventory collaborators cell = Ok ncyc
    /\ Dict.get cell (key_volume_fraction "Negative") = Some a
    /\ Dict.get cell (key_volume_fraction "Positive") = Some b
    /\ Dict.get degraded_cell key_lithium_inventory
       = Some (VNum match Dict.get RI_far_NE_only "LLI" with
                    | Some lli => ncyc * (1 - lli)
                    | None => ncyc
                    end)
    /\ Dict.get degraded_cell
         (key_volume_fraction "Negative") = Some a'
    /\ Dict.get degraded_cell
         (key_volume_fraction "Positive") = Some b'
    /\ @written_back collaborators RI_far_NE_only "LAM_NE" a a'
    /\ @written_back collaborators RI_far_NE_only "LAM_PE" b b'.
Proof.
  apply (@degradation_always_writes_inventory_and_fractions collaborators
           cell RI_far_NE_only degraded_cell).
  reflexivity.
Defined.

End Runs.

(* ================================================================= *)
(** * Further properties of the pipeline *)

(** ** Merging of the model options *)

Section ModelOptions.
Context {C : Collaborators}.

Lemma mem_set_keeps {V} (d : Dict.t V) k k' v :
  Dict.mem d k' = true -> Dict.mem (Dict.set d k v) k' = true.
Proof.
  intros H. destruct (String.eqb_spec k k') as [->|N].
  - unfold Dict.mem. now rewrite DictFacts.get_set_eq.
  - now rewrite DictFacts.mem_set_neq.
Qed.

Lemma mem_update_keeps {V} (o : Dict.t V) : forall (d : Dict.t V) k,
  Dict.mem d k = true -> Dict.mem (Dict.update d o) k = true.
Proof.
  unfold Dict.update. induction o as [|[k' v'] o IH]; intros d k H; cbn; auto.
  apply IH. now apply mem_set_keeps.
Qed.

(** The conflict loop of [_combine_model_opts]: it passes exactly when no
    key of the extra options is a key of the required ones. *)
Lemma conflict_loop (required : Dict.t opt) (body_msg : string -> opt -> opt -> string)
    (extra : Dict.t opt) :
  match rfor extra (fun '(k, x) =>
          match Dict.get required k with
          | Some r => Err (ValueError (body_msg k r x))
          | None => Ok tt
          end) with
  | Ok _ => forall k, Dict.mem extra k = true -> Dict.mem required k = false
  | Err e =>
      exists k, Dict.mem extra k = true /\ Dict.mem required k = true
                /\ exists msg, e = ValueError msg
  end.
Proof.
  induction extra as [|[k x] extra IH]; cbn [rfor].
  - intros k H. discriminate.
  - destruct (Dict.get required k) as [r|] eqn:Hr; cbn [rbind].
    + exists k. repeat split.
      * unfold Dict.mem. cbn. now rewrite String.eqb_refl.
      * unfold Dict.mem. now rewrite Hr.
      * eauto.
    + destruct (rfor extra _) as [[]|e].
      * intros k' H. unfold Dict.mem in H. cbn in H.
        destruct (String.eqb k' k) eqn:E.
        -- apply String.eqb_eq in E. subst k'. unfold Dict.mem. now rewrite Hr.
        -- apply IH. exact H.
      * destruct IH as (k' & H1 & H2 & H3). exists k'. repeat split; auto.
        unfold Dict.mem. cbn. destruct (String.eqb k' k); auto.
Qed.

(** X1. [_combine_model_opts] never lets an extra option replace a required
    one: it raises a [ValueError] when (and only when) some key of the extra
    options is a key of the required options, and otherwise returns the
    options in which every extra key has its extra value and every other
    key its required value. *)
Theorem combine_model_opts_merges_or_refuses (required extra : Dict.t opt) :
  Dict.unique extra = true ->
  match _combine_model_opts required extra with
  | Ok model_opts =>
      (forall k, Dict.mem extra k = true -> Dict.mem required k = false)
      /\ forall k, Dict.get model_opts k
                   = match Dict.get extra k with
                     | Some v => Some v
                     | None => Dict.get required k
                     end
  | Err e =>
      exists k, Dict.mem extra k = true /\ Dict.mem required k = true
                /\ exists msg, e = ValueError msg
  end.
Proof.
  intros U. unfold _combine_model_opts.
  match goal with
  | |- context [rfor extra ?body] =>
      pose proof (conflict_loop required
        (fun k r x =>
           ("Required setting '" ++ k ++ "': '" ++ str_opt r
            ++ "', derived from other arguments to get_params(), "
            ++ "cannot be replaced with setting '" ++ k ++ "': '" ++ str_opt x
            ++ "' from 'extra_model_opts'.")%string) extra) as H;
      destruct (rfor extra body) as [[]|e]
  end; cbn [rbind].
  - split; [exact H|]. intros k. now apply DictFacts.get_update.
  - exact H.
Qed.

(** A key of both option sets makes the merge fail. *)
Lemma combine_model_opts_conflict (required extra : Dict.t opt) k :
  Dict.mem extra k = true -> Dict.mem required k = true ->
  exists e, _combine_model_opts required extra = Err e.
Proof.
  intros He Hr. unfold _combine_model_opts.
  match goal with
  | |- context [rfor extra ?body] =>
      pose proof (conflict_loop required
        (fun k r x =>
           ("Required setting '" ++ k ++ "': '" ++ str_opt r
            ++ "', derived from other arguments to get_params(), "
            ++ "cannot be replaced with setting '" ++ k ++ "': '" ++ str_opt x
            ++ "' from 'extra_model_opts'.")%string) extra) as H;
      destruct (rfor extra body) as [[]|e]
  end; cbn [rbind]; eauto.
  rewrite (H k He) in Hr. discriminate.
Qed.

(** The hysteresis stage only adds to the options it is given. *)
Lemma hysteresis_stage_keeps_options (a : args) phases required d h required' d' k :
  hysteresis_stage a phases required d = (Ok (h, required'), d') ->
  Dict.mem required k = true -> Dict.mem required' k = true.
Proof.
  unfold hysteresis_stage. intros H Hk.
  destruct (String.eqb (hysteresis_model a) "none").
  - unfold mbind in H.
    match type of H with
    | context [match ?c d with _ => _ end] => destruct (c d) as [[[]|e] d1]
    end; [|discriminate].
    unfold mret in H. injection H as _ <- _. exact Hk.
  - unfold mbind at 1 in H.
    destruct (mread _ d) as [[use|e] d1]; [|discriminate].
    unfold mbind at 1 in H.
    match type of H with
    | context [match ?c d1 with _ => _ end] => destruct (c d1) as [[[]|e] d2]
    end; [|discriminate].
    unfold mbind at 1 in H.
    destruct (lift _ d2) as [[hib|e] d3]; [|discriminate].
    unfold mret in H. injection H as _ <- _.
    now apply mem_update_keeps.
Qed.

(** X2. "particle phases" is a reserved option: a call of [get_params]
    whose [extra_model_opts] has that key never returns, whatever the other
    arguments. *)
Theorem particle_phases_option_is_reserved (a : args) v :
  Dict.get (extra_model_opts_or_empty a) "particle phases" = Some v ->
  exists e, returned (get_params a) = Err e.
Proof.
  intros Hextra. unfold get_params.
  destruct (load a) as [base|e]; [|cbn; eauto].
  destruct (get_params_loaded a (blended_electrode_or_default a)
              (extra_model_opts_or_empty a) base) as [[m|e] d] eqn:Hrun;
    [|cbn; eauto].
  exfalso. unfold get_params_loaded in Hrun.
  unfold mbind at 1 in Hrun.
  destruct (corrections a base) as [[[ds required]|e] d1]; [|discriminate].
  unfold mbind at 1 in Hrun.
  destruct (phase_resolution _ d1) as [[[]|e] d2]; [|discriminate].
  unfold configure in Hrun. unfold mbind at 1 in Hrun.
  destruct (hysteresis_stage a _ _ d2) as [[[h required']|e] d3] eqn:Hstage;
    [|discriminate].
  unfold mbind at 1 in Hrun.
  destruct (mread _ d3) as [[soc|e] d4]; [|discriminate].
  unfold mbind at 1 in Hrun.
  destruct (add_initial_concentrations _ _ _ _ d4) as [[[]|e] d5]; [|discriminate].
  unfold mbind at 1 in Hrun.
  destruct (combine_model_opts_conflict required' (extra_model_opts_or_empty a)
              "particle phases") as [e He].
  - unfold Dict.mem. now rewrite Hextra.
  - eapply hysteresis_stage_keeps_options; [exact Hstage|].
    apply DictFacts.mem_true. eexists.
    unfold Dict.update. cbn [fold_left fst snd]. apply DictFacts.get_set_eq.
  - unfold lift at 1, mread at 1 in Hrun. rewrite He in Hrun. discriminate.
Qed.

End ModelOptions.

(** ** What validation accepts *)

Section Validation.
Context {C : Collaborators}.
Local Open Scope float_scope.

Lemma raise_if_ok b e : raise_if b e = Ok tt <-> b = false.
Proof. destruct b; cbn; split; congruence. Qed.

Lemma rbind_unit (r rest : result unit) :
  (let? _ := r in rest) = Ok tt <-> r = Ok tt /\ rest = Ok tt.
Proof.
  destruct r as [[]|e]; cbn.
  - tauto.
  - split; [discriminate|]. intros [H _]. discriminate.
Qed.

Lemma degradation_keys_checked (d : Dict.t float) :
  rfor (Dict.keys d) (fun k =>
    raise_if (negb (Py.mem k VALID_DEGRADATION_KEYS))
      (ValueError ("Unsupported field in 'degradation_state': " ++ k
                   ++ ". Supported fields are: "
                   ++ Py.join ", " VALID_DEGRADATION_KEYS))) = Ok tt
  <-> forall k, In k (Dict.keys d) -> Py.mem k VALID_DEGRADATION_KEYS = true.
Proof.
  induction (Dict.keys d) as [|k ks IH]; cbn [rfor].
  - split; [intros _ k []|reflexivity].
  - rewrite rbind_unit, raise_if_ok, negb_false_iff, IH. split.
    + intros [Hk H] k' [<-|Hk']; auto.
    + intros H. split; [apply H; now left|]. intros k' Hk'. apply H. now right.
Qed.

(** The restriction that degradation states, voltage initialisation and
    SOC definitions share: no blended electrode and no hysteresis model. *)
Lemma restricted_spec (a : args) :
  any_blended (blended_electrode_or_default a)
    || negb (String.eqb (hysteresis_model a) "none") = false
  <-> any_blended (blended_electrode_or_default a) = false
      /\ hysteresis_model a = "none"%string.
Proof.
  rewrite orb_false_iff, negb_false_iff, String.eqb_eq. tauto.
Qed.

(** X3. [_validate_args_get_params] accepts the arguments of a call exactly
    when: model type, hysteresis model, branch and preceding state are
    among the listed values; a hysteresis heat source is asked for only
    with the one-state model; a degradation state, if given, is a dict of
    supported keys, and it, a voltage initialisation and a SOC definition
    come only without blended electrode and without hysteresis model; a SOC
    definition is a dict with the key "data"; and a thermal option other
    than "isothermal" comes with a heat-transfer coefficient. *)
Theorem validate_args_accepts (a : args) :
  validate_args a = Ok tt <->
  Py.mem (model_type a) VALID_MODEL_TYPES = true
  /\ Py.mem (hysteresis_model a) VALID_HYSTERESIS_MODELS = true
  /\ Py.mem (hysteresis_branch a) VALID_HYSTERESIS_BRANCHES = true
  /\ Py.mem (hysteresis_preceding_state a) VALID_HYSTERESIS_BRANCHES = true
  /\ (add_hysteresis_heat_source a = true -> hysteresis_model a = "one-state"%string)
  /\ (forall ds, degradation_state a = Some ds ->
        (any_blended (blended_electrode_or_default a) = false
         /\ hysteresis_model a = "none"%string)
        /\ exists d, ds = DsDict d
             /\ forall k, In k (Dict.keys d) -> Py.mem k VALID_DEGRADATION_KEYS = true)
  /\ (forall o, Dict.get (extra_model_opts_or_empty a) "thermal" = Some o ->
        o <> OStr "isothermal" -> htc_ext a <> None)
  /\ (OCV_init a <> None ->
        any_blended (blended_electrode_or_default a) = false
        /\ hysteresis_model a = "none"%string)
  /\ (forall sd, SOC_definition a = Some sd ->
        (exists data method, sd = SocDict (Some data) method)
        /\ any_blended (blended_electrode_or_default a) = false
        /\ hysteresis_model a = "none"%string).
Proof.
  unfold validate_args, _validate_args_get_params.
  rewrite !rbind_unit, !raise_if_ok, !negb_false_iff.
  apply and_iff_compat_l. apply and_iff_compat_l.
  apply and_iff_compat_l. apply and_iff_compat_l.
  assert (Hheat : add_hysteresis_heat_source a
                  && negb (String.eqb (hysteresis_model a) "one-state") = false
                  <-> (add_hysteresis_heat_source a = true ->
                       hysteresis_model a = "one-state"%string)).
  { destruct (add_hysteresis_heat_source a); cbn.
    - rewrite negb_false_iff, String.eqb_eq. split; auto.
    - split; [discriminate|reflexivity]. }
  assert (Hds : match degradation_state a with
                | Some ds =>
                    let? _ := raise_if
                      (any_blended (blended_electrode_or_default a)
                       || negb (String.eqb (hysteresis_model a) "none"))
                      (NotImplementedError
                         "Degradation state is only supported for single-phase electrodes with no hysteresis.") in
                    match ds with
                    | DsNotDict => Err (TypeError "'degradation_state' must be a 'dict'.")
                    | DsDict d =>
                        rfor (Dict.keys d) (fun k =>
                          raise_if (negb (Py.mem k VALID_DEGRADATION_KEYS))
                            (ValueError ("Unsupported field in 'degradation_state': " ++ k
                                         ++ ". Supported fields are: "
                                         ++ Py.join ", " VALID_DEGRADATION_KEYS)))
                    end
                | None => Ok tt
                end = Ok tt
                <-> forall ds, degradation_state a = Some ds ->
                      (any_blended (blended_electrode_or_default a) = false
                       /\ hysteresis_model a = "none"%string)
                      /\ exists d, ds = DsDict d
                           /\ forall k, In k (Dict.keys d) ->
                                Py.mem k VALID_DEGRADATION_KEYS = true).
  { destruct (degradation_state a) as [[d|]|].
    - rewrite rbind_unit, raise_if_ok, restricted_spec, degradation_keys_checked.
      split.
      + intros [R K] ds [= <-]. eauto.
      + intros H. destruct (H _ eq_refl) as (R & d' & [= <-] & K). auto.
    - rewrite rbind_unit. split.
      + intros [_ H]. discriminate.
      + intros H. destruct (H _ eq_refl) as (_ & d' & E & _). discriminate.
    - split; [intros _ ds; discriminate|reflexivity]. }
  assert (Hthermal : match Dict.get (extra_model_opts_or_empty a) "thermal" with
                     | Some o =>
                         negb match o with
                              | OStr s => String.eqb s "isothermal"
                              | OTuple _ => false
                              end
                         && match htc_ext a with None => true | Some _ => false end
                     | None => false
                     end = false
                     <-> forall o, Dict.get (extra_model_opts_or_empty a) "thermal" = Some o ->
                           o <> OStr "isothermal" -> htc_ext a <> None).
  { destruct (Dict.get (extra_model_opts_or_empty a) "thermal") as [o|].
    - destruct (htc_ext a) as [h|].
      + rewrite andb_false_r. split; [intros _ o' _ _; discriminate|reflexivity].
      + rewrite andb_true_r, negb_false_iff. split.
        * intros H o' [= <-] N. exfalso. apply N.
          destruct o as [s|l]; [|discriminate].
          apply String.eqb_eq in H. now subst.
        * intros H. destruct o as [s|l].
          -- destruct (String.eqb_spec s "isothermal") as [->|N]; [reflexivity|].
             exfalso. apply (H _ eq_refl); congruence.
          -- exfalso. apply (H _ eq_refl); congruence.
    - split; [intros _ o; discriminate|reflexivity]. }
  assert (Hocv : match OCV_init a with
                 | Some _ =>
                     raise_if
                       (any_blended (blended_electrode_or_default a)
                        || negb (String.eqb (hysteresis_model a) "none"))
                       (NotImplementedError
                          "Voltage-based initialisation is only supported for single-phase electrodes with no hysteresis.")
                 | None => Ok tt
                 end = Ok tt
                 <-> (OCV_init a <> None ->
                      any_blended (blended_electrode_or_default a) = false
                      /\ hysteresis_model a = "none"%string)).
  { destruct (OCV_init a).
    - rewrite raise_if_ok, restricted_spec. split; [auto|]. intros H. apply H. discriminate.
    - split; [intros _ N; now elim N|reflexivity]. }
  rewrite Hheat, Hds, Hthermal, Hocv.
  do 4 apply and_iff_compat_l.
  destruct (SOC_definition a) as [sd|].
  - rewrite rbind_unit, !raise_if_ok, restricted_spec. split.
    + intros [Hsd R] sd' [= <-]. split; [|exact R].
      destruct sd as [[data|] method|]; try discriminate. eauto.
    + intros H. destruct (H _ eq_refl) as ((data & method & ->) & R). auto.
  - split; [intros _ sd; discriminate|reflexivity].
Qed.

(** X4. Validation comes before any access to the parameter file: once
    the PyBaMM version check has passed, a call whose arguments
    [_validate_args_get_params] refuses ends with that exception and
    without a parameter mapping, whatever the file holds. *)
Theorem validation_error_precedes_loading (a : args) e :
  validate_PyBaMM_version = Ok tt ->
  validate_args a = Err e ->
  get_params a = Outcome (Err e) None.
Proof.
  intros Hversion Hvalid. apply get_params_load_failed.
  unfold load. now rewrite Hversion, Hvalid.
Qed.

End Validation.

(** ** Phase resolution, degradation-state filtering, initial state *)

Section Resolution.
Context {C : Collaborators}.
Local Open Scope float_scope.

(** X5. With no blending asked for the positive electrode, the phase check
    passes exactly when the positive electrode has its maximum-concentration
    entry and the negative electrode has, if it is not to be blended, its
    maximum-concentration entry, and if it is, some key containing
    "Primary:" and some key containing "Secondary:" anywhere in the
    mapping. *)
Theorem validate_phases_accepts (parameter_values : pv) (negative : bool) :
  _validate_phases_by_electrode parameter_values
    (_get_phases_by_electrode (negative, false)) = Ok tt
  <-> (if negative
       then any_key_with "Primary:" parameter_values
            && any_key_with "Secondary:" parameter_values
       else Dict.mem parameter_values
              "Maximum concentration in negative electrode [mol.m-3]") = true
      /\ Dict.mem parameter_values
           "Maximum concentration in positive electrode [mol.m-3]" = true.
Proof.
  unfold _validate_phases_by_electrode, _get_phases_by_electrode.
  destruct negative; cbn -[any_key_with Dict.mem];
    rewrite !rbind_unit, !raise_if_ok, !negb_false_iff; tauto.
Qed.

(** Filtering twice is filtering once, and keeps no key that was not
    there. *)
Lemma nonzero_entries_idempotent (d : Dict.t float) :
  nonzero_entries (nonzero_entries d) = nonzero_entries d.
Proof.
  unfold nonzero_entries. induction d as [|[k v] d IH]; cbn; auto.
  destruct (v =? 0) eqn:E; cbn; auto. rewrite E. cbn. now rewrite IH.
Qed.

Lemma nonzero_entries_keys (d : Dict.t float) k :
  In k (Dict.keys (nonzero_entries d)) -> In k (Dict.keys d).
Proof.
  unfold nonzero_entries, Dict.keys. rewrite !in_map_iff.
  intros [kv [E H]]. apply filter_In in H as [H _]. eauto.
Qed.

(** X6. Entries of a degradation state that are zero count for nothing: a
    call of [get_params] with a degradation state of supported keys has the
    same outcome as the call with the zero entries left out of the
    state. *)
Theorem zero_entries_are_dropped (a : args) (d : Dict.t float) :
  (forall k, In k (Dict.keys d) -> Py.mem k VALID_DEGRADATION_KEYS = true) ->
  get_params (with_degradation_state a (Some (DsDict d)))
  = get_params (with_degradation_state a (Some (DsDict (nonzero_entries d)))).
Proof.
  intros Hkeys.
  assert (Hkeys' : forall k, In k (Dict.keys (nonzero_entries d)) ->
                     Py.mem k VALID_DEGRADATION_KEYS = true).
  { intros k Hk. apply Hkeys. now apply nonzero_entries_keys. }
  assert (Hvalid : validate_args (with_degradation_state a (Some (DsDict d)))
                   = validate_args
                       (with_degradation_state a (Some (DsDict (nonzero_entries d))))).
  { unfold validate_args, _validate_args_get_params.
    change (blended_electrode_or_default (with_degradation_state a (Some (DsDict d))))
      with (blended_electrode_or_default a).
    change (blended_electrode_or_default
              (with_degradation_state a (Some (DsDict (nonzero_entries d)))))
      with (blended_electrode_or_default a).
    change (extra_model_opts_or_empty (with_degradation_state a (Some (DsDict d))))
      with (extra_model_opts_or_empty a).
    change (extra_model_opts_or_empty
              (with_degradation_state a (Some (DsDict (nonzero_entries d)))))
      with (extra_model_opts_or_empty a).
    cbn [with_degradation_state SOC_definition OCV_init degradation_state htc_ext
         model_type hysteresis_model hysteresis_branch hysteresis_preceding_state
         add_hysteresis_heat_source].
    now rewrite (degradation_keys_accepted d Hkeys),
                (degradation_keys_accepted _ Hkeys'). }
  assert (Hrun : forall b x parameter_values,
    get_params_loaded (with_degradation_state a (Some (DsDict d))) b x parameter_values
    = get_params_loaded (with_degradation_state a (Some (DsDict (nonzero_entries d))))
        b x parameter_values).
  { intros b x parameter_values.
    unfold get_params_loaded, corrections.
    cbn [with_degradation_state degradation_state htc_ext effective_degradation_state].
    rewrite nonzero_entries_idempotent. reflexivity. }
  assert (Hload : load (with_degradation_state a (Some (DsDict d)))
                  = load (with_degradation_state a (Some (DsDict (nonzero_entries d))))).
  { unfold load. now rewrite Hvalid. }
  unfold get_params. rewrite Hload.
  destruct (load (with_degradation_state a (Some (DsDict (nonzero_entries d)))));
    [|reflexivity].
  change (blended_electrode_or_default (with_degradation_state a (Some (DsDict d))))
    with (blended_electrode_or_default a).
  change (blended_electrode_or_default
            (with_degradation_state a (Some (DsDict (nonzero_entries d)))))
    with (blended_electrode_or_default a).
  change (extra_model_opts_or_empty (with_degradation_state a (Some (DsDict d))))
    with (extra_model_opts_or_empty a).
  change (extra_model_opts_or_empty
            (with_degradation_state a (Some (DsDict (nonzero_entries d)))))
    with (extra_model_opts_or_empty a).
  now rewrite Hrun.
Qed.

(** X7. The initial state of charge: a target voltage, when given, decides
    alone ([SOC_init] and [SOC_definition] are not looked at); with neither
    a target voltage nor a SOC definition [SOC_init] is returned as it is;
    and a SOC definition without "method" is converted by the method
    "voltage". *)
Theorem convert_soc_init_precedence (parameter_values : pv) :
  (forall ocv soc soc' sd sd',
     convert_soc_init soc (Some ocv) sd parameter_values
     = convert_soc_init soc' (Some ocv) sd' parameter_values)
  /\ (forall soc, convert_soc_init soc None None parameter_values = Ok soc)
  /\ (forall soc data,
        convert_soc_init soc None (Some (SocDict (Some data) None)) parameter_values
        = convert_soc_init soc None (Some (SocDict (Some data) (Some "voltage"%string)))
            parameter_values)
  /\ (forall soc data method e,
        get_ocv_thermodynamic parameter_values = Err e ->
        convert_soc_init soc None (Some (SocDict (Some data) method)) parameter_values
        = Err e).
Proof.
  repeat split; intros; cbn; auto. now rewrite H.
Qed.

(** X8. Whatever the initial state of charge and the tolerance,
    [apply_trim_model_events] only removes events: the events left are
    events of the model, in their order; an event whose name contains
    neither "Maximum voltage" nor "Minimum voltage" is never removed; the
    rest of the model is untouched; and below the tolerance (and not above
    one minus it) exactly the events named "Minimum voltage" go. *)
Theorem trim_model_events_only_removes_voltage_events
    (m : model event_expr model_body) (SOC_init SOC_tol : float) :
  let trimmed := apply_trim_model_events m SOC_init SOC_tol in
  (exists keep, events trimmed = filter keep (events m))
  /\ (forall e, In e (events m) ->
        Py.str_in "Maximum voltage" (name e) = false ->
        Py.str_in "Minimum voltage" (name e) = false ->
        In e (events trimmed))
  /\ rest trimmed = rest m
  /\ ((1 - SOC_tol <? SOC_init) = false -> (SOC_init <? SOC_tol) = true ->
      events trimmed
      = filter (fun e => negb (Py.str_in "Minimum voltage" (name e))) (events m)).
Proof.
  cbv zeta. unfold apply_trim_model_events.
  destruct (1 - SOC_tol <? SOC_init); [|destruct (SOC_init <? SOC_tol)]; cbn [events rest].
  - split; [eauto|]. split; [|split; [reflexivity|discriminate]].
    intros e He H1 _. apply filter_In. now rewrite H1.
  - split; [eauto|]. split; [|split; [reflexivity|reflexivity]].
    intros e He _ H2. apply filter_In. now rewrite H2.
  - split.
    + exists (fun _ => true). symmetry. apply forallb_filter_id.
      apply forallb_forall. reflexivity.
    + split; [auto|]. split; [reflexivity|discriminate].
Qed.

End Resolution.

(** ** More on the degradation scaler *)

Section DegradationEffects.
Context {C : Collaborators}.
Local Open Scope float_scope.

Implicit Types (parameter_values vals : pv) (degradation_state : Dict.t float).

(** The last two stages of the scaler, from the values after the faradaic
    stage. *)
Lemma degradation_scaled_vals_tail parameter_values degradation_state vals :
  degradation_scaled_vals parameter_values degradation_state = Ok vals ->
  exists kinetic electrolyte,
    Dict.unique kinetic = true
    /\ match Dict.get degradation_state "RI_electrolyte" with
       | Some ri =>
           let? mul_electrolyte := float_div 1 (1 + ri) in
           apply_RI_electrolyte parameter_values mul_electrolyte
             ["Electrolyte conductivity [S.m-1]"; "Electrolyte diffusivity [m2.s-1]"]%string
             kinetic
       | None => Ok kinetic
       end = Ok electrolyte
    /\ match Dict.get degradation_state "R0_addn [Ohm]" with
       | Some r0 =>
           let? R0_new :=
             match Dict.get parameter_values "Contact resistance [Ohm]" with
             | Some R0_existing => value_add R0_existing r0
             | None => Ok (VNum (0 + r0))
             end in
           Ok (Dict.update electrolyte [("Contact resistance [Ohm]"%string, R0_new)])
       | None => Ok electrolyte
       end = Ok vals
    /\ Dict.unique vals = true.
Proof.
  intros H.
  destruct (degradation_scaled_vals_stages _ _ _ H)
    as (_ & _ & _ & _ & _ & _ & _ & _ & _ & _ & _ & U).
  unfold degradation_scaled_vals in H.
  destruct (calc_lithium_inventory parameter_values) as [ncyc|]; cbn [rbind] in H;
    [|discriminate].
  destruct (select_keys parameter_values volume_fraction_params Dict.empty)
    as [fractions|]; cbn [rbind] in H; [|discriminate].
  destruct (apply_LAM _ _ fractions) as [scaled|]; cbn [rbind] in H; [|discriminate].
  destruct (apply_RI_far _ _ _ _) as [kinetic|] eqn:Hfar; cbn [rbind] in H;
    [|discriminate].
  match type of H with
  | (let? vals := ?stage in _) = _ =>
      destruct stage as [electrolyte|] eqn:Hel; cbn [rbind] in H; [|discriminate]
  end.
  exists kinetic, electrolyte. repeat split; auto.
  eapply apply_RI_far_unique; [exact Hfar|].
  apply DictFacts.unique_update. reflexivity.
Qed.

(** The keys [apply_degradation_state] may write. *)
Lemma degradation_keys_only parameter_values degradation_state vals k :
  degradation_scaled_vals parameter_values degradation_state = Ok vals ->
  ~ In k degradation_keys ->
  Dict.get vals k = None.
Proof.
  intros H N.
  destruct (degradation_scaled_vals_stages _ _ _ H)
    as (ncyc & fractions & scaled & kinetic & electrolyte
        & Hcalc & Hsel & Hlam & Hfar & Hel & Hr0 & U).
  destruct (volume_fractions_stage _ _ _ _ Hsel Hlam)
    as (a & b & a' & b' & Ha & Hb & -> & Wa & Wb).
  unfold degradation_keys in N. cbn [In] in N.
  rewrite Hr0, Hel by (intros ->; apply N; auto 12).
  rewrite (apply_RI_far_frame _ _ _ _ _ _ Hfar).
  - unfold Dict.update. cbn [fold_left fst snd].
    rewrite !DictFacts.get_set_neq by (intros E; apply N; rewrite <- E; auto 12).
    cbn [Dict.get].
    destruct (String.eqb_spec k key_lithium_inventory) as [->|_]; [|reflexivity].
    exfalso. apply N. auto.
  - change kinetic_params with [key_kinetic "Negative"; key_kinetic "Positive"].
    cbn [Py.zip combine map snd In].
    intros [E|[E|[]]]; apply N; rewrite <- E; auto 12.
Qed.

(** X9. [apply_degradation_state] computes everything before its one write:
    when it raises, the mapping is as it was; when it completes, no key
    other than the lithium inventory, the two volume fractions, the two
    exchange-current densities, the electrolyte conductivity and
    diffusivity and the contact resistance has changed. *)
Theorem apply_degradation_state_frame
    parameter_values degradation_state r parameter_values' :
  apply_degradation_state degradation_state parameter_values = (r, parameter_values') ->
  (forall e, r = Err e -> parameter_values' = parameter_values)
  /\ forall k, ~ In k degradation_keys ->
       Dict.get parameter_values' k = Dict.get parameter_values k.
Proof.
  unfold apply_degradation_state, mwrite. intros H.
  destruct (degradation_scaled_vals parameter_values degradation_state)
    as [vals|e0] eqn:Hvals; cbn [rbind] in H; injection H as <- <-.
  - split; [discriminate|]. intros k N.
    destruct (degradation_scaled_vals_stages _ _ _ Hvals)
      as (_ & _ & _ & _ & _ & _ & _ & _ & _ & _ & _ & U).
    rewrite DictFacts.get_update by assumption.
    now rewrite (degradation_keys_only _ _ _ _ Hvals N).
  - split; auto.
Qed.

(** X10. A degradation state with "LLI" alone: on a mapping with a lithium
    inventory [ncyc] and both volume fractions, [apply_degradation_state]
    completes, stores [ncyc * (1 - LLI)] as the inventory and leaves the
    value of every other key, the volume fractions and the kinetic
    parameters among them, as it was. *)
Theorem LLI_alone_changes_the_inventory_only
    parameter_values degradation_state (x ncyc : float) (a b : value obj) :
  Dict.get degradation_state "LLI" = Some x ->
  (forall k, k <> "LLI"%string -> Dict.get degradation_state k = None) ->
  calc_lithium_inventory parameter_values = Ok ncyc ->
  Dict.get parameter_values (key_volume_fraction "Negative") = Some a ->
  Dict.get parameter_values (key_volume_fraction "Positive") = Some b ->
  exists parameter_values',
    apply_degradation_state degradation_state parameter_values
      = (Ok tt, parameter_values')
    /\ Dict.get parameter_values' key_lithium_inventory = Some (VNum (ncyc * (1 - x)))
    /\ forall k, k <> key_lithium_inventory ->
         Dict.get parameter_values' k = Dict.get parameter_values k.
Proof.
  intros HLLI Hnone Hcalc Ha Hb.
  exists (Dict.update parameter_values
            [(key_lithium_inventory, VNum (ncyc * (1 - x)));
             (key_volume_fraction "Negative", a);
             (key_volume_fraction "Positive", b)]).
  assert (Hvals : degradation_scaled_vals parameter_values degradation_state
                  = Ok [(key_lithium_inventory, VNum (ncyc * (1 - x)));
                        (key_volume_fraction "Negative", a);
                        (key_volume_fraction "Positive", b)]).
  { unfold degradation_scaled_vals. rewrite Hcalc, HLLI. cbn [rbind].
    rewrite (Hnone "RI_electrolyte"%string), (Hnone "R0_addn [Ohm]"%string)
      by discriminate.
    change volume_fraction_params
      with [key_volume_fraction "Negative"; key_volume_fraction "Positive"].
    change kinetic_params with [key_kinetic "Negative"; key_kinetic "Positive"].
    cbn [select_keys Py.zip combine apply_LAM apply_RI_far]. unfold Dict.lookup.
    rewrite Ha, Hb. cbn [rbind].
    rewrite (Hnone "LAM_NE"%string), (Hnone "LAM_PE"%string),
            (Hnone "RI_far_NE"%string), (Hnone "RI_far_PE"%string) by discriminate.
    reflexivity. }
  split; [|split].
  - unfold apply_degradation_state, mwrite. now rewrite Hvals.
  - rewrite DictFacts.get_update by reflexivity. reflexivity.
  - intros k N. rewrite DictFacts.get_update by reflexivity.
    cbn [Dict.get].
    destruct (String.eqb_spec k key_lithium_inventory) as [->|_]; [congruence|].
    destruct (String.eqb_spec k (key_volume_fraction "Negative")) as [->|_]; [auto|].
    destruct (String.eqb_spec k (key_volume_fraction "Positive")) as [->|_]; auto.
Qed.

(** X11. Whenever [apply_degradation_state] completes on a state with
    "RI_electrolyte" equal to [r], the electrolyte conductivity and the
    electrolyte diffusivity are both [_scale_param] of their original value
    with the one factor [1 / (1 + r)], and [1 + r] is not zero. *)
Theorem RI_electrolyte_scales_conductivity_and_diffusivity
    parameter_values degradation_state (r : float) parameter_values' :
  Dict.get degradation_state "RI_electrolyte" = Some r ->
  apply_degradation_state degradation_state parameter_values = (Ok tt, parameter_values') ->
  exists conductivity diffusivity,
    (1 + r =? 0) = false
    /\ Dict.get parameter_values "Electrolyte conductivity [S.m-1]" = Some conductivity
    /\ Dict.get parameter_values "Electrolyte diffusivity [m2.s-1]" = Some diffusivity
    /\ Dict.get parameter_values' "Electrolyte conductivity [S.m-1]"
       = Some (_scale_param conductivity (1 / (1 + r)))
    /\ Dict.get parameter_values' "Electrolyte diffusivity [m2.s-1]"
       = Some (_scale_param diffusivity (1 / (1 + r))).
Proof.
  intros Hr. unfold apply_degradation_state, mwrite. intros H.
  destruct (degradation_scaled_vals parameter_values degradation_state)
    as [vals|] eqn:Hvals; cbn [rbind] in H; [|discriminate].
  injection H as <-.
  destruct (degradation_scaled_vals_tail _ _ _ Hvals)
    as (kinetic & electrolyte & Uk & Hel & Hr0 & U).
  rewrite Hr in Hel. unfold float_div in Hel.
  destruct (1 + r =? 0); cbn [rbind] in Hel; [discriminate|].
  cbn [apply_RI_electrolyte] in Hel. unfold Dict.lookup in Hel.
  destruct (Dict.get parameter_values "Electrolyte conductivity [S.m-1]")
    as [conductivity|]; cbn [rbind] in Hel; [|discriminate].
  destruct (Dict.get parameter_values "Electrolyte diffusivity [m2.s-1]")
    as [diffusivity|]; cbn [rbind] in Hel; [|discriminate].
  injection Hel as <-.
  exists conductivity, diffusivity.
  assert (Hvals_get : forall k, k <> "Contact resistance [Ohm]"%string ->
            Dict.get vals k
            = Dict.get
                (Dict.set
                   (Dict.set kinetic "Electrolyte conductivity [S.m-1]"
                      (_scale_param conductivity (1 / (1 + r))))
                   "Electrolyte diffusivity [m2.s-1]"
                   (_scale_param diffusivity (1 / (1 + r)))) k).
  { intros k N. destruct (Dict.get degradation_state "R0_addn [Ohm]").
    - match type of Hr0 with
      | (let? R0_new := ?x in _) = _ =>
          destruct x as [R0_new|]; cbn [rbind] in Hr0; [|discriminate]
      end.
      injection Hr0 as <-. unfold Dict.update. cbn [fold_left fst snd].
      apply DictFacts.get_set_neq. congruence.
    - now injection Hr0 as <-. }
  repeat split; auto; rewrite DictFacts.get_update by assumption;
    rewrite Hvals_get by differ.
  - rewrite DictFacts.get_set_neq by differ. now rewrite DictFacts.get_set_eq.
  - now rewrite DictFacts.get_set_eq.
Qed.

(** X12. Whenever [apply_degradation_state] completes on a state with
    "R0_addn [Ohm]" equal to [r0], the contact resistance is the existing
    contact resistance plus [r0], and [0 + r0] when the mapping had
    none. *)
Theorem R0_addn_adds_to_contact_resistance
    parameter_values degradation_state (r0 : float) parameter_values' :
  Dict.get degradation_state "R0_addn [Ohm]" = Some r0 ->
  apply_degradation_state degradation_state parameter_values = (Ok tt, parameter_values') ->
  exists R0_new,
    Dict.get parameter_values' "Contact resistance [Ohm]" = Some R0_new
    /\ match Dict.get parameter_values "Contact resistance [Ohm]" with
       | Some R0_existing => value_add R0_existing r0 = Ok R0_new
       | None => R0_new = VNum (0 + r0)
       end.
Proof.
  intros Hr. unfold apply_degradation_state, mwrite. intros H.
  destruct (degradation_scaled_vals parameter_values degradation_state)
    as [vals|] eqn:Hvals; cbn [rbind] in H; [|discriminate].
  injection H as <-.
  destruct (degradation_scaled_vals_tail _ _ _ Hvals)
    as (kinetic & electrolyte & Uk & Hel & Hr0 & U).
  rewrite Hr in Hr0.
  match type of Hr0 with
  | (let? R0_new := ?x in _) = _ =>
      destruct x as [R0_new|] eqn:HR; cbn [rbind] in Hr0; [|discriminate]
  end.
  injection Hr0 as <-. exists R0_new. split.
  - rewrite DictFacts.get_update by assumption.
    unfold Dict.update. cbn [fold_left fst snd]. now rewrite DictFacts.get_set_eq.
  - destruct (Dict.get parameter_values "Contact resistance [Ohm]"); [exact HR|].
    now injection HR as <-.
Qed.

(** X13. A faradaic resistance increase of minus one is a division by
    zero: on a mapping with a lithium inventory and scalar volume fractions,
    a state whose "RI_far_NE" makes [1 + RI_far_NE] zero ends
    [apply_degradation_state] in a [ZeroDivisionError], and the mapping is
    as it was. *)
Theorem RI_far_of_minus_one_divides_by_zero
    parameter_values degradation_state (y ncyc a b : float) :
  Dict.get degradation_state "RI_far_NE" = Some y ->
  (1 + y =? 0) = true ->
  calc_lithium_inventory parameter_values = Ok ncyc ->
  Dict.get parameter_values (key_volume_fraction "Negative") = Some (VNum a) ->
  Dict.get parameter_values (key_volume_fraction "Positive") = Some (VNum b) ->
  apply_degradation_state degradation_state parameter_values
  = (Err ZeroDivisionError, parameter_values).
Proof.
  intros HNE Hy Hcalc Ha Hb.
  unfold apply_degradation_state, mwrite, degradation_scaled_vals.
  rewrite Hcalc. cbn [rbind].
  change volume_fraction_params
    with [key_volume_fraction "Negative"; key_volume_fraction "Positive"].
  change kinetic_params with [key_kinetic "Negative"; key_kinetic "Positive"].
  cbn [select_keys Py.zip combine apply_LAM apply_RI_far]. unfold Dict.lookup.
  rewrite Ha, Hb, HNE. cbn [rbind]. unfold float_div. rewrite Hy.
  destruct (Dict.get degradation_state "LAM_NE");
    destruct (Dict.get degradation_state "LAM_PE"); reflexivity.
Qed.

End DegradationEffects.

(** ** Strings: prefixes, occurrences and the first split *)

Section StringFacts.

Lemma prefix_refl p : String.prefix p p = true.
Proof.
  induction p as [|c p IH]; cbn; auto.
  destruct (ascii_dec c c); congruence.
Qed.

Lemma prefix_app p : forall x, String.prefix p (p ++ x) = true.
Proof.
  induction p as [|c p IH]; intros x; cbn.
  - destruct x; reflexivity.
  - destruct (ascii_dec c c); [apply IH | congruence].
Qed.

Lemma prefix_app_r p : forall a x,
  String.prefix p a = true -> String.prefix p (a ++ x) = true.
Proof.
  induction p as [|c p IH]; intros a x H.
  - destruct (a ++ x)%string; reflexivity.
  - destruct a as [|c' a]; cbn in H; [discriminate|]. cbn.
    destruct (ascii_dec c c'); [auto | discriminate].
Qed.

Lemma prefix_drop p : forall s,
  String.prefix p s = true -> s = (p ++ Py.drop (String.length p) s)%string.
Proof.
  induction p as [|c p IH]; intros s H; cbn.
  - reflexivity.
  - destruct s as [|c' s]; cbn in H; [discriminate|].
    destruct (ascii_dec c c') as [->|]; [|discriminate].
    f_equal. auto.
Qed.

Lemma prefix_str_in p s : String.prefix p s = true -> Py.str_in p s = true.
Proof. destruct s; cbn; intros ->; reflexivity. Qed.

Lemma str_in_refl p : Py.str_in p p = true.
Proof. apply prefix_str_in, prefix_refl. Qed.

Lemma str_in_app_l p x : Py.str_in p (p ++ x) = true.
Proof. apply prefix_str_in, prefix_app. Qed.

(** The first split: the parts give the string back, and the separator does
    not occur in the part before it. *)
Lemma split_first_spec sep : sep <> ""%string -> forall s a b,
  Py.split_first sep s = Some (a, b) ->
  s = (a ++ sep ++ b)%string /\ Py.str_in sep a = false.
Proof.
  intros Hsep. induction s as [|c s IH]; intros a b H.
  - destruct sep; [congruence|]. cbn in H. discriminate.
  - cbn [Py.split_first] in H.
    destruct (String.prefix sep (String c s)) eqn:P.
    + injection H as <- <-. split.
      * now apply prefix_drop.
      * cbn. destruct sep; [congruence | reflexivity].
    + destruct (Py.split_first sep s) as [[a' b']|] eqn:E; [|discriminate].
      injection H as <- <-. destruct (IH _ _ eq_refl) as [-> Ha']. split.
      * reflexivity.
      * cbn [Py.str_in]. rewrite Ha', orb_false_r.
        destruct (String.prefix sep (String c a')) eqn:P'; [|reflexivity].
        apply (prefix_app_r _ _ (sep ++ b')) in P'. cbn in P, P'. congruence.
Qed.

Lemma str_in_split_first sep : forall s,
  Py.str_in sep s = true -> exists a b, Py.split_first sep s = Some (a, b).
Proof.
  induction s as [|c s IH]; intros H.
  - cbn in H. cbn. rewrite H. eauto.
  - cbn [Py.str_in] in H. cbn [Py.split_first].
    destruct (String.prefix sep (String c s)); [eauto|].
    cbn in H. destruct (IH H) as (a & b & ->). eauto.
Qed.

Lemma str_app_longer a sep b : sep <> ""%string -> (a ++ sep ++ b)%string <> a.
Proof.
  intros Hsep E. apply (f_equal String.length) in E.
  rewrite !str_length_app in E. destruct sep; [congruence|]. cbn in E. lia.
Qed.

(** [s.partition(sep)] of a string that contains [sep]. *)
Lemma partition_spec sep s :
  sep <> ""%string -> Py.str_in sep s = true ->
  exists a b, Py.partition sep s = (a, sep, b)
              /\ s = (a ++ sep ++ b)%string /\ Py.str_in sep a = false.
Proof.
  intros Hsep H. destruct (str_in_split_first sep s H) as (a & b & E).
  exists a, b. unfold Py.partition. rewrite E.
  destruct (split_first_spec sep Hsep s a b E). auto.
Qed.

End StringFacts.

(** ** Synthesis of the generic functions *)

Section GenericSynthesis.
Context {C : Collaborators}.

Implicit Types (d : pv) (k param : string).

(** A loop that deletes the keys a test picks. *)
Lemma delete_where (cond : string -> bool) ks : forall d d',
  mfor ks (fun k => if cond k then delitem k else mret tt) d = (Ok tt, d') ->
  (forall k, In k ks -> cond k = true -> Dict.get d' k = None)
  /\ (forall k, cond k = false -> Dict.get d' k = Dict.get d k)
  /\ (forall k, Dict.get d k = None -> Dict.get d' k = None).
Proof.
  induction ks as [|k0 ks IH]; intros d d' H; cbn [mfor] in H.
  - unfold mret in H. injection H as <-. repeat split; auto. intros k [].
  - unfold mbind in H.
    destruct (cond k0) eqn:Hc.
    + unfold delitem, mwrite, Dict.del in H.
      destruct (Dict.mem d k0); [|discriminate].
      destruct (IH _ _ H) as (H1 & H2 & H3).
      assert (Hnone : forall k, Dict.get d k = None ->
                                Dict.get (Dict.remove d k0) k = None).
      { intros k Hk. destruct (String.eqb_spec k0 k) as [->|N].
        - apply DictFacts.get_remove_eq.
        - now rewrite DictFacts.get_remove_neq. }
      repeat split.
      * intros k [<-|Hk] Hck; [|auto]. apply H3, DictFacts.get_remove_eq.
      * intros k Hck. rewrite H2 by assumption.
        apply DictFacts.get_remove_neq. congruence.
      * intros k Hk. auto.
    + unfold mret at 1 in H. destruct (IH _ _ H) as (H1 & H2 & H3).
      repeat split; auto.
      intros k [<-|Hk] Hck; [congruence | auto].
Qed.

(** One turn of [build_BPX_incompatible], key by key. *)
Lemma build_generic_step_inv param marker func_type d d' :
  build_generic_step (param, marker, func_type) d = (Ok tt, d') ->
  (exists func,
     _make_generic_func_ce_T func_type (_unflatten (coefficient_entries param d))
       = Ok func
     /\ Dict.get d' param = Some func)
  /\ (forall k, Py.str_in param k = true -> k <> param -> Dict.get d' k = None)
  /\ (forall k, Py.str_in param k = false -> Dict.get d' k = Dict.get d k).
Proof.
  unfold build_generic_step. intros H.
  unfold mbind at 1, mread at 1 in H.
  unfold mbind at 1, mread at 1 in H.
  destruct (_make_generic_func_ce_T func_type
              (_unflatten (coefficient_entries param d))) as [func|e] eqn:Hfunc;
    [|discriminate].
  unfold mbind at 1 in H.
  destruct (setitem param func d) as [[[]|e] d1] eqn:Hset; [|discriminate].
  unfold mbind at 1, mread at 1 in H.
  assert (Hd1 : d1 = Dict.set d param func).
  { unfold setitem, mwrite in Hset.
    destruct (assignment_needs_key && negb (Dict.mem d param)); [discriminate|].
    now injection Hset as <-. }
  destruct (delete_where _ _ _ _ H) as (H1 & H2 & H3).
  assert (Hself : Py.str_in param param && negb (String.eqb param param) = false).
  { now rewrite String.eqb_refl, andb_false_r. }
  split; [|split].
  - exists func. split; [reflexivity|].
    rewrite H2 by exact Hself. subst d1. apply DictFacts.get_set_eq.
  - intros k Hin N.
    assert (Hc : Py.str_in param k && negb (String.eqb param k) = true).
    { rewrite Hin. cbn. apply negb_true_iff, String.eqb_neq. congruence. }
    destruct (Dict.get d1 k) eqn:Hk.
    + apply H1; [|exact Hc]. apply DictFacts.mem_keys, DictFacts.mem_true. eauto.
    + auto.
  - intros k Hin.
    assert (N : param <> k).
    { intros ->. rewrite str_in_refl in Hin. discriminate. }
    rewrite H2 by now rewrite Hin.
    subst d1. now apply DictFacts.get_set_neq.
Qed.

(** X14. [build_BPX_incompatible] builds a function before it writes it:
    when [_make_generic_func_ce_T] refuses the function type of the first
    marker found, as it does for a type it does not know, the call ends in
    the helper's exception with the mapping as it was, the marker and the
    coefficient entries still in it. *)
Theorem build_BPX_incompatible_refused_type d param marker func_type headers e :
  func_headers d = (param, marker, func_type) :: headers ->
  _make_generic_func_ce_T func_type (_unflatten (coefficient_entries param d)) = Err e ->
  build_BPX_incompatible d = (Err e, d).
Proof.
  intros Hheaders Hrefused. unfold build_BPX_incompatible. rewrite Hheaders.
  cbn [mfor]. unfold mbind at 1. unfold build_generic_step.
  unfold mbind at 1, mread at 1.
  unfold mbind at 1, mread at 1. now rewrite Hrefused.
Qed.

Lemma build_generic_loop : forall hs d d',
  (forall h, In h hs ->
     exists k, Py.str_in " func_type " k = true /\ h = Py.partition " func_type " k) ->
  (forall k v, Dict.get d k = Some v -> Py.str_in " func_type " k = true ->
     In (Py.partition " func_type " k) hs) ->
  mfor hs build_generic_step d = (Ok tt, d') ->
  forall k, Py.str_in " func_type " k = true -> Dict.get d' k = None.
Proof.
  assert (Hsep : " func_type "%string <> ""%string) by discriminate.
  induction hs as [|h hs IH]; intros d d' Hhs Hinv H k Hk; cbn [mfor] in H.
  - unfold mret in H. injection H as <-.
    destruct (Dict.get d k) eqn:E; [|reflexivity].
    destruct (Hinv _ _ E Hk).
  - unfold mbind in H.
    destruct (build_generic_step h d) as [[[]|e] d1] eqn:Hstep; [|discriminate].
    destruct (Hhs h (or_introl eq_refl)) as (k0 & Hk0 & ->).
    destruct (partition_spec _ k0 Hsep Hk0) as (a & b & Hp & -> & Ha).
    rewrite Hp in Hstep.
    destruct (build_generic_step_inv _ _ _ _ _ Hstep) as (Hparam & Hgone & Hsame).
    apply (IH d1 d'); auto.
    + intros h Hh. apply Hhs. now right.
    + intros k' v Hk' Hmark.
      destruct (Py.str_in a k') eqn:Hin.
      * assert (k' <> a) by (intros ->; congruence).
        rewrite Hgone in Hk' by assumption. discriminate.
      * rewrite Hsame in Hk' by assumption.
        destruct (Hinv _ _ Hk' Hmark) as [E|Hin']; [|assumption].
        exfalso.
        destruct (partition_spec _ k' Hsep Hmark) as (a' & b' & Hp' & -> & _).
        rewrite Hp, Hp' in E. injection E as <- <-.
        rewrite str_in_app_l in Hin. discriminate.
Qed.

(** X15. [build_BPX_incompatible] leaves no function-type marker behind:
    when it completes, no key of the mapping contains " func_type ".  On a
    mapping without such a key it does nothing. *)
Theorem build_BPX_incompatible_consumes_markers d :
  (func_headers d = [] -> build_BPX_incompatible d = (Ok tt, d))
  /\ forall d', build_BPX_incompatible d = (Ok tt, d') ->
       forall k, Py.str_in " func_type " k = true -> Dict.get d' k = None.
Proof.
  unfold build_BPX_incompatible. split.
  - intros ->. reflexivity.
  - intros d' H. apply (build_generic_loop (func_headers d) d d'); auto.
    + unfold func_headers. intros h Hh. apply in_map_iff in Hh as (k & <- & Hk).
      apply filter_In in Hk as [_ Hk]. eauto.
    + intros k v Hk Hmark. unfold func_headers. apply in_map. apply filter_In.
      split; [|assumption].
      apply DictFacts.mem_keys, DictFacts.mem_true. eauto.
Qed.

(** X16. [build_exchange_current_density] on a mapping without a
    pre-multiplier entry does nothing; and when the first pre-multiplier
    entry lacks the rate constant, the activation energy or the reference
    temperature, the call ends in the [KeyError] of the first missing one,
    with the mapping as it was. *)
Theorem build_exchange_current_density_missing_input d :
  (param_subst d = [] -> build_exchange_current_density d = (Ok tt, d))
  /\ forall p rest, param_subst d = p :: rest ->
       (Dict.get d (key_rate_constant p) = None ->
        build_exchange_current_density d = (Err (KeyError (key_rate_constant p)), d))
       /\ (forall rate, Dict.get d (key_rate_constant p) = Some rate ->
           Dict.get d (key_activation_energy p) = None ->
           build_exchange_current_density d
           = (Err (KeyError (key_activation_energy p)), d))
       /\ (forall rate Ea, Dict.get d (key_rate_constant p) = Some rate ->
           Dict.get d (key_activation_energy p) = Some Ea ->
           Dict.get d "Reference temperature [K]" = None ->
           build_exchange_current_density d
           = (Err (KeyError "Reference temperature [K]"), d)).
Proof.
  unfold build_exchange_current_density. split.
  - intros ->. reflexivity.
  - intros p rest ->. cbn [mfor].
    unfold build_j0_step, getitem, mbind, mread, Dict.lookup.
    repeat split.
    + intros ->. reflexivity.
    + intros rate -> ->. reflexivity.
    + intros rate Ea -> -> ->. reflexivity.
Qed.

End GenericSynthesis.

(** ** Branch selection on single-phase electrodes *)

Section SinglePhaseSelection.
Context {C : Collaborators}.

(** The loop turn of [apply_hysteresis_branch] for a single-phase
    electrode. *)
Lemma single_phase_electrode_turn hysteresis_branch electrode b (d : pv) :
  NoDup HYSTERESIS_BRANCHES_ELECTRODE ->
  branch_of hysteresis_branch electrode = Ok b ->
  In b HYSTERESIS_BRANCHES_ELECTRODE ->
  (_has_hysteresis_data d electrode "" = true -> assignable d (key_OCP "" electrode)) ->
  exists d',
    mbind (mread (fun _ => branch_of hysteresis_branch electrode))
      (fun branch =>
         mbind (mfold [""%string] (apply_hysteresis_branch_phase electrode) branch)
               (fun _ => mret tt)) d = (Ok tt, d')
    /\ if _has_hysteresis_data d electrode ""
       then Dict.get d' (key_OCP "" electrode)
              = Dict.get d (key_branch_OCP "" electrode b)
            /\ (forall b', In b' HYSTERESIS_BRANCHES_ELECTRODE ->
                  Dict.get d' (key_branch_OCP "" electrode b') = None)
            /\ (forall k, k <> key_OCP "" electrode ->
                  (forall b', In b' HYSTERESIS_BRANCHES_ELECTRODE ->
                     k <> key_branch_OCP "" electrode b') ->
                  Dict.get d' k = Dict.get d k)
       else d' = d.
Proof.
  intros ND Hb Hin Hassign.
  unfold mbind at 1, mread at 1. rewrite Hb. cbn [mfold].
  destruct (_has_hysteresis_data d electrode "") eqn:Hdata.
  - assert (Hv : exists v, Dict.get d (key_branch_OCP "" electrode b) = Some v).
    { apply (has_hysteresis_data_spec d electrode ""); assumption. }
    destruct Hv as [v Hv].
    destruct (apply_hysteresis_branch_phase_selects electrode b "" d v ND Hdata Hv
                (Hassign eq_refl)) as (d' & Hrun & Hcanon & Hgone & Hframe).
    exists d'. unfold mbind. rewrite Hrun. unfold mret.
    rewrite Hv. auto.
  - exists d. split; [|reflexivity].
    unfold apply_hysteresis_branch_phase, mbind, mread, mret. now rewrite Hdata.
Qed.

(** The keys of one electrode are no keys of the other. *)
Lemma electrode_keys_apart b b' :
  key_OCP "" "Positive" <> key_OCP "" "Negative"
  /\ key_OCP "" "Positive" <> key_branch_OCP "" "Negative" b
  /\ key_branch_OCP "" "Positive" b' <> key_OCP "" "Negative"
  /\ key_branch_OCP "" "Positive" b' <> key_branch_OCP "" "Negative" b.
Proof. repeat split; discriminate. Qed.

Lemma has_hysteresis_data_frame (d d' : pv) electrode phase :
  (forall b, In b HYSTERESIS_BRANCHES_ELECTRODE ->
     Dict.get d' (key_branch_OCP phase electrode b)
     = Dict.get d (key_branch_OCP phase electrode b)) ->
  _has_hysteresis_data d' electrode phase = _has_hysteresis_data d electrode phase.
Proof.
  intros H. unfold _has_hysteresis_data, Py.all. f_equal.
  apply map_ext_in. intros b Hb. unfold Dict.mem. now rewrite H.
Qed.

(** X17. On single-phase electrodes [apply_hysteresis_branch] does what the
    selection asks: with distinct listed branches and the selection mapped
    to a listed branch for each electrode, it completes; each electrode
    that has both branch entries gets, under its canonical key, the data
    of its selected branch, and loses its branch keys; every key that is
    no canonical or branch key of such an electrode is as it was. *)
Theorem single_phase_branch_selection hysteresis_branch (d : pv) bN bP :
  NoDup HYSTERESIS_BRANCHES_ELECTRODE ->
  branch_of hysteresis_branch "Negative" = Ok bN ->
  branch_of hysteresis_branch "Positive" = Ok bP ->
  In bN HYSTERESIS_BRANCHES_ELECTRODE ->
  In bP HYSTERESIS_BRANCHES_ELECTRODE ->
  (forall el, In el ELECTRODES -> _has_hysteresis_data d el "" = true ->
     assignable d (key_OCP "" el)) ->
  exists d',
    apply_hysteresis_branch hysteresis_branch (_get_phases_by_electrode (false, false)) d
      = (Ok tt, d')
    /\ (forall el b, (el, b) = ("Negative"%string, bN) \/ (el, b) = ("Positive"%string, bP) ->
          _has_hysteresis_data d el "" = true ->
          Dict.get d' (key_OCP "" el) = Dict.get d (key_branch_OCP "" el b)
          /\ forall b', In b' HYSTERESIS_BRANCHES_ELECTRODE ->
               Dict.get d' (key_branch_OCP "" el b') = None)
    /\ forall k,
         (forall el, In el ELECTRODES -> _has_hysteresis_data d el "" = true ->
            k <> key_OCP "" el
            /\ forall b', In b' HYSTERESIS_BRANCHES_ELECTRODE ->
                 k <> key_branch_OCP "" el b') ->
         Dict.get d' k = Dict.get d k.
Proof.
  intros ND HbN HbP HinN HinP Hassign.
  destruct (single_phase_electrode_turn hysteresis_branch "Negative" bN d ND HbN HinN)
    as (d1 & Hrun1 & H1).
  { apply Hassign. cbn. auto. }
  assert (Hpos : forall k,
            k = key_OCP "" "Positive"
            \/ (exists b', k = key_branch_OCP "" "Positive" b') ->
            Dict.get d1 k = Dict.get d k).
  { intros k Hk. destruct (_has_hysteresis_data d "Negative" ""); [|now subst].
    destruct H1 as (_ & _ & Hframe). apply Hframe.
    - destruct Hk as [->|[b' ->]];
        [pose proof (electrode_keys_apart bN bN) | pose proof (electrode_keys_apart bN b')];
        tauto.
    - intros b _. destruct Hk as [->|[b' ->]];
        [pose proof (electrode_keys_apart b b) | pose proof (electrode_keys_apart b b')];
        tauto. }
  assert (Hdata2 : _has_hysteresis_data d1 "Positive" ""
                   = _has_hysteresis_data d "Positive" "").
  { apply has_hysteresis_data_frame. intros b _. apply Hpos. eauto. }
  destruct (single_phase_electrode_turn hysteresis_branch "Positive" bP d1 ND HbP HinP)
    as (d2 & Hrun2 & H2).
  { rewrite Hdata2. intros Hd Hflag. unfold Dict.mem. rewrite Hpos by auto.
    apply (Hassign "Positive"%string); cbn; auto. }
  rewrite Hdata2 in H2.
  exists d2. split; [|split].
  - unfold apply_hysteresis_branch, _get_phases_by_electrode. cbn [map fst snd].
    change (Py.zip ELECTRODES [[""%string]; [""%string]])
      with [("Negative"%string, [""%string]); ("Positive"%string, [""%string])].
    cbn [mfor]. unfold mbind at 1. rewrite Hrun1.
    unfold mbind at 1. rewrite Hrun2. reflexivity.
  - intros el b [[= -> ->]|[= -> ->]] Hd.
    + rewrite Hd in H1. destruct H1 as (Hcanon & Hgone & _).
      assert (Hkeep : forall k,
                k = key_OCP "" "Negative"
                \/ (exists b', k = key_branch_OCP "" "Negative" b') ->
                Dict.get d2 k = Dict.get d1 k).
      { intros k Hk. destruct (_has_hysteresis_data d "Positive" ""); [|now subst].
        destruct H2 as (_ & _ & Hframe). apply Hframe.
        - destruct Hk as [->|[b' ->]];
            [pose proof (electrode_keys_apart bN bN) | pose proof (electrode_keys_apart b' bN)];
            intuition congruence.
        - intros b' _. destruct Hk as [->|[b'' ->]];
            [pose proof (electrode_keys_apart bN b') | pose proof (electrode_keys_apart b'' b')];
            intuition congruence. }
      split.
      * rewrite Hkeep by auto. exact Hcanon.
      * intros b' Hb'. rewrite Hkeep by eauto. auto.
    + rewrite Hd in H2. destruct H2 as (Hcanon & Hgone & _).
      split; [|exact Hgone]. rewrite Hcanon. apply Hpos. eauto.
  - intros k Hk.
    assert (E2 : Dict.get d2 k = Dict.get d1 k).
    { destruct (_has_hysteresis_data d "Positive" "") eqn:Hd; [|now subst].
      destruct H2 as (_ & _ & Hframe).
      destruct (Hk "Positive"%string) as [N1 N2]; cbn; auto. }
    assert (E1 : Dict.get d1 k = Dict.get d k).
    { destruct (_has_hysteresis_data d "Negative" "") eqn:Hd; [|now subst].
      destruct H1 as (_ & _ & Hframe).
      destruct (Hk "Negative"%string) as [N1 N2]; cbn; auto. }
    congruence.
Qed.

End SinglePhaseSelection.

(** ** The charge branch in [get_params] *)

Section ChargeBranch.
Context {C : Collaborators}.

Lemma has_hysteresis_data_unchanged (d d' : pv) electrode phase :
  (forall k, phase_key electrode phase k -> Dict.get d' k = Dict.get d k) ->
  _has_hysteresis_data d' electrode phase = _has_hysteresis_data d electrode phase.
Proof.
  intros H. unfold _has_hysteresis_data, Py.all. f_equal.
  apply map_ext_in. intros b Hb. unfold Dict.mem.
  rewrite H; [reflexivity|]. right. eauto.
Qed.

(** The loop over the phases of one electrode, when the variable [branch]
    cannot go astray: there is at most one phase, or the branch listed last,
    which the deletion loop leaves in [branch], is the selected branch
    itself.  Every phase with both branch entries gets the data of the
    selected branch under its canonical key and loses its branch keys; no
    key of another phase changes. *)
Lemma electrode_phases_selected electrode b phases :
  NoDup HYSTERESIS_BRANCHES_ELECTRODE ->
  In b HYSTERESIS_BRANCHES_ELECTRODE ->
  List.length phases <= 1 \/ last HYSTERESIS_BRANCHES_ELECTRODE b = b ->
  NoDup phases ->
  (forall p p' k, In p phases -> In p' phases -> p <> p' ->
     phase_key electrode p k -> ~ phase_key electrode p' k) ->
  forall d : pv,
  (forall p, In p phases -> _has_hysteresis_data d electrode p = true ->
     assignable d (key_OCP p electrode)) ->
  exists d' b',
    mfold phases (apply_hysteresis_branch_phase electrode) b d = (Ok b', d')
    /\ (forall p, In p phases -> _has_hysteresis_data d electrode p = true ->
          exists v,
            Dict.get d (key_branch_OCP p electrode b) = Some v
            /\ Dict.get d' (key_OCP p electrode) = Some v
            /\ forall b0, In b0 HYSTERESIS_BRANCHES_ELECTRODE ->
                 Dict.get d' (key_branch_OCP p electrode b0) = None)
    /\ (forall k, (forall p, In p phases -> ~ phase_key electrode p k) ->
          Dict.get d' k = Dict.get d k).
Proof.
  intros ND Hb. induction phases as [|p ps IH]; intros Hlast NDp Hsep d Hassign.
  - exists d, b. split; [reflexivity|]. split; [intros p []|auto].
  - apply NoDup_cons_iff in NDp as [Hp NDps].
    assert (Hsep' : forall q q' k, In q ps -> In q' ps -> q <> q' ->
              phase_key electrode q k -> ~ phase_key electrode q' k).
    { intros q q' k Hq Hq'. apply Hsep; now right. }
    assert (Hqp : forall q k, In q ps ->
              phase_key electrode q k -> ~ phase_key electrode p k).
    { intros q k Hq. apply Hsep; [now right|now left|]. intros ->. contradiction. }
    assert (Hpq : forall q k, In q ps ->
              phase_key electrode p k -> ~ phase_key electrode q k).
    { intros q k Hq. apply Hsep; [now left|now right|]. intros ->. contradiction. }
    destruct (_has_hysteresis_data d electrode p) eqn:Hdata.
    + destruct (proj1 (has_hysteresis_data_spec d electrode p) Hdata b Hb) as [v Hv].
      destruct (apply_hysteresis_branch_phase_selects electrode b p d v ND Hdata Hv)
        as (d1 & Hrun & Hcanon & Hgone & Hframe).
      { apply Hassign; [now left|assumption]. }
      assert (Hkeep : forall k, ~ phase_key electrode p k ->
                Dict.get d1 k = Dict.get d k).
      { intros k Hk. apply Hframe.
        - intros ->. apply Hk. now left.
        - intros b0 _ ->. apply Hk. right. eauto. }
      destruct Hlast as [Hlen|Hlast].
      * destruct ps; [|cbn in Hlen; lia].
        exists d1, (last HYSTERESIS_BRANCHES_ELECTRODE b).
        split; [cbn [mfold]; unfold mbind; rewrite Hrun; reflexivity|].
        split.
        -- intros q [<-|[]] _. exists v. auto.
        -- intros k Hk. apply Hkeep. apply Hk. now left.
      * rewrite Hlast in Hrun.
        assert (Hdata1 : forall q, In q ps ->
                  _has_hysteresis_data d1 electrode q
                  = _has_hysteresis_data d electrode q).
        { intros q Hq. apply has_hysteresis_data_unchanged.
          intros k Hk. apply Hkeep. eapply Hqp; eauto. }
        destruct (IH (or_intror Hlast) NDps Hsep' d1) as (d' & b' & Hrun' & Hsel & Hframe').
        { intros q Hq Hd Hflag. rewrite Hdata1 in Hd by assumption.
          unfold Dict.mem. rewrite Hkeep.
          - apply (Hassign q); [now right|assumption|assumption].
          - eapply Hqp; eauto. now left. }
        exists d', b'.
        split; [cbn [mfold]; unfold mbind at 1; rewrite Hrun; exact Hrun'|].
        split.
        -- intros q [<-|Hq] Hd.
           ++ exists v. split; [assumption|]. split.
              ** rewrite Hframe'; [assumption|].
                 intros q Hq. apply (Hpq q _ Hq). now left.
              ** intros b0 Hb0. rewrite Hframe'; [auto|].
                 intros q Hq. apply (Hpq q _ Hq). right. eauto.
           ++ destruct (Hsel q Hq) as (w & Hw & Hc & Hg).
              { now rewrite Hdata1. }
              exists w. split; [|auto]. rewrite <- Hw. symmetry.
              apply Hkeep. apply (Hqp q _ Hq). right. eauto.
        -- intros k Hk. rewrite Hframe' by (intros q Hq; apply Hk; now right).
           apply Hkeep. apply Hk. now left.
    + assert (Hstep : apply_hysteresis_branch_phase electrode b p d = (Ok b, d)).
      { unfold apply_hysteresis_branch_phase, mbind, mread, mret. now rewrite Hdata. }
      destruct (IH) with (d := d) as (d' & b' & Hrun' & Hsel & Hframe'); auto.
      { destruct Hlast as [Hlen|Hlast]; [left; cbn in Hlen; lia|now right]. }
      { intros q Hq. apply Hassign. now right. }
      exists d', b'.
      split; [cbn [mfold]; unfold mbind at 1; rewrite Hstep; exact Hrun'|].
      split.
      * intros q [<-|Hq] Hd; [congruence|auto].
      * intros k Hk. apply Hframe'. intros q Hq. apply Hk. now right.
Qed.

(** The phases [get_params] gives the negative electrode, and their keys:
    apart from each other and from the keys of the positive electrode. *)
Lemma negative_phases_apart (negative : bool) p p' k :
  let phases := if negative
                then map (fun s => s ++ ": ")%string PYBAMM_MATERIAL_NAMES
                else [""%string] in
  (In p phases -> In p' phases -> p <> p' ->
   phase_key "Negative" p k -> ~ phase_key "Negative" p' k)
  /\ (In p phases -> phase_key "Negative" p k -> ~ phase_key "Positive" "" k)
  /\ NoDup phases.
Proof.
  destruct negative; cbn [map PYBAMM_MATERIAL_NAMES String.append]; repeat split.
  - intros [<-|[<-|[]]] [<-|[<-|[]]] N; try congruence;
      intros [->|[b ->]] [E|[b' E]]; unfold key_OCP, key_branch_OCP in E;
      cbn in E; discriminate.
  - intros [<-|[<-|[]]];
      intros [->|[b ->]] [E|[b' E]]; unfold key_OCP, key_branch_OCP in E;
      cbn in E; discriminate.
  - repeat constructor; cbn; intuition discriminate.
  - intros [<-|[]] [<-|[]] N. congruence.
  - intros [<-|[]];
      intros [->|[b ->]] [E|[b' E]]; unfold key_OCP, key_branch_OCP in E;
      cbn in E; discriminate.
  - repeat constructor; cbn; intuition.
Qed.

(** The hysteresis stage of [get_params] for a call with
    [hysteresis_model="none"] and [hysteresis_branch="charge"], on the
    mapping [d] the earlier stages left. *)
Lemma charge_branch_stage
    (a : args) (required_model_opts : Dict.t opt) (d : pv) (bN bP : string) :
  let phases_by_electrode := _get_phases_by_electrode (blended_electrode_or_default a) in
  hysteresis_model a = "none"%string ->
  hysteresis_branch a = "charge"%string ->
  snd (blended_electrode_or_default a) = false ->
  NoDup HYSTERESIS_BRANCHES_ELECTRODE ->
  branch_of "charge" "Negative" = Ok bN ->
  branch_of "charge" "Positive" = Ok bP ->
  In bN HYSTERESIS_BRANCHES_ELECTRODE ->
  In bP HYSTERESIS_BRANCHES_ELECTRODE ->
  (fst (blended_electrode_or_default a) = true ->
   last HYSTERESIS_BRANCHES_ELECTRODE bN = bN) ->
  (forall electrode phases phase,
     In (electrode, phases) (Py.zip ELECTRODES phases_by_electrode) ->
     In phase phases ->
     _has_hysteresis_data d electrode phase = true ->
     assignable d (key_OCP phase electrode)) ->
  exists d',
    hysteresis_stage a phases_by_electrode required_model_opts d
      = (Ok (None, required_model_opts), d')
    /\ charge_branch_selected phases_by_electrode d d'.
Proof.
  intros phases_by_electrode Hmodel Hbranch Hpos ND HbN HbP HinN HinP Hlast Hassign.
  subst phases_by_electrode.
  destruct (blended_electrode_or_default a) as [negative positive].
  cbn [fst snd] in Hpos, Hlast. subst positive.
  unfold _get_phases_by_electrode in *. cbn [map fst snd] in *.
  set (phasesN := if negative
                  then map (fun s => s ++ ": ")%string PYBAMM_MATERIAL_NAMES
                  else [""%string]) in *.
  change (Py.zip ELECTRODES [phasesN; [""%string]])
    with [("Negative"%string, phasesN); ("Positive"%string, [""%string])] in *.
  assert (Hapart : forall p p' k,
            (In p phasesN -> In p' phasesN -> p <> p' ->
             phase_key "Negative" p k -> ~ phase_key "Negative" p' k)
            /\ (In p phasesN -> phase_key "Negative" p k -> ~ phase_key "Positive" "" k)
            /\ NoDup phasesN).
  { intros p p' k. apply (negative_phases_apart negative p p' k). }
  (* the negative electrode *)
  destruct (electrode_phases_selected "Negative" bN phasesN ND HinN) with (d := d)
    as (d1 & b1 & Hrun1 & Hsel1 & Hframe1).
  { destruct negative; [right; auto|left; cbn; lia]. }
  { apply (Hapart ""%string ""%string ""%string). }
  { intros p p' k. apply (Hapart p p' k). }
  { intros p Hp. apply (Hassign "Negative"%string phasesN p); [now left|assumption]. }
  assert (Hpositive : forall k, phase_key "Positive" "" k ->
            Dict.get d1 k = Dict.get d k).
  { intros k Hk. apply Hframe1. intros p Hp Hn.
    exact (proj1 (proj2 (Hapart p p k)) Hp Hn Hk). }
  assert (Hdata1 : _has_hysteresis_data d1 "Positive" ""
                   = _has_hysteresis_data d "Positive" "").
  { apply has_hysteresis_data_unchanged. exact Hpositive. }
  (* the positive electrode *)
  destruct (electrode_phases_selected "Positive" bP [""%string] ND HinP) with (d := d1)
    as (d2 & b2 & Hrun2 & Hsel2 & Hframe2).
  { left. cbn. lia. }
  { repeat constructor. cbn. intuition. }
  { intros p p' k [<-|[]] [<-|[]] N. congruence. }
  { intros p [<-|[]] Hd Hflag. rewrite Hdata1 in Hd.
    unfold Dict.mem. rewrite Hpositive by now left.
    apply (Hassign "Positive"%string [""%string] ""%string); auto.
    right. now left. now left. }
  exists d2. split.
  - unfold hysteresis_stage. rewrite Hmodel, Hbranch.
    cbn [String.eqb Ascii.eqb Bool.eqb negb].
    unfold mbind at 1. unfold apply_hysteresis_branch.
    change (Py.zip ELECTRODES [phasesN; [""%string]])
      with [("Negative"%string, phasesN); ("Positive"%string, [""%string])].
    cbn [mfor].
    unfold mbind at 1. unfold mbind at 1, mread at 1. rewrite HbN.
    unfold mbind at 1. rewrite Hrun1. unfold mret at 1.
    unfold mbind at 1. unfold mbind at 1, mread at 1. rewrite HbP.
    unfold mbind at 1. rewrite Hrun2. reflexivity.
  - unfold charge_branch_selected.
    change (Py.zip ELECTRODES [phasesN; [""%string]])
      with [("Negative"%string, phasesN); ("Positive"%string, [""%string])].
    intros electrode phases phase branch [[= <- <-]|[[= <- <-]|[]]] Hphase Hbr Hd.
    + rewrite HbN in Hbr. injection Hbr as <-.
      destruct (Hsel1 phase Hphase Hd) as (v & Hv & Hc & Hg).
      assert (Hkeep : forall k, phase_key "Negative" phase k ->
                Dict.get d2 k = Dict.get d1 k).
      { intros k Hk. apply Hframe2. intros p [<-|[]].
        exact (proj1 (proj2 (Hapart phase phase k)) Hphase Hk). }
      exists v. split; [assumption|]. split.
      * rewrite Hkeep by now left. assumption.
      * intros b Hb. rewrite Hkeep by (right; eauto). auto.
    + rewrite HbP in Hbr. injection Hbr as <-.
      destruct Hphase as [<-|[]].
      destruct (Hsel2 ""%string (or_introl eq_refl)) as (v & Hv & Hc & Hg).
      { now rewrite Hdata1. }
      exists v. split; [|auto].
      rewrite <- Hv. symmetry. apply Hpositive. right. eauto.
Qed.

(** C4. A call of [get_params] with [hysteresis_model="none"] and
    [hysteresis_branch="charge"] (the positive electrode not blended, since
    such a call never comes this far), at the mapping [d] that function
    synthesis, the corrections and the phase check have left.  The branches
    are listed without repetition, charge is mapped to a listed branch for
    each electrode, and, where the negative electrode is blended, the branch
    listed last is the charge branch of the negative electrode, as it is
    with the branches listed as delithiation, lithiation and charging
    lithiating the negative electrode.  Then the hysteresis stage completes,
    and for every electrode and phase that has both branch entries in [d]
    the canonical open-circuit-potential key holds the original data of the
    charge branch and every branch key is gone; and the same holds of the
    mapping the call has when it returns, [add_initial_concentrations]
    leaving the open-circuit-potential keys alone. *)
Theorem charge_branch_replaces_branch_entries
    (a : args) (required_model_opts : Dict.t opt) (d : pv) (bN bP : string) :
  let phases_by_electrode := _get_phases_by_electrode (blended_electrode_or_default a) in
  hysteresis_model a = "none"%string ->
  hysteresis_branch a = "charge"%string ->
  snd (blended_electrode_or_default a) = false ->
  NoDup HYSTERESIS_BRANCHES_ELECTRODE ->
  branch_of "charge" "Negative" = Ok bN ->
  branch_of "charge" "Positive" = Ok bP ->
  In bN HYSTERESIS_BRANCHES_ELECTRODE ->
  In bP HYSTERESIS_BRANCHES_ELECTRODE ->
  (fst (blended_electrode_or_default a) = true ->
   last HYSTERESIS_BRANCHES_ELECTRODE bN = bN) ->
  (forall electrode phases phase,
     In (electrode, phases) (Py.zip ELECTRODES phases_by_electrode) ->
     In phase phases ->
     _has_hysteresis_data d electrode phase = true ->
     assignable d (key_OCP phase electrode)) ->
  (exists d',
     hysteresis_stage a phases_by_electrode required_model_opts d
       = (Ok (None, required_model_opts), d')
     /\ charge_branch_selected phases_by_electrode d d')
  /\ forall extra_model_opts degradation_state m parameter_values',
       (forall pbe branches soc bounds s r s' electrode phase k,
          add_initial_concentrations pbe branches soc bounds s = (r, s') ->
          phase_key electrode phase k -> Dict.get s' k = Dict.get s k) ->
       configure a extra_model_opts phases_by_electrode degradation_state
         required_model_opts d = (Ok m, parameter_values') ->
       charge_branch_selected phases_by_electrode d parameter_values'.
Proof.
  intros phases_by_electrode Hmodel Hbranch Hpos ND HbN HbP HinN HinP Hlast Hassign.
  split.
  - apply (charge_branch_stage a required_model_opts d bN bP); assumption.
  - intros extra_model_opts degradation_state m parameter_values' Hkeeps Hrun.
    unfold configure in Hrun.
    match type of Hrun with
    | context [hysteresis_stage a phases_by_electrode ?opts] =>
        destruct (charge_branch_stage a opts d bN bP Hmodel Hbranch Hpos ND HbN HbP
                    HinN HinP Hlast Hassign) as (d' & Hstage & Hsel)
    end.
    fold phases_by_electrode in Hstage, Hsel.
    unfold mbind at 1 in Hrun. rewrite Hstage in Hrun.
    unfold mbind at 1, mread at 1 in Hrun.
    destruct (convert_soc_init _ _ _ d') as [soc|e]; [|discriminate].
    unfold mbind at 1 in Hrun.
    destruct (add_initial_concentrations _ _ _ _ d') as [[[]|e] s'] eqn:Haic;
      [|discriminate].
    assert (Hs' : parameter_values' = s').
    { unfold mbind, lift, mread, mret in Hrun.
      repeat match type of Hrun with
             | context [match ?x with Ok _ => _ | Err _ => _ end] =>
                 destruct x; [|discriminate]
             | context [if ?b then _ else _] => destruct b
             end;
        now injection Hrun as _ <-. }
    subst parameter_values'.
    intros electrode phases phase branch Hel Hphase Hbr Hd.
    destruct (Hsel electrode phases phase branch Hel Hphase Hbr Hd)
      as (v & Hv & Hc & Hg).
    exists v. split; [assumption|]. split.
    + rewrite (Hkeeps _ _ _ _ _ _ _ electrode phase _ Haic); [assumption|now left].
    + intros b Hb.
      rewrite (Hkeeps _ _ _ _ _ _ _ electrode phase _ Haic); [auto|right; eauto].
Qed.

End ChargeBranch.

(** ** The one-state hysteresis rewrite and the model resolver *)

Section OneState.
Context {C : Collaborators}.

(** A loop whose every turn leaves the mapping alone. *)
Lemma mfor_unchanged {A} (body : A -> M pv unit) (l : list A) :
  (forall x, In x l -> forall d, body x d = (Ok tt, d)) ->
  forall d, mfor l body d = (Ok tt, d).
Proof.
  induction l as [|x l IH]; intros H d; cbn [mfor]; [reflexivity|].
  unfold mbind. rewrite (H x) by now left. apply IH. intros y Hy. apply H. now right.
Qed.

Lemma in_combine_snd {A B} (l : list A) (l' : list B) x y :
  In (x, y) (combine l l') -> In y l'.
Proof. apply in_combine_r. Qed.

(** X18. [apply_one_state_hysteresis] touches only phases resolved to
    "Wycisk": when no electrode has such a phase the mapping is left as it
    is.  And it refuses a switching factor that is not zero: when the first
    phase of the negative electrode is resolved to "Wycisk" and the mapping
    has a non-zero switching factor for it, the call ends in a [ValueError]
    with the mapping as it was. *)
Theorem one_state_hysteresis_guards (d : pv) :
  (forall use_hysteresis phases_by_electrode,
     (forall u, In u use_hysteresis -> ~ In "Wycisk"%string (as_tuple u)) ->
     apply_one_state_hysteresis use_hysteresis phases_by_electrode d = (Ok tt, d))
  /\ (forall u use_hysteresis phase phases phases_by_electrode rest v,
        as_tuple u = "Wycisk"%string :: rest ->
        Dict.get d ((phase ++ "Negative") ++ " particle hysteresis switching factor")%string
          = Some v ->
        value_ne0 v = true ->
        apply_one_state_hysteresis (u :: use_hysteresis)
          ((phase :: phases) :: phases_by_electrode) d
        = (Err (ValueError
                  (((phase ++ "Negative") ++ " particle hysteresis switching factor")
                   ++ " only supported with zero value.")%string), d)).
Proof.
  split.
  - intros use_hysteresis phases_by_electrode Hno.
    unfold apply_one_state_hysteresis. apply mfor_unchanged.
    intros [[electrode phases] u] Hin d0.
    unfold zip3, Py.zip in Hin. apply in_combine_snd in Hin.
    apply mfor_unchanged. intros [phase up] Hin' d1.
    unfold Py.zip in Hin'. apply in_combine_snd in Hin'.
    destruct (String.eqb_spec up "Wycisk") as [->|N]; [|reflexivity].
    destruct (Hno u Hin Hin').
  - intros u use_hysteresis phase phases phases_by_electrode rest v Hu Hv Hne.
    unfold apply_one_state_hysteresis, zip3, Py.zip.
    change ELECTRODES with ["Negative"%string; "Positive"%string].
    cbn [combine mfor]. rewrite Hu. cbn [combine mfor].
    unfold mbind at 1. unfold mbind at 1.
    cbn [String.eqb Ascii.eqb Bool.eqb].
    unfold mbind at 1, mread at 1. rewrite Hv, Hne.
    reflexivity.
Qed.

(** X19. [get_hysteresis_model_by_electrode] knows two models: for any
    other name, "none" included, it raises the [ValueError] "Invalid
    hysteresis model: ..." whatever the mapping and the phases; for the two
    it knows it returns a bare string exactly when there is one phase, and
    a tuple with one name per phase otherwise. *)
Theorem hysteresis_model_resolver_shape
    (hysteresis_model : string) (parameter_values : pv) (electrode : string)
    (phases : list string) :
  (hysteresis_model <> "zero-state"%string -> hysteresis_model <> "one-state"%string ->
   get_hysteresis_model_by_electrode hysteresis_model parameter_values electrode phases
   = Err (ValueError ("Invalid hysteresis model: " ++ hysteresis_model)))
  /\ (hysteresis_model = "zero-state"%string \/ hysteresis_model = "one-state"%string ->
      exists sel,
        get_hysteresis_model_by_electrode hysteresis_model parameter_values
          electrode phases = Ok sel
        /\ List.length (as_tuple sel) = List.length phases
        /\ ((exists s, sel = HStr s) <-> List.length phases = 1)).
Proof.
  split.
  - intros N1 N2. unfold get_hysteresis_model_by_electrode.
    apply String.eqb_neq in N1, N2. now rewrite N1, N2.
  - intros Hm.
    assert (Hname : exists nm,
      (if String.eqb hysteresis_model "zero-state" then Ok "current sigmoid"%string
       else if String.eqb hysteresis_model "one-state" then Ok "Wycisk"%string
       else Err (ValueError ("Invalid hysteresis model: " ++ hysteresis_model)))
      = Ok nm).
    { destruct Hm as [-> | ->]; cbn; eauto. }
    destruct Hname as [nm Hname].
    unfold get_hysteresis_model_by_electrode. rewrite Hname. cbn [rbind].
    rewrite map_map.
    destruct phases as [|p [|p' ps]]; cbn; eexists; repeat split; eauto;
      try (intros [s E]; discriminate); try discriminate.
    cbn [as_tuple List.length]. now rewrite length_map.
Qed.

End OneState.

(** ** Locating the BPX source and the heat-transfer correction *)

Section Source.
Context {C : Collaborators}.

(** X20. [_get_bpx_src] on a JSON document with an object under "Header".
    A header with "BPX" names a plain BPX file: the path itself is the
    source, and a non-empty [parameter_set] is refused; "BPX" wins over
    "BPX Parent" when a header has both.  A header with neither is refused.
    A "BPX Parent" header with a selected set resolves it through
    "Parameter Sets" to a file next to the parent, and a set that the
    parent does not define is a [ValueError]. *)
Theorem bpx_source_resolution (fp : string) (fields h : Dict.t json)
    (parameter_set : option string) :
  read_json fp = Ok (JObject fields) ->
  Dict.get fields "Header" = Some (JObject h) ->
  (Dict.mem h "BPX" = true ->
   _get_bpx_src fp parameter_set =
   if truthy parameter_set
   then Err (ValueError
               "'parameter_set' selection requires a valid 'BPX Parent' JSON file.")
   else Ok fp)
  /\ (Dict.mem h "BPX" = false -> Dict.mem h "BPX Parent" = false ->
      _get_bpx_src fp parameter_set
      = Err (ValueError ("No valid JSON header at " ++ fp ++ ".")))
  /\ (forall name sets,
        Dict.mem h "BPX" = false -> Dict.mem h "BPX Parent" = true ->
        parameter_set = Some name -> name <> ""%string ->
        Dict.get fields "Parameter Sets" = Some (JObject sets) ->
        _get_bpx_src fp parameter_set =
        match Dict.get sets name with
        | Some (JString f) => Ok (path_join (path_dirname fp) (f ++ ".json"))
        | Some _ => Err (TypeError "unsupported operand type(s) for +")
        | None => Err (ValueError
                         ("Parameter set '" ++ name ++ "' not defined in " ++ fp ++ "."))
        end).
Proof.
  intros Hread Hheader.
  assert (Hmem : Dict.mem fields "Header" = true)
    by (apply DictFacts.mem_true; eauto).
  repeat split.
  - intros Hbpx. unfold _get_bpx_src. rewrite Hread. cbn [rbind json_contains].
    rewrite Hmem. cbn [negb raise_if rbind json_item].
    rewrite (DictFacts.lookup_get _ _ _ Hheader). cbn [rbind json_contains].
    rewrite Hbpx. now destruct (truthy parameter_set).
  - intros Hbpx Hparent. unfold _get_bpx_src. rewrite Hread. cbn [rbind json_contains].
    rewrite Hmem. cbn [negb raise_if rbind json_item].
    rewrite (DictFacts.lookup_get _ _ _ Hheader). cbn [rbind json_contains].
    now rewrite Hbpx, Hparent.
  - intros name sets Hbpx Hparent -> Hname Hsets.
    unfold _get_bpx_src. rewrite Hread. cbn [rbind json_contains].
    rewrite Hmem. cbn [negb raise_if rbind json_item].
    rewrite (DictFacts.lookup_get _ _ _ Hheader). cbn [rbind json_contains].
    rewrite Hbpx, Hparent. cbn [truthy].
    apply String.eqb_neq in Hname. rewrite Hname. cbn [negb].
    rewrite (DictFacts.lookup_get _ _ _ Hsets). cbn [rbind json_contains].
    unfold Dict.mem. destruct (Dict.get sets name) as [file|] eqn:E.
    + cbn [negb raise_if rbind json_item].
      rewrite (DictFacts.lookup_get _ _ _ E). cbn [rbind]. now destruct file.
    + reflexivity.
Qed.

(** [apply_degradation_state] leaves every entry outside its keys as it
    was, whatever the state. *)
Lemma apply_degradation_state_untouched (st : Dict.t float) (d d' : pv) r k :
  apply_degradation_state st d = (r, d') ->
  ~ In k degradation_keys ->
  Dict.get d' k = Dict.get d k.
Proof.
  intros Hrun Hk. unfold apply_degradation_state, mwrite in Hrun.
  destruct (degradation_scaled_vals d st) as [vals|e] eqn:E;
    cbn [rbind] in Hrun; injection Hrun as _ <-; [|reflexivity].
  destruct (degradation_scaled_vals_stages _ _ _ E)
    as (_ & _ & _ & _ & _ & _ & _ & _ & _ & _ & _ & U).
  rewrite DictFacts.get_update by assumption.
  now rewrite (degradation_keys_only _ _ _ _ E Hk).
Qed.

(** X21. The heat-transfer coefficient asked for survives the corrections
    of [get_params]: whenever the stage of function synthesis, heat-transfer
    and degradation corrections completes for a call with [htc_ext] given,
    the mapping holds that coefficient under "Total heat transfer
    coefficient [W.m-2.K-1]", whatever degradation state is applied after
    it. *)
Theorem heat_transfer_coefficient_survives_corrections
    (a : args) (h : float) (d d' : pv) x :
  htc_ext a = Some h ->
  corrections a d = (Ok x, d') ->
  Dict.get d' "Total heat transfer coefficient [W.m-2.K-1]" = Some (VNum h).
Proof.
  intros Hh Hrun. unfold corrections in Hrun. rewrite Hh in Hrun.
  unfold mbind at 1 in Hrun.
  destruct (build_exchange_current_density d) as [[[]|e] d1]; [|discriminate].
  unfold mbind at 1 in Hrun.
  destruct (build_BPX_incompatible d1) as [[[]|e] d2]; [|discriminate].
  unfold mbind at 1 in Hrun. unfold apply_htc_ext at 1, mwrite at 1 in Hrun.
  set (d3 := Dict.update d2 _) in Hrun.
  assert (H3 : Dict.get d3 "Total heat transfer coefficient [W.m-2.K-1]" = Some (VNum h)).
  { subst d3. rewrite DictFacts.get_update by reflexivity. reflexivity. }
  unfold mbind at 1, lift, mread at 1 in Hrun.
  destruct (effective_degradation_state (degradation_state a)) as [[st|]|e];
    [| |discriminate].
  - unfold mbind at 1 in Hrun.
    destruct (apply_degradation_state st d3) as [[[]|e] d4] eqn:E4; [|discriminate].
    assert (H4 : Dict.get d4 "Total heat transfer coefficient [W.m-2.K-1]" = Some (VNum h)).
    { rewrite <- H3. eapply apply_degradation_state_untouched; [exact E4|].
      unfold degradation_keys. cbn [In].
      intros [E|[E|[E|[E|[E|[E|[E|[E|[]]]]]]]]]; discriminate. }
    unfold mbind, mread, mret in Hrun.
    destruct (match Dict.get d4 "Contact resistance [Ohm]" with
              | Some v => value_gt0 v | None => Ok false end); [|discriminate].
    now injection Hrun as _ <-.
  - unfold mbind, mread, mret in Hrun.
    destruct (match Dict.get d3 "Contact resistance [Ohm]" with
              | Some v => value_gt0 v | None => Ok false end); [|discriminate].
    now injection Hrun as _ <-.
Qed.

End Source.

(** ** The effect of the one-state rewrite *)

Section OneStateEffect.
Context {C : Collaborators}.

Lemma str_app_assoc (a b c : string) : ((a ++ b) ++ c = a ++ (b ++ c))%string.
Proof. induction a as [|x a IH]; cbn; [reflexivity|now rewrite IH]. Qed.

(** The loop that rebuilds the parameters, for any naming of the keys
    that gives each parameter its own key. *)
Lemma rebuild_loop (key : string -> string) (params : list string) :
  NoDup (map key params) ->
  forall d d',
  mfor params (fun param =>
    (v <- getitem (key param) ;;
     setitem (key param) (_make_hysteresis_compatible v))%m) d = (Ok tt, d') ->
  forall k,
    Dict.get d' k =
    if existsb (String.eqb k) (map key params)
    then option_map _make_hysteresis_compatible (Dict.get d k)
    else Dict.get d k.
Proof.
  induction params as [|p ps IH]; intros ND d d' Hrun k.
  - cbn in Hrun. unfold mret in Hrun. now injection Hrun as <-.
  - cbn [map] in ND. inversion ND as [|? ? Hnotin ND']; subst.
    cbn [mfor] in Hrun. unfold mbind at 1 in Hrun. unfold mbind at 1 in Hrun.
    unfold getitem at 1, mread at 1 in Hrun.
    unfold Dict.lookup at 1 in Hrun.
    destruct (Dict.get d (key p)) as [v|] eqn:Hv; [|discriminate].
    unfold setitem at 1, mwrite at 1 in Hrun.
    destruct (assignment_needs_key && negb (Dict.mem d (key p))); [discriminate|].
    rewrite (IH ND' _ _ Hrun k). cbn [map existsb].
    destruct (String.eqb k (key p)) eqn:E.
    + apply String.eqb_eq in E. subst k. cbn [orb].
      assert (Hex : existsb (String.eqb (key p)) (map key ps) = false).
      { destruct (existsb (String.eqb (key p)) (map key ps)) eqn:Ex; [|reflexivity].
        apply existsb_exists in Ex. destruct Ex as (y & Hy & Ey).
        apply String.eqb_eq in Ey. subst y. contradiction. }
      rewrite Hex, DictFacts.get_set_eq, Hv. reflexivity.
    + apply String.eqb_neq in E. cbn [orb].
      rewrite DictFacts.get_set_neq by congruence. reflexivity.
Qed.

Lemma one_state_rebuilt_NoDup phase : NoDup (one_state_rebuilt phase).
Proof.
  unfold one_state_rebuilt, PARAMS_HYSTERESIS_DIFF. cbn [map].
  repeat constructor; cbn [In];
    intros H; repeat (destruct H as [H|H]; [apply str_app_inj_l in H; discriminate|]);
    exact H.
Qed.

Lemma one_state_keys_apart phase k :
  In k (one_state_zeroed phase) -> ~ In k (one_state_rebuilt phase).
Proof.
  unfold one_state_zeroed, one_state_rebuilt, PARAMS_HYSTERESIS_DIFF.
  cbn [map In]. rewrite str_app_assoc.
  intros [<-|[<-|[]]] H;
    repeat (destruct H as [H|H]; [apply str_app_inj_l in H; discriminate|]);
    exact H.
Qed.

(** X22. The one-state rewrite of a negative electrode with one phase
    resolved to "Wycisk", the positive electrode having none.  When
    [apply_one_state_hysteresis] completes, the switching factor and the
    initial hysteresis state of the phase are zero, each of the two branch
    open-circuit potentials, the open-circuit potential and its entropic
    change is the former entry passed through
    [_make_hysteresis_compatible], and every other entry is as it was. *)
Theorem one_state_rewrite_effect
    (phase : string) (phases_positive : list string) (u_positive : hyst_sel)
    (d d' : pv) :
  ~ In "Wycisk"%string (as_tuple u_positive) ->
  apply_one_state_hysteresis [HStr "Wycisk"; u_positive]
    [[phase]; phases_positive] d = (Ok tt, d') ->
  forall k,
    Dict.get d' k =
    if Py.mem k (one_state_rebuilt phase)
    then option_map _make_hysteresis_compatible (Dict.get d k)
    else if Py.mem k (one_state_zeroed phase) then Some (VNum 0%float)
    else Dict.get d k.
Proof.
  intros Hpos Hrun k.
  unfold apply_one_state_hysteresis, zip3, Py.zip in Hrun.
  change ELECTRODES with ["Negative"%string; "Positive"%string] in Hrun.
  cbn [combine mfor as_tuple] in Hrun.
  unfold mbind at 1 in Hrun.
  match type of Hrun with
  | context [mfor (combine phases_positive ?l) ?body] =>
      assert (Hid : forall s, mfor (combine phases_positive l) body s = (Ok tt, s))
  end.
  { apply mfor_unchanged. intros [p up] Hin s.
    apply in_combine_r in Hin.
    destruct (String.eqb_spec up "Wycisk") as [->|N]; [contradiction|reflexivity]. }
  match type of Hrun with
  | match ?c d with _ => _ end = _ => destruct (c d) as [[[]|e] d1] eqn:Hneg
  end; [|discriminate].
  unfold mbind at 1 in Hrun. rewrite Hid in Hrun. unfold mret in Hrun.
  injection Hrun as <-.
  unfold mbind at 1 in Hneg. cbn [String.eqb Ascii.eqb Bool.eqb] in Hneg.
  unfold mbind at 1 in Hneg. unfold mread at 1 in Hneg.
  match type of Hneg with
  | context [match Dict.get d ?ks with Some v => value_ne0 v | None => false end] =>
      destruct (match Dict.get d ks with Some v => value_ne0 v | None => false end)
  end; [discriminate|].
  unfold mbind at 1, mret at 1 in Hneg.
  unfold mbind at 1, mwrite at 1 in Hneg.
  match type of Hneg with
  | context [Dict.update d ?o] => set (d0 := Dict.update d o) in Hneg
  end.
  unfold mbind at 1 in Hneg.
  match type of Hneg with
  | match ?c d0 with _ => _ end = _ => destruct (c d0) as [[[]|e] d2] eqn:Hloop
  end; [|discriminate].
  unfold mret in Hneg. injection Hneg as <-.
  pose proof (rebuild_loop
                (fun param => (phase ++ "Negative" ++ " electrode " ++ param)%string)
                PARAMS_HYSTERESIS_DIFF (one_state_rebuilt_NoDup phase) d0 d2 Hloop k)
    as Hk.
  fold (one_state_rebuilt phase) in Hk.
  rewrite Hk. unfold Py.mem.
  assert (H0 : Dict.get d0 k =
               if existsb (String.eqb k) (one_state_zeroed phase)
               then Some (VNum 0%float) else Dict.get d k).
  { subst d0. rewrite DictFacts.get_update.
    - unfold one_state_zeroed. cbn [Dict.get existsb orb].
      rewrite !(String.eqb_sym k).
      destruct (String.eqb _ k); [reflexivity|].
      destruct (String.eqb _ k); reflexivity.
    - cbn [Dict.unique]. unfold Dict.mem. cbn [Dict.get].
      match goal with
      | |- context [String.eqb ?x ?y] => destruct (String.eqb_spec x y) as [E|_]
      end; [|reflexivity].
      rewrite str_app_assoc in E. apply str_app_inj_l in E.
      vm_compute in E. discriminate. }
  destruct (existsb (String.eqb k) (one_state_rebuilt phase)) eqn:Ereb.
  - rewrite H0.
    destruct (existsb (String.eqb k) (one_state_zeroed phase)) eqn:Ez; [|reflexivity].
    exfalso. apply existsb_exists in Ereb, Ez.
    destruct Ereb as (x & Hx & Ex), Ez as (y & Hy & Ey).
    apply String.eqb_eq in Ex, Ey. subst x y.
    exact (one_state_keys_apart phase k Hy Hx).
  - exact H0.
Qed.

End OneStateEffect.

(** ** More runs on the test double *)

Module Checks.

Import Demo.
Local Open Scope float_scope.

#[local] Existing Instance collaborators.

(** C4 on the cell with the blended negative electrode, both of whose
    phases have both branch entries: the call returns, and in the mapping
    it returns each phase has its lithiation data under the canonical
    key. *)
Lemma charge_branch_witness :
  exists parameter_values m,
    get_params blend_charge = Outcome (Ok (parameter_values, m)) (Some parameter_values)
    /\ @charge_branch_selected collaborators
         (_get_phases_by_electrode (blended_electrode_or_default blend_charge))
         blend parameter_values
    /\ Dict.get blend (key_branch_OCP "Secondary: " "Negative" "lithiation")
       = Some (VObj "secondary lithiation"%string)
    /\ Dict.get parameter_values (key_OCP "Secondary: " "Negative")
       = Some (VObj "secondary lithiation"%string).
Proof.
  destruct (@charge_branch_replaces_branch_entries collaborators blend_charge
              Dict.empty blend "lithiation" "delithiation") as [_ Hreturned].
  - reflexivity.
  - reflexivity.
  - reflexivity.
  - repeat constructor; cbn; intuition discriminate.
  - reflexivity.
  - reflexivity.
  - right. left. reflexivity.
  - left. reflexivity.
  - reflexivity.
  - intros electrode phases phase [[= <- <-]|[[= <- <-]|[]]].
    + intros [<-|[<-|[]]] _ _; reflexivity.
    + intros [<-|[]] _ _; reflexivity.
  - do 2 eexists. split; [vm_compute; reflexivity|].
    split; [|split; reflexivity].
    eapply (Hreturned Dict.empty None).
    + intros pbe branches soc bounds s r s' electrode phase k H _.
      now injection H as _ <-.
    + vm_compute. reflexivity.
Defined.

(** Options without a common key are merged. *)
Lemma combine_model_opts_witness :
  match _combine_model_opts required_opts extra_opts with
  | Ok model_opts =>
      (forall k, Dict.mem extra_opts k = true -> Dict.mem required_opts k = false)
      /\ forall k, Dict.get model_opts k
                   = match Dict.get extra_opts k with
                     | Some v => Some v
                     | None => Dict.get required_opts k
                     end
  | Err e =>
      exists k, Dict.mem extra_opts k = true /\ Dict.mem required_opts k = true
                /\ exists msg, e = ValueError msg
  end.
Proof.
  apply (combine_model_opts_merges_or_refuses required_opts extra_opts).
  reflexivity.
Defined.

(** The call with "particle phases" among its extra options raises. *)
Lemma particle_phases_option_witness :
  exists e, returned (get_params reserved_option) = Err e.
Proof.
  apply (@particle_phases_option_is_reserved collaborators reserved_option (OStr "1")).
  reflexivity.
Defined.

(** The call with an unknown model type ends in the error of validation,
    with no mapping. *)
Lemma validation_error_witness :
  exists e,
    validate_args unknown_model = Err e
    /\ get_params unknown_model = Outcome (Err e) None.
Proof.
  eexists. split; [vm_compute; reflexivity|].
  apply (@validation_error_precedes_loading collaborators unknown_model);
    vm_compute; reflexivity.
Defined.

(** A zero "LLI" beside a faradaic resistance increase. *)
Lemma zero_entries_witness :
  get_params (with_degradation_state defaults (Some (DsDict zero_beside_nonzero)))
  = get_params (with_degradation_state defaults
                  (Some (DsDict (nonzero_entries zero_beside_nonzero)))).
Proof.
  apply (@zero_entries_are_dropped collaborators defaults zero_beside_nonzero).
  intros k [<-|[<-|[]]]; reflexivity.
Defined.

(** The frame of the degradation scaler on the single-phase cell. *)
Lemma apply_degradation_state_frame_witness :
  (forall e, Ok tt = Err e -> degraded_cell = cell)
  /\ forall k, ~ In k degradation_keys ->
       Dict.get degraded_cell k = Dict.get cell k.
Proof.
  apply (@apply_degradation_state_frame collaborators
           cell RI_far_NE_only (Ok tt) degraded_cell).
  reflexivity.
Defined.

(** A loss of lithium inventory of 0.1 on the single-phase cell. *)
Lemma LLI_alone_witness :
  exists parameter_values',
    @apply_degradation_state collaborators LLI_only cell = (Ok tt, parameter_values')
    /\ Dict.get parameter_values' key_lithium_inventory = Some (VNum (10 * (1 - 0.1)))
    /\ forall k, k <> key_lithium_inventory ->
         Dict.get parameter_values' k = Dict.get cell k.
Proof.
  apply (@LLI_alone_changes_the_inventory_only collaborators
           cell LLI_only 0.1 10 (VNum 0.75) (VNum 0.5)); try reflexivity.
  intros k N. cbn. destruct (String.eqb k "LLI") eqn:E; [|reflexivity].
  apply String.eqb_eq in E. contradiction.
Defined.

(** An electrolyte resistance increase of one halves the conductivity and
    the diffusivity. *)
Lemma RI_electrolyte_witness :
  exists conductivity diffusivity,
    (1 + 1 =? 0) = false
    /\ Dict.get cell_with_electrolyte "Electrolyte conductivity [S.m-1]"
       = Some conductivity
    /\ Dict.get cell_with_electrolyte "Electrolyte diffusivity [m2.s-1]"
       = Some diffusivity
    /\ Dict.get electrolyte_degraded_cell "Electrolyte conductivity [S.m-1]"
       = Some (@_scale_param collaborators conductivity (1 / (1 + 1)))
    /\ Dict.get electrolyte_degraded_cell "Electrolyte diffusivity [m2.s-1]"
       = Some (@_scale_param collaborators diffusivity (1 / (1 + 1))).
Proof.
  apply (@RI_electrolyte_scales_conductivity_and_diffusivity collaborators
           cell_with_electrolyte RI_electrolyte_only 1 electrolyte_degraded_cell);
    reflexivity.
Defined.

(** An added resistance of 0.5 Ohm on a contact resistance of 0.25 Ohm. *)
Lemma R0_addn_witness :
  exists R0_new,
    Dict.get resistance_degraded_cell "Contact resistance [Ohm]" = Some R0_new
    /\ match Dict.get cell_with_electrolyte "Contact resistance [Ohm]" with
       | Some R0_existing => value_add R0_existing 0.5 = Ok R0_new
       | None => R0_new = VNum (0 + 0.5)
       end.
Proof.
  apply (@R0_addn_adds_to_contact_resistance collaborators
           cell_with_electrolyte R0_addn_only 0.5 resistance_degraded_cell);
    reflexivity.
Defined.

(** A faradaic resistance increase of minus one on the single-phase cell. *)
Lemma RI_far_of_minus_one_witness :
  @apply_degradation_state collaborators RI_far_NE_minus_one cell
  = (Err ZeroDivisionError, cell).
Proof.
  apply (@RI_far_of_minus_one_divides_by_zero collaborators
           cell RI_far_NE_minus_one (-1) 10 0.75 0.5); reflexivity.
Defined.

(** The test double knows no function type, "polynomial" no more than the
    repository's helper does. *)
Lemma build_BPX_incompatible_refused_witness :
  @build_BPX_incompatible collaborators generic_cell
  = (Err (NotImplementedError "Function type polynomial is not implemented."),
     generic_cell).
Proof.
  apply (@build_BPX_incompatible_refused_type collaborators generic_cell
           "Electrolyte conductivity [S.m-1]" " func_type " "polynomial" []);
    reflexivity.
Defined.

(** The charge branch on the single-phase cell, whose negative electrode
    has branch data. *)
Lemma single_phase_branch_selection_witness :
  exists d',
    @apply_hysteresis_branch collaborators "charge"
      (_get_phases_by_electrode (false, false)) cell = (Ok tt, d')
    /\ (forall el b,
          (el, b) = ("Negative"%string, "lithiation"%string)
          \/ (el, b) = ("Positive"%string, "delithiation"%string) ->
          _has_hysteresis_data cell el "" = true ->
          Dict.get d' (key_OCP "" el) = Dict.get cell (key_branch_OCP "" el b)
          /\ forall b', In b' HYSTERESIS_BRANCHES_ELECTRODE ->
               Dict.get d' (key_branch_OCP "" el b') = None)
    /\ forall k,
         (forall el, In el ELECTRODES -> _has_hysteresis_data cell el "" = true ->
            k <> key_OCP "" el
            /\ forall b', In b' HYSTERESIS_BRANCHES_ELECTRODE ->
                 k <> key_branch_OCP "" el b') ->
         Dict.get d' k = Dict.get cell k.
Proof.
  apply (@single_phase_branch_selection collaborators "charge" cell
           "lithiation" "delithiation").
  - repeat constructor; cbn; intuition discriminate.
  - reflexivity.
  - reflexivity.
  - right. left. reflexivity.
  - left. reflexivity.
  - intros el [<-|[<-|[]]] _ _; reflexivity.
Defined.

(** A plain BPX file, as the test double reads "cell.json". *)
Lemma bpx_source_witness :
  (Dict.mem [("BPX"%string, JAtom)] "BPX" = true ->
   @_get_bpx_src collaborators "cell.json" None =
   if truthy None
   then Err (ValueError
               "'parameter_set' selection requires a valid 'BPX Parent' JSON file.")
   else Ok "cell.json"%string)
  /\ (Dict.mem [("BPX"%string, JAtom)] "BPX" = false ->
      Dict.mem [("BPX"%string, JAtom)] "BPX Parent" = false ->
      @_get_bpx_src collaborators "cell.json" None
      = Err (ValueError ("No valid JSON header at " ++ "cell.json" ++ ".")))
  /\ (forall name sets,
        Dict.mem [("BPX"%string, JAtom)] "BPX" = false ->
        Dict.mem [("BPX"%string, JAtom)] "BPX Parent" = true ->
        None = Some name -> name <> ""%string ->
        Dict.get [("Header"%string, JObject [("BPX"%string, JAtom)])] "Parameter Sets"
          = Some (JObject sets) ->
        @_get_bpx_src collaborators "cell.json" None =
        match Dict.get sets name with
        | Some (JString f) =>
            Ok (@path_join collaborators (@path_dirname collaborators "cell.json")
                  (f ++ ".json"))
        | Some _ => Err (TypeError "unsupported operand type(s) for +")
        | None => Err (ValueError
                         ("Parameter set '" ++ name ++ "' not defined in "
                          ++ "cell.json" ++ "."))
        end).
Proof.
  apply (@bpx_source_resolution collaborators "cell.json"
           [("Header"%string, JObject [("BPX"%string, JAtom)])]
           [("BPX"%string, JAtom)] None); reflexivity.
Defined.

(** A call with a heat-transfer coefficient and a loss of lithium
    inventory: the degradation correction runs after the coefficient is
    written, changes the inventory and leaves the coefficient. *)
Lemma heat_transfer_coefficient_witness :
  @corrections collaborators htc_with_LLI cell
  = (Ok (Some LLI_only, Dict.empty), htc_with_LLI_cell)
  /\ Dict.get htc_with_LLI_cell key_lithium_inventory = Some (VNum (10 * (1 - 0.1)))
  /\ Dict.get htc_with_LLI_cell "Total heat transfer coefficient [W.m-2.K-1]"
     = Some (VNum 5).
Proof.
  split; [reflexivity|]. split; [reflexivity|].
  apply (@heat_transfer_coefficient_survives_corrections collaborators
           htc_with_LLI 5 cell htc_with_LLI_cell (Some LLI_only, Dict.empty));
    reflexivity.
Defined.

(** The one-state rewrite of the negative electrode of the single-phase
    cell. *)
Lemma one_state_rewrite_witness :
  @apply_one_state_hysteresis collaborators
    [HStr "Wycisk"; HStr "single"]%string [[""]; [""]]%string one_state_cell
  = (Ok tt, one_state_rewritten_cell)
  /\ forall k,
       Dict.get one_state_rewritten_cell k =
       if Py.mem k (one_state_rebuilt "")
       then option_map (@_make_hysteresis_compatible collaborators)
              (Dict.get one_state_cell k)
       else if Py.mem k (one_state_zeroed "") then Some (VNum 0)
       else Dict.get one_state_cell k.
Proof.
  split; [reflexivity|].
  apply (@one_state_rewrite_effect collaborators "" [""%string] (HStr "single")
           one_state_cell one_state_rewritten_cell).
  - cbn. intuition discriminate.
  - reflexivity.
Defined.

End Checks.
